(** * Grace packing helper: bill lifecycle and synchronisation

    A shallow embedding of the bill handling code of [App.tsx] (the React
    component [App]) and of [services/storageService] (the Supabase
    gateway and the colour palette), together with the properties of the
    bill lifecycle that the specification states.

    Conventions of the embedding:
    - a JavaScript string is the list of its UTF-16 code units;
    - a JavaScript number that holds an integer (epoch milliseconds, box
      counts, the colour hash) is a [Z];
    - an optional property ([colorTheme?], [packedAt?]) is an [option];
    - React state is a record, a handler is a function from the state (and
      the replies of the remote services) to the next state;
    - built-ins of the host whose tables are not part of the repository
      (Unicode case mapping, locale collation, URI decoding, base64) are
      fields of the class [Host]. *)

From Stdlib Require Import ZArith NArith Ascii String DecimalString Sorted Permutation.
From stdpp Require Import base decidable option list gmap.

Local Open Scope Z_scope.

(** ** JavaScript strings *)

Module JS.

Definition jsstring := list N.

(** A literal of the source, as code units. *)
Fixpoint lit (s : string) : jsstring :=
  match s with
  | EmptyString => []
  | String c s' => N_of_ascii c :: lit s'
  end.

Arguments lit : simpl never.

Definition str_eqb (a b : jsstring) : bool := bool_decide (a = b).

(** Truthiness of a string: [if (s)] holds for the non-empty ones. *)
Definition truthy (s : jsstring) : bool :=
  match s with [] => false | _ => true end.

(** WhiteSpace and LineTerminator code points of ECMAScript, the ones
    [String.prototype.trim] strips. *)
Definition is_space (c : N) : bool :=
  ((9 <=? c) && (c <=? 13) || (c =? 32) || (c =? 160) || (c =? 5760)
   || (8192 <=? c) && (c <=? 8202) || (c =? 8232) || (c =? 8233)
   || (c =? 8239) || (c =? 8287) || (c =? 12288) || (c =? 65279))%N.

Fixpoint trimStart (s : jsstring) : jsstring :=
  match s with
  | c :: s' => if is_space c then trimStart s' else s
  | [] => []
  end.

Definition trimEnd (s : jsstring) : jsstring := rev (trimStart (rev s)).

Definition trim (s : jsstring) : jsstring := trimEnd (trimStart s).

Fixpoint startsWith (s p : jsstring) : bool :=
  match p, s with
  | [], _ => true
  | c :: p', d :: s' => (c =? d)%N && startsWith s' p'
  | _ :: _, [] => false
  end.

(** [indexOf]-style search: the text before and after the first
    occurrence of [sep]. *)
Fixpoint cut (sep s : jsstring) : option (jsstring * jsstring) :=
  if startsWith s sep then Some ([], drop (length sep) s)
  else match s with
       | [] => None
       | c :: s' =>
           match cut sep s' with
           | Some (a, b) => Some (c :: a, b)
           | None => None
           end
       end.

Definition includes (s sub : jsstring) : bool :=
  match cut sub s with Some _ => true | None => false end.

(** [s.split(sep)] for a non-empty separator; the fuel is the number of
    code units of [s], an upper bound of the number of cuts. *)
Fixpoint split_fuel (fuel : nat) (sep s : jsstring) : list jsstring :=
  match fuel with
  | O => [s]
  | S fuel' =>
      match cut sep s with
      | Some (a, b) => a :: split_fuel fuel' sep b
      | None => [s]
      end
  end.

Definition split (s sep : jsstring) : list jsstring :=
  split_fuel (length s) sep s.

(** The relational operator [<] on two strings: code units compared
    lexicographically, a proper prefix being smaller. *)
Fixpoint str_ltb (a b : jsstring) : bool :=
  match a, b with
  | _, [] => false
  | [], _ :: _ => true
  | x :: a', y :: b' => (x <? y)%N || (x =? y)%N && str_ltb a' b'
  end.

(** Number to string, for integers (template literals [`${n}`]). *)
Definition of_Z (n : Z) : jsstring := lit (NilZero.string_of_int (Z.to_int n)).

(** ToInt32 and the shift [x << n] on numbers holding integers. *)
Definition toInt32 (x : Z) : Z := (x + 2 ^ 31) mod 2 ^ 32 - 2 ^ 31.

Definition shl (x n : Z) : Z := toInt32 (Z.shiftl (toInt32 x) (n mod 32)).

End JS.

Import JS.

(** ** Host built-ins *)

(** Outcome of a host call that may throw. *)
Inductive attempt (A : Type) : Type :=
  | Fine (a : A)
  | Raised (message : jsstring).
Arguments Fine {A} a.
Arguments Raised {A} message.

(** [toLowerCase] and [localeCompare] depend on the Unicode tables of the
    engine; [decodeURIComponent] and [atob] throw on malformed input.
    The laws are those ECMAScript gives: the empty string has no letters
    to fold, and [localeCompare] is a consistent comparator. *)
Class Host := {
  toLowerCase : jsstring -> jsstring;
  localeCompare : jsstring -> jsstring -> Z;
  decodeURIComponent : jsstring -> attempt jsstring;
  atob : jsstring -> attempt jsstring;
  toLowerCase_empty : toLowerCase [] = [];
  localeCompare_total : forall a b, localeCompare a b <= 0 \/ localeCompare b a <= 0;
  localeCompare_trans : forall a b c,
    localeCompare a b <= 0 -> localeCompare b c <= 0 -> localeCompare a c <= 0;
}.

(** ** Record model *)

Inductive PackingStatus := PENDING | PACKED.

(** Modelled from the spec: the declaration of [BillData] (module
    [./types]) is not among the sources.  The fields are the ones
    [createBill] writes and the handlers and the export read;
    [colorTheme] and [packedAt] are the two optional ones. *)
Record BillData := {
  id : jsstring;
  imageUrl : jsstring;
  customerName : jsstring;
  address : jsstring;
  invoiceNo : jsstring;
  billDate : jsstring;
  status : PackingStatus;
  isDelivery : bool;
  hasCRN : bool;
  isEditedBill : bool;
  isAdditionalBill : bool;
  boxCount : Z;
  description : jsstring;
  colorTheme : option jsstring;
  entryDate : jsstring;
  createdAt : Z;
  updatedAt : Z;
  packedAt : option Z;
}.

Global Instance PackingStatus_eq_dec : EqDecision PackingStatus.
Proof. solve_decision. Defined.

Global Instance BillData_eq_dec : EqDecision BillData.
Proof. solve_decision. Defined.

(** [{ ...b, imageUrl: url }] *)
Definition with_imageUrl (url : jsstring) (b : BillData) : BillData :=
  {| id := id b; imageUrl := url; customerName := customerName b;
     address := address b; invoiceNo := invoiceNo b; billDate := billDate b;
     status := status b; isDelivery := isDelivery b; hasCRN := hasCRN b;
     isEditedBill := isEditedBill b; isAdditionalBill := isAdditionalBill b;
     boxCount := boxCount b; description := description b;
     colorTheme := colorTheme b; entryDate := entryDate b;
     createdAt := createdAt b; updatedAt := updatedAt b;
     packedAt := packedAt b |}.

(** [{ ...b, description: name, colorTheme: color, updatedAt: now }] *)
Definition with_group (name : jsstring) (color : option jsstring) (now : Z)
    (b : BillData) : BillData :=
  {| id := id b; imageUrl := imageUrl b; customerName := customerName b;
     address := address b; invoiceNo := invoiceNo b; billDate := billDate b;
     status := status b; isDelivery := isDelivery b; hasCRN := hasCRN b;
     isEditedBill := isEditedBill b; isAdditionalBill := isAdditionalBill b;
     boxCount := boxCount b; description := name;
     colorTheme := color; entryDate := entryDate b;
     createdAt := createdAt b; updatedAt := now;
     packedAt := packedAt b |}.

(** [{ ...b, status: PackingStatus.PACKED, packedAt: now, updatedAt: now }] *)
Definition with_packed (now : Z) (b : BillData) : BillData :=
  {| id := id b; imageUrl := imageUrl b; customerName := customerName b;
     address := address b; invoiceNo := invoiceNo b; billDate := billDate b;
     status := PACKED; isDelivery := isDelivery b; hasCRN := hasCRN b;
     isEditedBill := isEditedBill b; isAdditionalBill := isAdditionalBill b;
     boxCount := boxCount b; description := description b;
     colorTheme := colorTheme b; entryDate := entryDate b;
     createdAt := createdAt b; updatedAt := now;
     packedAt := Some now |}.

(** ** Colour palette (storageService) *)

Record Theme := {
  name : jsstring; bg : jsstring; border : jsstring; text : jsstring;
  ring : jsstring;
}.

Global Instance Theme_eq_dec : EqDecision Theme.
Proof. solve_decision. Defined.

Definition theme (n b d t r : string) : Theme :=
  {| name := lit n; bg := lit b; border := lit d; text := lit t; ring := lit r |}.

Definition COLOR_PALETTE : list Theme := [
  theme "slate" "bg-slate-50" "border-slate-200" "text-slate-900" "ring-slate-500";
  theme "red" "bg-red-50" "border-red-200" "text-red-900" "ring-red-500";
  theme "orange" "bg-orange-50" "border-orange-200" "text-orange-900" "ring-orange-500";
  theme "amber" "bg-amber-50" "border-amber-200" "text-amber-900" "ring-amber-500";
  theme "green" "bg-emerald-50" "border-emerald-200" "text-emerald-900" "ring-emerald-500";
  theme "teal" "bg-teal-50" "border-teal-200" "text-teal-900" "ring-teal-500";
  theme "blue" "bg-blue-50" "border-blue-200" "text-blue-900" "ring-blue-500";
  theme "indigo" "bg-indigo-50" "border-indigo-200" "text-indigo-900" "ring-indigo-500";
  theme "purple" "bg-purple-50" "border-purple-200" "text-purple-900" "ring-purple-500";
  theme "pink" "bg-pink-50" "border-pink-200" "text-pink-900" "ring-pink-500"
].

(** The loop of [getThemeStyles]:
    [hash = description.charCodeAt(i) + ((hash << 5) - hash)].
    Only the shift wraps to 32 bits; the sum is an ordinary number. *)
Definition hash_step (hash : Z) (c : N) : Z := Z.of_N c + (shl hash 5 - hash).

Definition description_hash (description : jsstring) : Z :=
  fold_left hash_step description 0.

(** [Math.abs(hash) % COLOR_PALETTE.length] *)
Definition palette_index (hash : Z) : Z :=
  Z.rem (Z.abs hash) (Z.of_nat (length COLOR_PALETTE)).

(** [COLOR_PALETTE.find(c => c.name === colorName)] *)
Definition find_theme (colorName : jsstring) : option Theme :=
  List.find (fun c => str_eqb (name c) colorName) COLOR_PALETTE.

(** [getThemeStyles(colorName?, description?)]; [None] stands for an
    argument that is [undefined], and for the [undefined] an array read
    out of range would give. *)
Definition getThemeStyles (colorName description : option jsstring) : option Theme :=
  let by_name :=
    match colorName with
    | Some c => if truthy c then find_theme c else None
    | None => None
    end in
  match by_name with
  | Some found => Some found
  | None =>
      match description with
      | Some d =>
          if truthy d && (0 <? length (trim d))%nat
          then COLOR_PALETTE !! Z.to_nat (palette_index (description_hash d))
          else COLOR_PALETTE !! 0%nat
      | None => COLOR_PALETTE !! 0%nat
      end
  end.

(** ** Remote sync gateway (storageService) *)

Definition BUCKET_NAME : jsstring := lit "receipts".
Definition TABLE_NAME : jsstring := lit "bills".

(** How the backend answers one request: [{ data, error: null }],
    [{ data: null, error }], or a rejected promise. *)
Inductive fault :=
  | Succeeds
  | Fails (message : jsstring)
  | Throws (message : jsstring).

(** Requests sent to the backend, in the order they are awaited. *)
Inductive Call :=
  | StorageRemove (path : jsstring)
  | StorageUpload (fileName blob : jsstring)
  | TableUpsert (row : BillData)
  | TableSelect (key : jsstring)
  | TableDelete (key : jsstring).

(** The module-level client handle ([supabase], null when not set up),
    the bucket behind it and the log of requests. *)
Record World := {
  connected : bool;
  objects : gmap jsstring jsstring;
  calls : list Call;
}.

Definition request (c : Call) (w : World) : World :=
  {| connected := connected w; objects := objects w; calls := calls w ++ [c] |}.

Definition set_objects (o : gmap jsstring jsstring) (w : World) : World :=
  {| connected := connected w; objects := o; calls := calls w |}.

(** [supabase.storage.from(BUCKET_NAME).remove([path])] *)
Definition storage_remove (path : jsstring) (f : fault) (w : World) : World :=
  let w' := request (StorageRemove path) w in
  match f with
  | Succeeds => set_objects (delete path (objects w')) w'
  | _ => w'
  end.

(** [supabase.storage.from(BUCKET_NAME).upload(fileName, blob, { upsert: true })];
    on success the object is stored and [data.path] is [fileName]. *)
Definition storage_upload (fileName blob : jsstring) (f : fault) (w : World) : World :=
  let w' := request (StorageUpload fileName blob) w in
  match f with
  | Succeeds => set_objects (<[fileName := blob]> (objects w')) w'
  | _ => w'
  end.

(** Answers of the backend to the requests of one [saveBillToSupabase];
    [upload_time] is what [Date.now()] returns when the file name is built. *)
Record SaveReplies := {
  upload_time : Z;
  cleanup_reply : fault;
  upload_reply : fault;
  publicUrl : jsstring -> jsstring;
  upsert_reply : option jsstring;
  rollback_reply : fault;
}.

(** [s || fallback] on strings *)
Definition or_else (s fallback : jsstring) : jsstring :=
  if truthy s then s else fallback.

Section Gateway.
Context `{Host}.

(** [atob(base64.split(',')[1])]; the bytes of the blob are the code
    units of the decoded string.  A missing second part is [undefined],
    which [atob] receives as the string "undefined". *)
Definition base64ToBlob (base64 : jsstring) : attempt jsstring :=
  atob (nth 1 (split base64 (lit ",")) (lit "undefined")).

(** The path of the stored image inside the bucket, when [imageUrl] has
    exactly one [/receipts/] in it. *)
Definition bucket_path (url : jsstring) : option (attempt jsstring) :=
  let sep := lit "/" ++ BUCKET_NAME ++ lit "/" in
  if truthy url && includes url sep then
    let parts := split url sep in
    if (length parts =? 2)%nat then Some (decodeURIComponent (nth 1 parts [])) else None
  else None.

(** The block under the comment "CLEANUP: If there is an existing image,
    delete it first to save space"; whatever is thrown inside is caught
    and only warned about. *)
Definition cleanup_old_image (bill : BillData) (r : SaveReplies) (w : World) : World :=
  match bucket_path (imageUrl bill) with
  | Some (Fine oldPath) => storage_remove oldPath (cleanup_reply r) w
  | Some (Raised _) => w
  | None => w
  end.

(** The inner [try] of step 1: blob, upload, public URL.  Gives the bill
    to upsert and [newUploadedPath]. *)
Definition upload_image (bill : BillData) (imageBase64 : jsstring)
    (r : SaveReplies) (w : World) : World * attempt (BillData * option jsstring) :=
  let failed (m : jsstring) : attempt (BillData * option jsstring) :=
    Raised (lit "Image Upload Failed: " ++ or_else m (lit "Unknown error")) in
  match base64ToBlob imageBase64 with
  | Raised m => (w, failed m)
  | Fine blob =>
      let fileName := id bill ++ lit "_" ++ of_Z (upload_time r) ++ lit ".jpg" in
      let w1 := storage_upload fileName blob (upload_reply r) w in
      match upload_reply r with
      | Succeeds =>
          let newUploadedPath := if truthy fileName then Some fileName else None in
          (w1, Fine (with_imageUrl (publicUrl r fileName) bill, newUploadedPath))
      | Fails m | Throws m => (w1, failed m)
      end
  end.

(** Step 2: the upsert and, when it reports an error, the rollback of
    the image uploaded in step 1. *)
Definition upsert_bill (finalBill : BillData) (newUploadedPath : option jsstring)
    (r : SaveReplies) (w : World) : World * attempt unit :=
  let w1 := request (TableUpsert finalBill) w in
  match upsert_reply r with
  | None => (w1, Fine tt)
  | Some m =>
      let failed : attempt unit :=
        Raised (lit "Database Save Failed: " ++ or_else m (lit "Check console for details")) in
      match newUploadedPath with
      | Some p =>
          let w2 := storage_remove p (rollback_reply r) w1 in
          match rollback_reply r with
          | Throws m' => (w2, Raised m')
          | _ => (w2, failed)
          end
      | None => (w1, failed)
      end
  end.

(** [saveBillToSupabase(bill, imageBase64?)]; [Raised] is the rejected
    promise. *)
Definition saveBillToSupabase (bill : BillData) (imageBase64 : option jsstring)
    (r : SaveReplies) (w : World) : World * attempt unit :=
  if negb (connected w) then
    (w, Raised (lit "Database not connected. Please configure Supabase."))
  else
    match imageBase64 with
    | Some img =>
        if truthy img && startsWith img (lit "data:") then
          let w1 := cleanup_old_image bill r w in
          match upload_image bill img r w1 with
          | (w2, Fine (finalBill, newUploadedPath)) =>
              upsert_bill finalBill newUploadedPath r w2
          | (w2, Raised m) => (w2, Raised m)
          end
        else upsert_bill bill None r w
    | None => upsert_bill bill None r w
    end.

End Gateway.

(** Answers of the backend to the requests of one [deleteBillFromSupabase]:
    the [imageUrl] of the selected row (if the row was found), then the
    removal of the image and of the row. *)
Record DeleteReplies := {
  select_reply : option jsstring;
  remove_reply : fault;
  delete_reply : fault;
}.

Section GatewayDelete.
Context `{Host}.

(** [deleteBillFromSupabase(id)]: never rejects, every failure is logged
    only.  A throw of the image removal or of the URI decoding skips the
    deletion of the row (the outer [catch]). *)
Definition deleteBillFromSupabase (key : jsstring) (r : DeleteReplies) (w : World) : World :=
  if negb (connected w) then w
  else
    let w1 := request (TableSelect key) w in
    let delete_row (w : World) : World := request (TableDelete key) w in
    match select_reply r with
    | Some url =>
        match bucket_path url with
        | Some (Fine filePath) =>
            let w2 := storage_remove filePath (remove_reply r) w1 in
            match remove_reply r with
            | Throws _ => w2
            | _ => delete_row w2
            end
        | Some (Raised _) => w1
        | None => delete_row w1
        end
    | None => delete_row w1
    end.

End GatewayDelete.

(** ** The component [App]: state *)

(** What the extraction service returns, and what the planner hands to
    the quick add. *)
Record Extracted := {
  x_customerName : jsstring;
  x_address : jsstring;
  x_invoiceNo : jsstring;
  x_billDate : jsstring;
}.

Record ManualData := {
  m_boxCount : Z;
  m_description : jsstring;
}.

Record DuplicateAlert := {
  existing : BillData;
  newData : Extracted;
  base64 : option jsstring;
}.

(** The [useState] cells the bill handlers read or write. *)
Record AppState := {
  allBills : list BillData;
  currentDate : jsstring;
  loadingId : option jsstring;
  processStatus : jsstring;
  expandedId : option jsstring;
  isSyncing : bool;
  isConfigured : bool;
  isSelectionMode : bool;
  selectedIds : gset jsstring;
  showGroupModal : bool;
  groupNameInput : jsstring;
  groupColorInput : jsstring;
  duplicateAlert : option DuplicateAlert;
}.

Definition setAllBills (f : list BillData -> list BillData) (s : AppState) : AppState :=
  {| allBills := f (allBills s); currentDate := currentDate s;
     loadingId := loadingId s; processStatus := processStatus s;
     expandedId := expandedId s; isSyncing := isSyncing s;
     isConfigured := isConfigured s; isSelectionMode := isSelectionMode s;
     selectedIds := selectedIds s; showGroupModal := showGroupModal s;
     groupNameInput := groupNameInput s; groupColorInput := groupColorInput s;
     duplicateAlert := duplicateAlert s |}.

Definition setLoadingId (v : option jsstring) (s : AppState) : AppState :=
  {| allBills := allBills s; currentDate := currentDate s;
     loadingId := v; processStatus := processStatus s;
     expandedId := expandedId s; isSyncing := isSyncing s;
     isConfigured := isConfigured s; isSelectionMode := isSelectionMode s;
     selectedIds := selectedIds s; showGroupModal := showGroupModal s;
     groupNameInput := groupNameInput s; groupColorInput := groupColorInput s;
     duplicateAlert := duplicateAlert s |}.

Definition setProcessStatus (v : jsstring) (s : AppState) : AppState :=
  {| allBills := allBills s; currentDate := currentDate s;
     loadingId := loadingId s; processStatus := v;
     expandedId := expandedId s; isSyncing := isSyncing s;
     isConfigured := isConfigured s; isSelectionMode := isSelectionMode s;
     selectedIds := selectedIds s; showGroupModal := showGroupModal s;
     groupNameInput := groupNameInput s; groupColorInput := groupColorInput s;
     duplicateAlert := duplicateAlert s |}.

Definition setExpandedId (v : option jsstring) (s : AppState) : AppState :=
  {| allBills := allBills s; currentDate := currentDate s;
     loadingId := loadingId s; processStatus := processStatus s;
     expandedId := v; isSyncing := isSyncing s;
     isConfigured := isConfigured s; isSelectionMode := isSelectionMode s;
     selectedIds := selectedIds s; showGroupModal := showGroupModal s;
     groupNameInput := groupNameInput s; groupColorInput := groupColorInput s;
     duplicateAlert := duplicateAlert s |}.

Definition setIsSyncing (v : bool) (s : AppState) : AppState :=
  {| allBills := allBills s; currentDate := currentDate s;
     loadingId := loadingId s; processStatus := processStatus s;
     expandedId := expandedId s; isSyncing := v;
     isConfigured := isConfigured s; isSelectionMode := isSelectionMode s;
     selectedIds := selectedIds s; showGroupModal := showGroupModal s;
     groupNameInput := groupNameInput s; groupColorInput := groupColorInput s;
     duplicateAlert := duplicateAlert s |}.

Definition setIsSelectionMode (v : bool) (s : AppState) : AppState :=
  {| allBills := allBills s; currentDate := currentDate s;
     loadingId := loadingId s; processStatus := processStatus s;
     expandedId := expandedId s; isSyncing := isSyncing s;
     isConfigured := isConfigured s; isSelectionMode := v;
     selectedIds := selectedIds s; showGroupModal := showGroupModal s;
     groupNameInput := groupNameInput s; groupColorInput := groupColorInput s;
     duplicateAlert := duplicateAlert s |}.

Definition setSelectedIds (v : gset jsstring) (s : AppState) : AppState :=
  {| allBills := allBills s; currentDate := currentDate s;
     loadingId := loadingId s; processStatus := processStatus s;
     expandedId := expandedId s; isSyncing := isSyncing s;
     isConfigured := isConfigured s; isSelectionMode := isSelectionMode s;
     selectedIds := v; showGroupModal := showGroupModal s;
     groupNameInput := groupNameInput s; groupColorInput := groupColorInput s;
     duplicateAlert := duplicateAlert s |}.

Definition setShowGroupModal (v : bool) (s : AppState) : AppState :=
  {| allBills := allBills s; currentDate := currentDate s;
     loadingId := loadingId s; processStatus := processStatus s;
     expandedId := expandedId s; isSyncing := isSyncing s;
     isConfigured := isConfigured s; isSelectionMode := isSelectionMode s;
     selectedIds := selectedIds s; showGroupModal := v;
     groupNameInput := groupNameInput s; groupColorInput := groupColorInput s;
     duplicateAlert := duplicateAlert s |}.

Definition setDuplicateAlert (v : option DuplicateAlert) (s : AppState) : AppState :=
  {| allBills := allBills s; currentDate := currentDate s;
     loadingId := loadingId s; processStatus := processStatus s;
     expandedId := expandedId s; isSyncing := isSyncing s;
     isConfigured := isConfigured s; isSelectionMode := isSelectionMode s;
     selectedIds := selectedIds s; showGroupModal := showGroupModal s;
     groupNameInput := groupNameInput s; groupColorInput := groupColorInput s;
     duplicateAlert := v |}.

(** ** Filtered views *)

(** [Array.prototype.sort(compare)]: a stable sort; an element moves
    behind another one only when [compare] is positive on the pair. *)
Fixpoint sort_insert {A} (compare : A -> A -> Z) (x : A) (l : list A) : list A :=
  match l with
  | [] => [x]
  | y :: l' => if 0 <? compare x y then y :: sort_insert compare x l' else x :: l
  end.

Definition sort {A} (compare : A -> A -> Z) (l : list A) : list A :=
  foldr (sort_insert compare) [] l.

Definition is_pending (b : BillData) : bool :=
  match status b with PENDING => true | PACKED => false end.

Definition todayNewBills (s : AppState) : list BillData :=
  sort (fun a b => createdAt b - createdAt a)
    (List.filter (fun b => str_eqb (entryDate b) (currentDate s)) (allBills s)).

Definition backlogBills `{Host} (s : AppState) : list BillData :=
  sort (fun a b => localeCompare (entryDate a) (entryDate b))
    (List.filter (fun b => is_pending b && str_ltb (entryDate b) (currentDate s))
       (allBills s)).

(** ** The component [App]: handlers *)

(** What [generateId()] and the two [Date.now()] of [createBill] return. *)
Record Fresh := {
  fresh_id : jsstring;
  fresh_createdAt : Z;
  fresh_updatedAt : Z;
}.

(** The file handed to [handleAddBill] and what reading it and the
    extraction service made of it; compression never fails. *)
Inductive Capture :=
  | NoFile
  | ReadFailed
  | ExtractionFailed
  | Captured (base64Image : jsstring) (extracted : Extracted).

Definition is_selected (s : AppState) (b : BillData) : bool :=
  bool_decide (id b ∈ selectedIds s).

Definition truthy_opt (o : option jsstring) : bool :=
  match o with Some v => truthy v | None => false end.

(** [handleToggleSelect(id)] *)
Definition handleToggleSelect (key : jsstring) (s : AppState) : AppState :=
  if bool_decide (key ∈ selectedIds s)
  then setSelectedIds (selectedIds s ∖ {[key]}) s
  else setSelectedIds ({[key]} ∪ selectedIds s) s.

Section Handlers.
Context `{Host}.

(** [Promise.all(bills.map(b => saveBillToSupabase(b)))]: every save is
    started, reply [i] answers the save of the [i]-th bill; the result
    tells whether all were fulfilled. *)
Fixpoint save_each (bills : list BillData) (script : nat -> SaveReplies) (i : nat)
    (w : World) : World * bool :=
  match bills with
  | [] => (w, true)
  | b :: rest =>
      let '(w1, r) := saveBillToSupabase b None (script i) w in
      let '(w2, ok) := save_each rest script (S i) w1 in
      (w2, match r with Fine _ => ok | Raised _ => false end)
  end.

(** [applyGroupSettings()]; when a save rejects, the [await] throws and
    the statements after it are not reached. *)
Definition applyGroupSettings (now : Z) (script : nat -> SaveReplies)
    (s : AppState) (w : World) : AppState * World :=
  let color := if truthy (groupColorInput s) then Some (groupColorInput s) else None in
  let updates :=
    map (fun b => if is_selected s b then with_group (groupNameInput s) color now b else b)
      (allBills s) in
  let s1 := setAllBills (fun _ => updates) (setShowGroupModal false s) in
  let finish (t : AppState) := setSelectedIds ∅ (setIsSelectionMode false t) in
  if isConfigured s then
    let s2 := setIsSyncing true s1 in
    let '(w', ok) := save_each (List.filter (is_selected s) updates) script 0 w in
    if ok then (finish (setIsSyncing false s2), w') else (s2, w')
  else (finish s1, w).

(** [handlePackSelected()]; [confirmed] is the answer to [window.confirm]. *)
Definition handlePackSelected (confirmed : bool) (now : Z) (script : nat -> SaveReplies)
    (s : AppState) (w : World) : AppState * World :=
  if bool_decide (size (selectedIds s) = 0%nat) then (s, w)
  else if confirmed then
    let updates :=
      map (fun b => if is_selected s b then with_packed now b else b) (allBills s) in
    let s1 := setAllBills (fun _ => updates) s in
    let finish (t : AppState) := setSelectedIds ∅ (setIsSelectionMode false t) in
    if isConfigured s then
      let s2 := setIsSyncing true s1 in
      let '(w', ok) := save_each (List.filter (is_selected s) updates) script 0 w in
      if ok then (finish (setIsSyncing false s2), w') else (s2, w')
    else (finish s1, w)
  else (s, w).

(** [handleDeleteSelected()]; the remote deletions never reject.  They
    run concurrently; their requests are logged one deletion after the
    other. *)
Definition handleDeleteSelected (confirmed : bool) (script : jsstring -> DeleteReplies)
    (s : AppState) (w : World) : AppState * World :=
  if bool_decide (size (selectedIds s) = 0%nat) then (s, w)
  else if confirmed then
    let '(s1, w1) :=
      if isConfigured s then
        (setIsSyncing false (setIsSyncing true s),
         foldl (fun w k => deleteBillFromSupabase k (script k) w) w
           (elements (selectedIds s)))
      else (s, w) in
    (setSelectedIds ∅ (setIsSelectionMode false
       (setAllBills (List.filter (fun b => negb (is_selected s b))) s1)), w1)
  else (s, w).

(** The object literal [newBill] of [createBill], after the offline
    assignment of [imageUrl]. *)
Definition newBill (fresh : Fresh) (extracted : Extracted)
    (base64Image : option jsstring) (manualData : option ManualData)
    (s : AppState) : BillData :=
  let offline_image := negb (isConfigured s) && truthy_opt base64Image in
  {| id := fresh_id fresh;
     imageUrl := if offline_image then default [] base64Image else [];
     customerName := or_else (x_customerName extracted) [];
     address := or_else (x_address extracted) [];
     invoiceNo := or_else (x_invoiceNo extracted) [];
     billDate := or_else (x_billDate extracted) [];
     status := PENDING;
     isDelivery := false; hasCRN := false;
     isEditedBill := false; isAdditionalBill := false;
     boxCount := match manualData with Some m => m_boxCount m | None => 0 end;
     description :=
       match manualData with Some m => or_else (m_description m) [] | None => [] end;
     colorTheme := None;
     entryDate := currentDate s;
     createdAt := fresh_createdAt fresh;
     updatedAt := fresh_updatedAt fresh;
     packedAt := None |}.

(** [createBill(extracted, base64Image?, manualData?)] *)
Definition createBill (fresh : Fresh) (extracted : Extracted)
    (base64Image : option jsstring) (manualData : option ManualData)
    (r : SaveReplies) (s : AppState) (w : World) : AppState * World :=
  let bill := newBill fresh extracted base64Image manualData s in
  let s1 := setAllBills (fun prev => bill :: prev) s in
  if negb (isConfigured s) then (setExpandedId (Some (id bill)) s1, w)
  else
    let s2 :=
      setProcessStatus
        (if truthy_opt base64Image then lit "Uploading image to cloud..."
         else lit "Syncing data...")
        (setIsSyncing true s1) in
    match saveBillToSupabase bill base64Image r w with
    | (w', Fine _) => (setIsSyncing false (setExpandedId (Some (id bill)) s2), w')
    | (w', Raised _) =>
        (setIsSyncing false
           (setAllBills (List.filter (fun b => negb (str_eqb (id b) (id bill)))) s2), w')
    end.

(** Normal form of an invoice number in the duplicate check:
    [invoiceNo.trim().toLowerCase()]. *)
Definition normalized (invoice : jsstring) : jsstring := toLowerCase (trim invoice).

(** The duplicate check of [handleAddBill] (the value of [duplicate]). *)
Definition find_duplicate (bills : list BillData) (invoice : jsstring) : option BillData :=
  if truthy invoice then
    let normalizedNew := toLowerCase (trim invoice) in
    if (0 <? length normalizedNew)%nat then
      List.find
        (fun b => truthy (invoiceNo b)
                  && str_eqb (toLowerCase (trim (invoiceNo b))) normalizedNew)
        bills
    else None
  else None.

(** [handleAddBill(file)]; the [finally] block reads the [duplicateAlert]
    of the render the handler was created in. *)
Definition handleAddBill (file : Capture) (fresh : Fresh) (r : SaveReplies)
    (s : AppState) (w : World) : AppState * World :=
  let s0 := setProcessStatus (lit "Compressing image...") (setLoadingId (Some (lit "new")) s) in
  let finally (t : AppState) : AppState :=
    match duplicateAlert s with
    | None => setProcessStatus [] (setLoadingId None t)
    | Some _ => t
    end in
  let save (extracted : Extracted) (base64Image : option jsstring) (t : AppState) :=
    let '(t', w') :=
      createBill fresh extracted base64Image None r
        (setProcessStatus (lit "Saving bill...") t) w in
    (finally t', w') in
  match file with
  | NoFile =>
      save {| x_customerName := []; x_address := []; x_invoiceNo := []; x_billDate := [] |}
        None s0
  | ReadFailed => (finally s0, w)
  | ExtractionFailed => (finally (setProcessStatus (lit "Analyzing with AI...") s0), w)
  | Captured base64Image extracted =>
      let s1 := setProcessStatus (lit "Checking for duplicates...") s0 in
      match find_duplicate (allBills s) (x_invoiceNo extracted) with
      | Some duplicate =>
          (finally
             (setDuplicateAlert
                (Some {| existing := duplicate; newData := extracted;
                         base64 := Some base64Image |})
                (setProcessStatus [] (setLoadingId None s1))), w)
      | None => save extracted (Some base64Image) s1
      end
  end.

(** [handleManualQuickAdd(data)] *)
Definition handleManualQuickAdd (customer invoice : jsstring) (data : ManualData)
    (fresh : Fresh) (r : SaveReplies) (s : AppState) (w : World) : AppState * World :=
  let '(s', w') :=
    createBill fresh
      {| x_customerName := customer; x_address := []; x_invoiceNo := invoice;
         x_billDate := currentDate s |}
      None (Some data) r
      (setProcessStatus (lit "Quick add...") (setLoadingId (Some (lit "new")) s)) w in
  (setProcessStatus [] (setLoadingId None s'), w').

(** [handleConfirmDuplicate()] *)
Definition handleConfirmDuplicate (fresh : Fresh) (r : SaveReplies)
    (s : AppState) (w : World) : AppState * World :=
  match duplicateAlert s with
  | Some alert =>
      let '(s', w') :=
        createBill fresh (newData alert) (base64 alert) None r
          (setProcessStatus (lit "Creating duplicate entry...")
             (setLoadingId (Some (lit "new_dup")) (setDuplicateAlert None s))) w in
      (setProcessStatus [] (setLoadingId None s'), w')
  | None => (s, w)
  end.

(** [handleUpdateBill(updated)]; the rejection of the save is swallowed
    by [.catch(() => {})]. *)
Definition handleUpdateBill (updated : BillData) (r : SaveReplies)
    (s : AppState) (w : World) : AppState * World :=
  let s1 :=
    setAllBills (map (fun b => if str_eqb (id b) (id updated) then updated else b)) s in
  if isConfigured s then (s1, fst (saveBillToSupabase updated None r w))
  else (s1, w).

(** [handleDeleteBill(id)] *)
Definition handleDeleteBill (key : jsstring) (confirmed : bool) (r : DeleteReplies)
    (s : AppState) (w : World) : AppState * World :=
  if confirmed then
    let w1 := if isConfigured s then deleteBillFromSupabase key r w else w in
    let s1 := setAllBills (List.filter (fun b => negb (str_eqb (id b) key))) s in
    (if bool_decide (expandedId s = Some key) then setExpandedId None s1 else s1, w1)
  else (s, w).

End Handlers.

(** ** The component [App]: selection, group dialog, subscription *)

Definition setGroupNameInput (v : jsstring) (s : AppState) : AppState :=
  {| allBills := allBills s; currentDate := currentDate s;
     loadingId := loadingId s; processStatus := processStatus s;
     expandedId := expandedId s; isSyncing := isSyncing s;
     isConfigured := isConfigured s; isSelectionMode := isSelectionMode s;
     selectedIds := selectedIds s; showGroupModal := showGroupModal s;
     groupNameInput := v; groupColorInput := groupColorInput s;
     duplicateAlert := duplicateAlert s |}.

Definition setGroupColorInput (v : jsstring) (s : AppState) : AppState :=
  {| allBills := allBills s; currentDate := currentDate s;
     loadingId := loadingId s; processStatus := processStatus s;
     expandedId := expandedId s; isSyncing := isSyncing s;
     isConfigured := isConfigured s; isSelectionMode := isSelectionMode s;
     selectedIds := selectedIds s; showGroupModal := showGroupModal s;
     groupNameInput := groupNameInput s; groupColorInput := v;
     duplicateAlert := duplicateAlert s |}.

(** [toggleSelectionMode()] *)
Definition toggleSelectionMode (s : AppState) : AppState :=
  let s1 := setIsSelectionMode (negb (isSelectionMode s)) s in
  let s2 := if isSelectionMode s then setSelectedIds ∅ s1 else s1 in
  setExpandedId None s2.

(** [openGroupModal()]: the dialog is prefilled with the first non-empty
    group name and the first non-empty colour among the selected bills. *)
Definition openGroupModal (s : AppState) : AppState :=
  if bool_decide (size (selectedIds s) = 0%nat) then s
  else
    let selectedBills := List.filter (is_selected s) (allBills s) in
    let commonName :=
      match List.find (fun b => truthy (description b)) selectedBills with
      | Some b => or_else (description b) []
      | None => []
      end in
    let commonColor :=
      match List.find (fun b => truthy_opt (colorTheme b)) selectedBills with
      | Some b => or_else (default [] (colorTheme b)) []
      | None => []
      end in
    setShowGroupModal true (setGroupColorInput commonColor (setGroupNameInput commonName s)).

(** The dismissal of the duplicate dialog ("Ignore"):
    [setDuplicateAlert(null)]. *)
Definition ignoreDuplicate (s : AppState) : AppState := setDuplicateAlert None s.

(** Answer to the [select('*')] of [fetchBills]: an error, rows (or no
    data), or a thrown exception. *)
Inductive FetchReply :=
  | FetchError (message : jsstring)
  | FetchData (rows : option (list BillData))
  | FetchThrows (message : jsstring).

(** The callback the sync effect of [App] hands to [subscribeToBills]. *)
Definition onBillsUpdate (bills : list BillData) (s : AppState) : AppState :=
  setIsSyncing false (setAllBills (fun _ => bills) s).

(** [fetchBills()] inside [subscribeToBills]: errors are logged only. *)
Definition fetchBills (reply : FetchReply) (s : AppState) : AppState :=
  match reply with
  | FetchData (Some rows) => onBillsUpdate rows s
  | FetchData None | FetchError _ | FetchThrows _ => s
  end.

(** One delivery of the sync effect: nothing when the component is not
    configured; the empty list when the client handle is null; otherwise
    the outcome of [fetchBills] (run on subscription and on every change
    notification). *)
Definition syncBills (reply : FetchReply) (s : AppState) (w : World) : AppState :=
  if isConfigured s then
    if connected w then fetchBills reply s else onBillsUpdate [] s
  else s.

(** ** Configuration of the gateway (storageService) *)

(** The object stored under [CONFIG_KEY]; a property that is missing in
    the parsed JSON is the empty string here (both are falsy). *)
Record Config := {
  supabaseUrl : jsstring;
  supabaseKey : jsstring;
}.

Section Configuration.
(** [createClient(url, key)]: [Some message] when it throws. *)
Variable createClient : jsstring -> jsstring -> option jsstring.

(** [setupSupabase(url, key)]; [Fine config] stands for: [config] was
    written to local storage and the page reloads. *)
Definition setupSupabase (url key : jsstring) : attempt Config :=
  let cleanUrl := trim url in
  let cleanKey := trim key in
  let rethrow (m : jsstring) : attempt Config :=
    Raised (or_else m (lit "Could not configure Supabase.")) in
  if negb (truthy cleanUrl) || negb (truthy cleanKey)
  then rethrow (lit "Supabase URL and Key are required.")
  else match createClient cleanUrl cleanKey with
       | Some m => rethrow m
       | None => Fine {| supabaseUrl := cleanUrl; supabaseKey := cleanKey |}
       end.

(** [init()], run when the module loads: [stored] is what
    [getStoredConfig()] returns ([None] for a missing or unparsable
    item).  Gives whether the client handle is set and whether the
    stored item was removed. *)
Definition init (stored : option Config) : bool * bool :=
  match stored with
  | Some config =>
      if truthy (supabaseUrl config) && truthy (supabaseKey config) then
        match createClient (supabaseUrl config) (supabaseKey config) with
        | None => (true, false)
        | Some _ => (false, true)
        end
      else (false, false)
  | None => (false, false)
  end.

End Configuration.

(** ** The hash as a polynomial *)

(** The textbook form of the rolling hash, without wrap-around:
    the sum of [code_i * 31^(n-1-i)]. *)
Definition poly31 (d : jsstring) : Z :=
  fold_left (fun h c => Z.of_N c + 31 * h) d 0.

(** ** A host for evaluation *)

(** A host that computes, for running the model on sample inputs.
    It agrees with a browser on the inputs used here: case folding of
    Latin-1 code units, comparison of dates written YYYY-MM-DD, URI
    components without escape sequences, and base64 text. *)
Module SampleHost.

Definition lower_unit (c : N) : N :=
  if ((65 <=? c) && (c <=? 90) || (192 <=? c) && (c <=? 222) && negb (c =? 215))%N
  then (c + 32)%N else c.

Definition lower (s : jsstring) : jsstring := map lower_unit s.

Fixpoint compare_units (a b : jsstring) : Z :=
  match a, b with
  | [], [] => 0
  | [], _ :: _ => -1
  | _ :: _, [] => 1
  | x :: a', y :: b' =>
      if (x <? y)%N then -1 else if (y <? x)%N then 1 else compare_units a' b'
  end.

Definition decode_plain (s : jsstring) : attempt jsstring :=
  if bool_decide (37%N ∈ s) then Raised (lit "URI malformed") else Fine s.

Definition sextet (c : N) : option N :=
  if ((65 <=? c) && (c <=? 90))%N then Some (c - 65)%N
  else if ((97 <=? c) && (c <=? 122))%N then Some (c - 71)%N
  else if ((48 <=? c) && (c <=? 57))%N then Some (c + 4)%N
  else if (c =? 43)%N then Some 62%N
  else if (c =? 47)%N then Some 63%N
  else None.

Fixpoint sextets (s : jsstring) : option (list N) :=
  match s with
  | [] => Some []
  | c :: s' =>
      match sextet c, sextets s' with
      | Some v, Some l => Some (v :: l)
      | _, _ => None
      end
  end.

Fixpoint octets (l : list N) : list N :=
  match l with
  | a :: b :: c :: d :: rest =>
      (a * 4 + b / 16)%N :: ((b mod 16) * 16 + c / 4)%N :: ((c mod 4) * 64 + d)%N
      :: octets rest
  | [a; b; c] => [(a * 4 + b / 16)%N; ((b mod 16) * 16 + c / 4)%N]
  | [a; b] => [(a * 4 + b / 16)%N]
  | _ => []
  end.

Definition strip_padding (s : jsstring) : jsstring :=
  if (length s mod 4 =? 0)%nat then
    match rev s with
    | 61%N :: 61%N :: r => rev r
    | 61%N :: r => rev r
    | _ => s
    end
  else s.

Definition decode_base64 (s : jsstring) : attempt jsstring :=
  let data :=
    strip_padding
      (List.filter (fun c => negb ((c =? 9) || (c =? 10) || (c =? 12) || (c =? 13)
                                   || (c =? 32))%N) s) in
  if (length data mod 4 =? 1)%nat then Raised (lit "InvalidCharacterError")
  else match sextets data with
       | Some l => Fine (octets l)
       | None => Raised (lit "InvalidCharacterError")
       end.

End SampleHost.

(** ** Sample data *)

Module Sample.

Definition bill (key invoice date : string) (st : PackingStatus) (created : Z)
    (packed : option Z) : BillData :=
  {| id := lit key; imageUrl := []; customerName := lit "Grace Traders";
     address := []; invoiceNo := lit invoice; billDate := lit date;
     status := st; isDelivery := false; hasCRN := false;
     isEditedBill := false; isAdditionalBill := false; boxCount := 0;
     description := []; colorTheme := None; entryDate := lit date;
     createdAt := created; updatedAt := created; packedAt := packed |}.

Definition state (bills : list BillData) (date : string) (configured : bool)
    (selected : list string) : AppState :=
  {| allBills := bills; currentDate := lit date; loadingId := None;
     processStatus := []; expandedId := None; isSyncing := false;
     isConfigured := configured; isSelectionMode := true;
     selectedIds := list_to_set (map lit selected); showGroupModal := false;
     groupNameInput := lit "Route 7"; groupColorInput := [];
     duplicateAlert := None |}.

Definition world (stored : list (string * string)) : World :=
  {| connected := true;
     objects := list_to_map (map (fun p => (lit p.1, lit p.2)) stored);
     calls := [] |}.

Definition replies (upload : fault) (upsert : option jsstring) : SaveReplies :=
  {| upload_time := 1700000000000;
     cleanup_reply := Succeeds;
     upload_reply := upload;
     publicUrl := fun f => lit "https://grace.example/storage/v1/object/public/receipts/" ++ f;
     upsert_reply := upsert;
     rollback_reply := Succeeds |}.

Definition fresh : Fresh :=
  {| fresh_id := lit "lo6b4k2r9x1q"; fresh_createdAt := 1700000000000;
     fresh_updatedAt := 1700000000001 |}.

Definition extracted (invoice : string) : Extracted :=
  {| x_customerName := lit "Grace Traders"; x_address := lit "12 Mill Road";
     x_invoiceNo := lit invoice; x_billDate := lit "2024-01-03" |}.

Definition photo : jsstring := lit "data:image/jpeg;base64,SGVsbG8=".

End Sample.

(** ** Predicates of the specification *)

(** A PACKED bill has [packedAt], a PENDING bill has none. *)
Definition bill_invariant (b : BillData) : Prop :=
  match status b with
  | PACKED => is_Some (packedAt b)
  | PENDING => packedAt b = None
  end.

(** [packedAt] of the bills that were PACKED in [before] is the same in
    [after]. *)
Definition packedAt_frozen (before after : list BillData) : Prop :=
  forall b b', b ∈ before -> b' ∈ after -> id b' = id b -> status b = PACKED ->
    packedAt b' = packedAt b.

(** The fields group settings do not write. *)
Definition same_outside_group (b b' : BillData) : Prop :=
  id b' = id b /\ imageUrl b' = imageUrl b /\ customerName b' = customerName b
  /\ address b' = address b /\ invoiceNo b' = invoiceNo b
  /\ billDate b' = billDate b /\ status b' = status b
  /\ isDelivery b' = isDelivery b /\ hasCRN b' = hasCRN b
  /\ isEditedBill b' = isEditedBill b /\ isAdditionalBill b' = isAdditionalBill b
  /\ boxCount b' = boxCount b /\ entryDate b' = entryDate b
  /\ createdAt b' = createdAt b /\ packedAt b' = packedAt b.

(** The fields packing does not write. *)
Definition same_outside_pack (b b' : BillData) : Prop :=
  id b' = id b /\ imageUrl b' = imageUrl b /\ customerName b' = customerName b
  /\ address b' = address b /\ invoiceNo b' = invoiceNo b
  /\ billDate b' = billDate b
  /\ isDelivery b' = isDelivery b /\ hasCRN b' = hasCRN b
  /\ isEditedBill b' = isEditedBill b /\ isAdditionalBill b' = isAdditionalBill b
  /\ boxCount b' = boxCount b /\ description b' = description b
  /\ colorTheme b' = colorTheme b /\ entryDate b' = entryDate b
  /\ createdAt b' = createdAt b.

(** The duplicate check read by insertion order: [history] lists the
    bills in the order they were inserted, oldest first, and the bill
    reported on [store] for [invoice] is the first bill of [history] with
    that invoice number. *)
Definition reports_first_inserted `{Host} (history store : list BillData)
    (invoice : jsstring) : Prop :=
  forall d,
    List.find
      (fun b => truthy (invoiceNo b)
                && str_eqb (normalized (invoiceNo b)) (normalized invoice))
      history = Some d ->
    find_duplicate store invoice = Some d.

(** In a log of requests, every removal of [path] comes after an
    upload. *)
Definition removed_only_after_upload (path : jsstring) (log : list Call) : Prop :=
  forall before after,
    log = before ++ StorageRemove path :: after ->
    exists fileName blob, StorageUpload fileName blob ∈ before.

(** * Properties *)

(** ** The sample host satisfies the laws of [Host] *)

Lemma compare_units_total (a b : jsstring) :
  SampleHost.compare_units a b <= 0 \/ SampleHost.compare_units b a <= 0.
Proof.
  revert b. induction a as [|x a IH]; intros [|y b]; simpl; try lia.
  destruct (N.ltb_spec x y), (N.ltb_spec y x); try lia. apply IH.
Qed.

Lemma compare_units_trans (a b c : jsstring) :
  SampleHost.compare_units a b <= 0 -> SampleHost.compare_units b c <= 0 ->
  SampleHost.compare_units a c <= 0.
Proof.
  revert b c. induction a as [|x a IH]; intros [|y b] [|z c]; simpl; try lia.
  destruct (N.ltb_spec x y), (N.ltb_spec y x), (N.ltb_spec y z), (N.ltb_spec z y),
    (N.ltb_spec x z), (N.ltb_spec z x); try lia.
  apply IH.
Qed.

#[export] Instance sample_host : Host := {|
  toLowerCase := SampleHost.lower;
  localeCompare := SampleHost.compare_units;
  decodeURIComponent := SampleHost.decode_plain;
  atob := SampleHost.decode_base64;
  toLowerCase_empty := eq_refl;
  localeCompare_total := compare_units_total;
  localeCompare_trans := compare_units_trans;
|}.

(** ** Strings and numbers *)

Lemma truthy_nonempty (s : jsstring) : truthy s = true <-> s ≠ [].
Proof. destruct s; simpl; split; congruence. Qed.

Lemma str_eqb_eq (a b : jsstring) : str_eqb a b = true <-> a = b.
Proof. unfold str_eqb. by rewrite bool_decide_eq_true. Qed.

Lemma str_ltb_irrefl (a : jsstring) : str_ltb a a = false.
Proof.
  induction a as [|x a IH]; simpl; [done|].
  rewrite N.ltb_irrefl, N.eqb_refl. exact IH.
Qed.

Lemma trim_empty : trim [] = [].
Proof. reflexivity. Qed.

Lemma toInt32_range (x : Z) : - 2 ^ 31 <= toInt32 x < 2 ^ 31.
Proof. unfold toInt32. pose proof (Z.mod_pos_bound (x + 2 ^ 31) (2 ^ 32)). lia. Qed.

(** [hash << 5] is 32 times [hash], wrapped to 32 bits. *)
Lemma shl_5 (h : Z) : shl h 5 = toInt32 (32 * h).
Proof.
  unfold shl. change (5 mod 32) with 5. rewrite Z.shiftl_mul_pow2 by lia.
  unfold toInt32.
  rewrite (Z.mod_eq (h + 2 ^ 31) (2 ^ 32)) by lia.
  set (q := (h + 2 ^ 31) / 2 ^ 32).
  replace ((h + 2 ^ 31 - 2 ^ 32 * q - 2 ^ 31) * 2 ^ 5 + 2 ^ 31)
    with (32 * h + 2 ^ 31 + (- 32 * q) * 2 ^ 32) by lia.
  by rewrite Z_mod_plus_full.
Qed.

Lemma description_hash_snoc (d : jsstring) (c : N) :
  description_hash (d ++ [c])
  = Z.of_N c + (toInt32 (32 * description_hash d) - description_hash d).
Proof.
  unfold description_hash. rewrite fold_left_app. simpl.
  unfold hash_step at 1. by rewrite shl_5.
Qed.

(** The sum stays far inside the range where numbers are exact integers:
    each step adds at most one code unit and one 32-bit quantity. *)
Lemma description_hash_bound (d : jsstring) :
  Forall (fun c => (c < 2 ^ 16)%N) d ->
  Z.abs (description_hash d) <= Z.of_nat (length d) * (2 ^ 31 + 2 ^ 16).
Proof.
  induction d as [|c d IH] using rev_ind; intros Hd; [done|].
  rewrite Forall_app, Forall_singleton in Hd. destruct Hd as [Hd Hc].
  rewrite description_hash_snoc, length_app, Nat2Z.inj_add. simpl length.
  pose proof (toInt32_range (32 * description_hash d)) as Hr.
  specialize (IH Hd).
  change (2 ^ 16)%N with 65536%N in Hc.
  change (2 ^ 31) with 2147483648 in *. change (2 ^ 16) with 65536 in *.
  lia.
Qed.

Lemma palette_index_range (h : Z) :
  palette_index h = Z.abs h mod 10 /\ 0 <= palette_index h < 10.
Proof.
  unfold palette_index. change (Z.of_nat (length COLOR_PALETTE)) with 10.
  rewrite Z.rem_mod_nonneg by lia.
  split; [done|]. apply Z.mod_pos_bound. lia.
Qed.

(** ** Theme resolution *)

Lemma find_theme_name (t : Theme) : t ∈ COLOR_PALETTE -> find_theme (name t) = Some t.
Proof.
  unfold COLOR_PALETTE. intros Ht.
  repeat (apply elem_of_cons in Ht as [-> | Ht]; [by vm_compute|]).
  by apply elem_of_nil in Ht.
Qed.

Lemma find_theme_Some (c : jsstring) (t : Theme) :
  find_theme c = Some t -> t ∈ COLOR_PALETTE /\ name t = c.
Proof.
  unfold find_theme. intros Hf. apply find_some in Hf as [Hin Heq].
  split; [by apply list_elem_of_In|]. by apply str_eqb_eq.
Qed.

Lemma palette_lookup (n : nat) :
  (n < 10)%nat -> exists t, COLOR_PALETTE !! n = Some t /\ t ∈ COLOR_PALETTE.
Proof.
  intros Hn. destruct (lookup_lt_is_Some_2 COLOR_PALETTE n) as [t Ht]; [exact Hn|].
  exists t. split; [done|]. by eapply list_elem_of_lookup_2.
Qed.

Lemma getThemeStyles_by_name (c : jsstring) (description : option jsstring) (t : Theme) :
  t ∈ COLOR_PALETTE -> name t = c ->
  getThemeStyles (Some c) description = Some t.
Proof.
  intros Ht <-. unfold getThemeStyles.
  assert (truthy (name t) = true) as ->.
  { unfold COLOR_PALETTE in Ht.
    repeat (apply elem_of_cons in Ht as [-> | Ht]; [done|]).
    by apply elem_of_nil in Ht. }
  by rewrite (find_theme_name t Ht).
Qed.

Lemma getThemeStyles_no_name (colorName description : option jsstring) :
  (forall t, t ∈ COLOR_PALETTE -> colorName ≠ Some (name t)) ->
  getThemeStyles colorName description = getThemeStyles None description.
Proof.
  intros Hno. unfold getThemeStyles. destruct colorName as [c|]; [|done].
  destruct (truthy c); [|done].
  destruct (find_theme c) as [t|] eqn:Hf; [|done].
  apply find_theme_Some in Hf as [Ht <-]. by destruct (Hno t Ht).
Qed.

(** C8. Theme resolution always returns an entry of the palette.  An
    exact match of the colour name with an entry wins; otherwise a
    description that is not blank selects the entry at index
    [|hash| mod 10], where the hash is the rolling hash
    [h' = code + (int32 (32 h) - h)] over the code units, a function of
    the description only; otherwise the first entry is returned. *)
Theorem getThemeStyles_priority (colorName description : option jsstring) :
  (exists t, getThemeStyles colorName description = Some t /\ t ∈ COLOR_PALETTE)
  /\ (forall t, t ∈ COLOR_PALETTE -> colorName = Some (name t) ->
        getThemeStyles colorName description = Some t)
  /\ ((forall t, t ∈ COLOR_PALETTE -> colorName ≠ Some (name t)) ->
      forall d, description = Some d -> trim d ≠ [] ->
        0 <= Z.abs (description_hash d) mod 10 < 10
        /\ getThemeStyles colorName description
           = COLOR_PALETTE !! Z.to_nat (Z.abs (description_hash d) mod 10))
  /\ ((forall t, t ∈ COLOR_PALETTE -> colorName ≠ Some (name t)) ->
      description = None \/ (exists d, description = Some d /\ trim d = []) ->
        getThemeStyles colorName description = COLOR_PALETTE !! 0%nat)
  /\ description_hash [] = 0
  /\ (forall d c, description_hash (d ++ [c])
        = Z.of_N c + (toInt32 (32 * description_hash d) - description_hash d)).
Proof.
  assert (forall d, trim d ≠ [] ->
            getThemeStyles None (Some d)
            = COLOR_PALETTE !! Z.to_nat (Z.abs (description_hash d) mod 10)) as Hhash.
  { intros d Hd. unfold getThemeStyles.
    assert (truthy d = true) as ->.
    { apply truthy_nonempty. intros ->. by apply Hd. }
    assert ((0 <? length (trim d))%nat = true) as ->.
    { apply Nat.ltb_lt. destruct (trim d); [done | simpl; lia]. }
    simpl. by destruct (palette_index_range (description_hash d)) as [-> _]. }
  assert (forall d, trim d = [] -> getThemeStyles None (Some d) = COLOR_PALETTE !! 0%nat)
    as Hblank.
  { intros d Hd. unfold getThemeStyles. rewrite Hd. simpl.
    by rewrite andb_false_r. }
  split; [|split; [|split; [|split; [|split]]]].
  - unfold getThemeStyles.
    destruct (match colorName with
              | Some c => if truthy c then find_theme c else None
              | None => None
              end) as [found|] eqn:Hn.
    + exists found. split; [done|].
      destruct colorName as [c|]; [|done]. destruct (truthy c); [|done].
      by apply find_theme_Some in Hn as [? _].
    + destruct description as [d|]; [|by apply (palette_lookup 0); lia].
      destruct (truthy d && (0 <? length (trim d))%nat);
        [|by apply (palette_lookup 0); lia].
      apply palette_lookup.
      destruct (palette_index_range (description_hash d)) as [_ ?]. lia.
  - intros t Ht ->. by apply getThemeStyles_by_name.
  - intros Hno d -> Hd. split.
    + apply Z.mod_pos_bound. lia.
    + rewrite getThemeStyles_no_name by done. by apply Hhash.
  - intros Hno Hd. rewrite getThemeStyles_no_name by done.
    destruct Hd as [-> | (d & -> & Hd)]; [done | by apply Hblank].
  - reflexivity.
  - apply description_hash_snoc.
Qed.

Lemma getThemeStyles_priority_witness :
  getThemeStyles (Some (lit "teal")) (Some (lit "Group A"))
    = Some (theme "teal" "bg-teal-50" "border-teal-200" "text-teal-900" "ring-teal-500")
  /\ getThemeStyles None (Some (lit "Group A"))
     = COLOR_PALETTE !! Z.to_nat (Z.abs (description_hash (lit "Group A")) mod 10)
  /\ getThemeStyles (Some (lit "mauve")) (Some (lit "   ")) = COLOR_PALETTE !! 0%nat.
Proof.
  split; [|split].
  - apply (getThemeStyles_priority (Some (lit "teal")) (Some (lit "Group A"))).
    + unfold COLOR_PALETTE. do 5 apply list_elem_of_further. apply list_elem_of_here.
    + reflexivity.
  - apply (getThemeStyles_priority None (Some (lit "Group A"))).
    + intros t _. discriminate.
    + reflexivity.
    + vm_compute. discriminate.
  - apply (getThemeStyles_priority (Some (lit "mauve")) (Some (lit "   "))).
    + intros t Ht Heq. unfold COLOR_PALETTE in Ht.
      repeat (apply elem_of_cons in Ht as [-> | Ht]; [vm_compute in Heq; discriminate|]).
      by apply elem_of_nil in Ht.
    + right. exists (lit "   "). split; reflexivity.
Defined.

(** ** Duplicate detection *)

(** [Array.prototype.find] returns the first element the predicate holds
    of, in array order. *)
Lemma find_first {A} (p : A -> bool) (l : list A) (x : A) :
  x ∈ l -> p x = true ->
  exists before d after,
    l = before ++ d :: after /\ p d = true
    /\ (forall y, y ∈ before -> p y = false)
    /\ List.find p l = Some d.
Proof.
  induction l as [|y l IH]; intros Hx Hp; [by apply elem_of_nil in Hx|].
  destruct (p y) eqn:Hy.
  - exists [], y, l. simpl. rewrite Hy. split_and!; [done..| |done].
    intros z Hz. by apply elem_of_nil in Hz.
  - apply elem_of_cons in Hx as [-> | Hx]; [congruence|].
    destruct (IH Hx Hp) as (before & d & after & -> & Hd & Hb & Hf).
    exists (y :: before), d, after. simpl. rewrite Hy. split_and!; [done..| |done].
    intros z Hz. apply elem_of_cons in Hz as [-> | Hz]; [done | by apply Hb].
Qed.

Section DuplicateDetection.
Context `{Host}.

Lemma normalized_empty : normalized [] = [].
Proof. unfold normalized. rewrite trim_empty. apply toLowerCase_empty. Qed.

Lemma find_duplicate_empty (bills : list BillData) (invoice : jsstring) :
  normalized invoice = [] -> find_duplicate bills invoice = None.
Proof.
  unfold find_duplicate, normalized. intros ->. simpl. by destruct (truthy invoice).
Qed.

Lemma find_duplicate_first (bills : list BillData) (invoice : jsstring) (b : BillData) :
  normalized invoice ≠ [] -> b ∈ bills -> normalized (invoiceNo b) = normalized invoice ->
  exists before d after,
    bills = before ++ d :: after
    /\ normalized (invoiceNo d) = normalized invoice
    /\ (forall y, y ∈ before -> normalized (invoiceNo y) ≠ normalized invoice)
    /\ find_duplicate bills invoice = Some d.
Proof.
  intros Hne Hb Heq.
  set (p := fun y : BillData =>
              truthy (invoiceNo y)
              && str_eqb (toLowerCase (trim (invoiceNo y))) (toLowerCase (trim invoice))).
  assert (forall y, p y = true <-> normalized (invoiceNo y) = normalized invoice) as Hp.
  { intros y. unfold p. rewrite andb_true_iff, str_eqb_eq, truthy_nonempty.
    fold (normalized (invoiceNo y)) (normalized invoice). split; [by intros [_ ?]|].
    intros Hy. split; [|done]. intros Hnil. rewrite Hnil, normalized_empty in Hy.
    by apply Hne. }
  destruct (find_first p bills b Hb) as (before & d & after & -> & Hd & Hbefore & Hfind).
  { by apply Hp. }
  exists before, d, after. split; [done|]. split; [by apply Hp|]. split.
  - intros y Hy Hyn. apply Hp in Hyn. rewrite (Hbefore y Hy) in Hyn. discriminate.
  - unfold find_duplicate.
    assert (truthy invoice = true) as ->.
    { apply truthy_nonempty. intros ->. by rewrite normalized_empty in Hne. }
    assert ((0 <? length (toLowerCase (trim invoice)))%nat = true) as ->.
    { apply Nat.ltb_lt. unfold normalized in Hne.
      destruct (toLowerCase (trim invoice)); [done | simpl; lia]. }
    exact Hfind.
Qed.

(** On any store: a candidate whose normal form is empty never matches;
    otherwise, when some stored bill has the same normal form, the first
    such bill in the order of the array [allBills] (the order [find]
    visits) is put in the duplicate alert and the handler stops there,
    with the store unchanged and nothing sent to the backend. *)
Lemma duplicate_halts_creation (file_image : jsstring) (extracted : Extracted)
    (fresh : Fresh) (r : SaveReplies) (s : AppState) (w : World) :
  (normalized (x_invoiceNo extracted) = [] ->
     find_duplicate (allBills s) (x_invoiceNo extracted) = None)
  /\ (normalized (x_invoiceNo extracted) ≠ [] ->
      forall b, b ∈ allBills s ->
        normalized (invoiceNo b) = normalized (x_invoiceNo extracted) ->
        exists before d after,
          allBills s = before ++ d :: after
          /\ normalized (invoiceNo d) = normalized (x_invoiceNo extracted)
          /\ (forall y, y ∈ before ->
                normalized (invoiceNo y) ≠ normalized (x_invoiceNo extracted))
          /\ find_duplicate (allBills s) (x_invoiceNo extracted) = Some d
          /\ allBills (handleAddBill (Captured file_image extracted) fresh r s w).1
             = allBills s
          /\ (handleAddBill (Captured file_image extracted) fresh r s w).2 = w
          /\ duplicateAlert (handleAddBill (Captured file_image extracted) fresh r s w).1
             = Some {| existing := d; newData := extracted; base64 := Some file_image |}).
Proof.
  split; [apply find_duplicate_empty|].
  intros Hne b Hb Heq.
  destruct (find_duplicate_first _ _ _ Hne Hb Heq) as (before & d & after & Hs & Hd & Hbf & Hf).
  exists before, d, after. repeat (split; [done|]).
  unfold handleAddBill. rewrite Hf. simpl.
  by destruct (duplicateAlert s).
Qed.

End DuplicateDetection.

(** ** Sorting and the two views *)

Section Sort.
Context {A : Type} (compare : A -> A -> Z).

Lemma sort_insert_perm (x : A) (l : list A) : sort_insert compare x l ≡ₚ x :: l.
Proof.
  induction l as [|y l IH]; simpl; [done|].
  destruct (0 <? compare x y); [|done].
  rewrite IH. apply Permutation_swap.
Qed.

Lemma sort_perm (l : list A) : sort compare l ≡ₚ l.
Proof.
  induction l as [|x l IH]; simpl; [done|].
  rewrite sort_insert_perm. by rewrite IH.
Qed.

Hypothesis compare_total : forall a b, compare a b <= 0 \/ compare b a <= 0.
Hypothesis compare_trans : forall a b c,
  compare a b <= 0 -> compare b c <= 0 -> compare a c <= 0.

Lemma sort_insert_sorted (x : A) (l : list A) :
  StronglySorted (fun a b => compare a b <= 0) l ->
  StronglySorted (fun a b => compare a b <= 0) (sort_insert compare x l).
Proof.
  induction 1 as [|y l Hl IH Hy]; simpl.
  - repeat constructor.
  - destruct (Z.ltb_spec 0 (compare x y)) as [Hxy | Hxy].
    + constructor; [exact IH|].
      rewrite sort_insert_perm. constructor; [|exact Hy].
      destruct (compare_total x y); lia.
    + constructor; [by constructor|].
      constructor; [exact Hxy|].
      eapply Forall_impl; [exact Hy|]. intros z Hz. by eapply compare_trans.
Qed.

Lemma sort_sorted (l : list A) :
  StronglySorted (fun a b => compare a b <= 0) (sort compare l).
Proof.
  induction l as [|x l IH]; simpl; [constructor|]. by apply sort_insert_sorted.
Qed.

End Sort.

Lemma StronglySorted_weaken {A} (R S : A -> A -> Prop) (l : list A) :
  (forall a b, R a b -> S a b) -> StronglySorted R l -> StronglySorted S l.
Proof.
  intros HRS. induction 1 as [|x l Hl IH Hx]; constructor; [exact IH|].
  eapply Forall_impl; [exact Hx|]. intros y. apply HRS.
Qed.

Lemma filter_split {A} (p q r : A -> bool) (l : list A) :
  (forall x, r x = p x || q x) -> (forall x, p x = true -> q x = false) ->
  List.filter p l ++ List.filter q l ≡ₚ List.filter r l.
Proof.
  intros Hr Hpq. induction l as [|x l IH]; simpl; [done|].
  rewrite Hr. destruct (p x) eqn:Hp; simpl.
  - rewrite (Hpq x Hp). by rewrite IH.
  - destruct (q x); [|done]. rewrite <- Permutation_middle. by rewrite IH.
Qed.

Section Views.
Context `{Host}.

Lemma todayNewBills_spec (s : AppState) (b : BillData) :
  b ∈ todayNewBills s <-> b ∈ allBills s /\ entryDate b = currentDate s.
Proof.
  unfold todayNewBills. rewrite sort_perm, !list_elem_of_In, filter_In.
  by rewrite str_eqb_eq.
Qed.

Lemma backlogBills_spec (s : AppState) (b : BillData) :
  b ∈ backlogBills s
  <-> b ∈ allBills s /\ status b = PENDING
      /\ str_ltb (entryDate b) (currentDate s) = true.
Proof.
  unfold backlogBills. rewrite sort_perm, !list_elem_of_In, filter_In.
  rewrite andb_true_iff. unfold is_pending.
  destruct (status b); intuition congruence.
Qed.

(** C3. For every store and reference date: the today view holds the
    bills dated on the reference date and the backlog view the PENDING
    bills dated strictly before it; no bill is in both; together they
    are, bill for bill, the PENDING bills dated on or before the
    reference date and the bills of any status dated on it; the today
    view is ordered by [createdAt] descending and the backlog view by
    [entryDate] ascending (in the order of [localeCompare]). *)
Theorem today_backlog_partition (s : AppState) :
  (forall b, b ∈ todayNewBills s <-> b ∈ allBills s /\ entryDate b = currentDate s)
  /\ (forall b, b ∈ backlogBills s
        <-> b ∈ allBills s /\ status b = PENDING
            /\ str_ltb (entryDate b) (currentDate s) = true)
  /\ (forall b, b ∈ todayNewBills s -> b ∉ backlogBills s)
  /\ todayNewBills s ++ backlogBills s
     ≡ₚ List.filter
          (fun b => is_pending b
                    && (str_ltb (entryDate b) (currentDate s)
                        || str_eqb (entryDate b) (currentDate s))
                    || str_eqb (entryDate b) (currentDate s))
          (allBills s)
  /\ StronglySorted (fun a b => createdAt a >= createdAt b) (todayNewBills s)
  /\ StronglySorted (fun a b => localeCompare (entryDate a) (entryDate b) <= 0)
       (backlogBills s).
Proof.
  split_and!.
  - apply todayNewBills_spec.
  - apply backlogBills_spec.
  - intros b [_ Ht]%todayNewBills_spec (_ & _ & Hb)%backlogBills_spec.
    rewrite Ht, str_ltb_irrefl in Hb. discriminate.
  - unfold todayNewBills, backlogBills. rewrite !sort_perm.
    apply filter_split.
    + intros b. destruct (is_pending b), (str_ltb (entryDate b) (currentDate s)),
        (str_eqb (entryDate b) (currentDate s)); reflexivity.
    + intros b Hb%str_eqb_eq. rewrite Hb, str_ltb_irrefl. apply andb_false_r.
  - unfold todayNewBills.
    eapply StronglySorted_weaken;
      [|apply (sort_sorted (fun a b : BillData => createdAt b - createdAt a))].
    + intros a b. simpl. lia.
    + intros a b. lia.
    + intros a b c. lia.
  - unfold backlogBills. apply sort_sorted.
    + intros a b. apply localeCompare_total.
    + intros a b c. apply localeCompare_trans.
Qed.

End Views.

(** ** Bulk operations *)

Lemma is_selected_none (s : AppState) (b : BillData) :
  size (selectedIds s) = 0%nat -> is_selected s b = false.
Proof.
  intros Hs%size_empty_iff. unfold is_selected. apply bool_decide_eq_false.
  intros Hb. by apply Hs in Hb.
Qed.

Lemma map_unselected (f : BillData -> BillData) (s : AppState) (l : list BillData) :
  size (selectedIds s) = 0%nat ->
  map (fun b => if is_selected s b then f b else b) l = l.
Proof.
  intros Hs. induction l as [|b l IH]; simpl; [done|].
  by rewrite (is_selected_none s b Hs), IH.
Qed.

Lemma Forall2_map_self {A B} (f : A -> B) (l : list A) :
  Forall2 (fun a b => b = f a) l (map f l).
Proof. induction l; simpl; by constructor. Qed.

Section Bulk.
Context `{Host}.

(** The store after a confirmed bulk pack, whatever the backend answers. *)
Lemma handlePackSelected_bills (now : Z) (script : nat -> SaveReplies)
    (s : AppState) (w : World) :
  allBills (handlePackSelected true now script s w).1
  = map (fun b => if is_selected s b then with_packed now b else b) (allBills s).
Proof.
  unfold handlePackSelected. case_bool_decide as Hsize.
  - simpl. by rewrite map_unselected.
  - destruct (isConfigured s); [|done].
    destruct (save_each _ script 0 w) as [w' []]; done.
Qed.

(** The store after applying group settings, whatever the backend answers. *)
Lemma applyGroupSettings_bills (now : Z) (script : nat -> SaveReplies)
    (s : AppState) (w : World) :
  allBills (applyGroupSettings now script s w).1
  = map (fun b => if is_selected s b
                  then with_group (groupNameInput s)
                         (if truthy (groupColorInput s) then Some (groupColorInput s)
                          else None) now b
                  else b) (allBills s).
Proof.
  unfold applyGroupSettings. destruct (isConfigured s); [|done].
  destruct (save_each _ script 0 w) as [w' []]; done.
Qed.

Lemma count_transitions (f : BillData -> BillData) (sel : BillData -> bool)
    (l : list BillData) :
  (forall b, b ∈ l -> sel b = true -> is_pending b = true /\ is_pending (f b) = false) ->
  length (List.filter (fun p => is_pending p.1 && negb (is_pending p.2))
            (zip l (map (fun b => if sel b then f b else b) l)))
  = length (List.filter sel l).
Proof.
  induction l as [|b l IH]; intros Hl; [done|].
  assert (forall b', b' ∈ l -> sel b' = true ->
            is_pending b' = true /\ is_pending (f b') = false) as Hl'.
  { intros b' Hb'. apply Hl. by apply list_elem_of_further. }
  simpl. destruct (sel b) eqn:Hb; simpl.
  - destruct (Hl b (list_elem_of_here _ _) Hb) as [-> ->]. simpl. by rewrite IH.
  - destruct (is_pending b); simpl; by rewrite IH.
Qed.

(** C4. A confirmed bulk pack over a selection whose bills are all
    PENDING: every selected bill becomes PACKED with [packedAt] (and
    [updatedAt]) equal to the one batch timestamp and its other fields
    kept; every bill outside the selection is the same bill as before;
    the number of bills that went from PENDING to PACKED is the number
    of selected bills. *)
Theorem pack_selected_batch (now : Z) (script : nat -> SaveReplies)
    (s : AppState) (w : World) :
  (forall b, b ∈ allBills s -> id b ∈ selectedIds s -> status b = PENDING) ->
  Forall2
    (fun b b' =>
       if is_selected s b
       then status b' = PACKED /\ packedAt b' = Some now /\ updatedAt b' = now
            /\ same_outside_pack b b'
       else b' = b)
    (allBills s) (allBills (handlePackSelected true now script s w).1)
  /\ length (List.filter (fun p => is_pending p.1 && negb (is_pending p.2))
               (zip (allBills s) (allBills (handlePackSelected true now script s w).1)))
     = length (List.filter (is_selected s) (allBills s)).
Proof.
  intros Hpending. rewrite handlePackSelected_bills. split.
  - eapply Forall2_impl; [apply Forall2_map_self|].
    intros b b' ->. simpl. destruct (is_selected s b); [|done].
    unfold same_outside_pack. by simpl.
  - apply count_transitions. intros b Hb Hsel.
    apply bool_decide_eq_true in Hsel.
    unfold is_pending. by rewrite (Hpending b Hb Hsel).
Qed.

(** C10. Applying group settings rewrites, in the bills whose id is
    selected, exactly [description] (the group name), [colorTheme] (the
    chosen colour, or absent when no colour is chosen, whatever theme
    the bill had) and [updatedAt]; every other field of those bills and
    every bill outside the selection is left as it was. *)
Theorem group_settings_frame (now : Z) (script : nat -> SaveReplies)
    (s : AppState) (w : World) :
  Forall2
    (fun b b' =>
       if is_selected s b
       then description b' = groupNameInput s
            /\ colorTheme b'
               = match groupColorInput s with
                 | [] => None
                 | _ :: _ => Some (groupColorInput s)
                 end
            /\ updatedAt b' = now
            /\ same_outside_group b b'
       else b' = b)
    (allBills s) (allBills (applyGroupSettings now script s w).1).
Proof.
  rewrite applyGroupSettings_bills.
  eapply Forall2_impl; [apply Forall2_map_self|].
  intros b b' ->. simpl. destruct (is_selected s b); [|done].
  unfold same_outside_group. simpl. by destruct (groupColorInput s).
Qed.

End Bulk.

Lemma pack_selected_batch_witness :
  let s :=
    Sample.state
      [Sample.bill "k03" "INV-3" "2024-01-03" PENDING 30 None;
       Sample.bill "k02" "INV-2" "2024-01-03" PACKED 20 (Some 25);
       Sample.bill "k01" "INV-1" "2024-01-02" PENDING 10 None]
      "2024-01-03" true ["k03"%string; "k01"%string] in
  length (List.filter (fun p => is_pending p.1 && negb (is_pending p.2))
            (zip (allBills s)
               (allBills (handlePackSelected true 40
                            (fun _ => Sample.replies Succeeds None) s
                            (Sample.world [])).1)))
  = length (List.filter (is_selected s) (allBills s)).
Proof.
  intros s.
  apply (pack_selected_batch 40 (fun _ => Sample.replies Succeeds None) s (Sample.world [])).
  intros b Hb Hsel. unfold s, Sample.state in Hb. simpl in Hb.
  repeat (apply elem_of_cons in Hb as [-> | Hb]; [try reflexivity|]).
  - exfalso. revert Hsel. vm_compute. discriminate.
  - by apply elem_of_nil in Hb.
Defined.

(** ** Creation and edit *)

Lemma Forall_list_filter {A} (P : A -> Prop) (f : A -> bool) (l : list A) :
  Forall P l -> Forall P (List.filter f l).
Proof.
  rewrite !Forall_forall. intros Hl x Hx. apply Hl.
  apply list_elem_of_In. apply list_elem_of_In in Hx. by apply filter_In in Hx as [? _].
Qed.

Lemma filter_keeps_all {A} (f : A -> bool) (l : list A) :
  Forall (fun x => f x = true) l -> List.filter f l = l.
Proof. induction 1 as [|x l Hx _ IH]; simpl; [done|]. by rewrite Hx, IH. Qed.

Section Orchestrator.
Context `{Host}.

(** The store after [createBill]: the insert, or the insert undone. *)
Lemma createBill_bills (fresh : Fresh) (extracted : Extracted)
    (base64Image : option jsstring) (manualData : option ManualData)
    (r : SaveReplies) (s : AppState) (w : World) :
  let bill := newBill fresh extracted base64Image manualData s in
  allBills (createBill fresh extracted base64Image manualData r s w).1
  = if isConfigured s then
      match (saveBillToSupabase bill base64Image r w).2 with
      | Fine _ => bill :: allBills s
      | Raised _ =>
          List.filter (fun b => negb (str_eqb (id b) (id bill))) (bill :: allBills s)
      end
    else bill :: allBills s.
Proof.
  intros bill. unfold createBill. fold bill. destruct (isConfigured s); [|done].
  simpl. by destruct (saveBillToSupabase bill base64Image r w) as [w' [[]|m]].
Qed.

(** C1. With a backend configured and an id that no stored bill has
    (the contract of [generateId]), a creation whose persist throws
    leaves the store exactly as it was before: the same bills in the
    same order, hence the same count, and every earlier bill present. *)
Theorem createBill_rollback (fresh : Fresh) (extracted : Extracted)
    (base64Image : option jsstring) (manualData : option ManualData)
    (r : SaveReplies) (s : AppState) (w : World) (message : jsstring) :
  isConfigured s = true ->
  Forall (fun b => id b ≠ fresh_id fresh) (allBills s) ->
  (saveBillToSupabase (newBill fresh extracted base64Image manualData s)
     base64Image r w).2 = Raised message ->
  allBills (createBill fresh extracted base64Image manualData r s w).1 = allBills s
  /\ length (allBills (createBill fresh extracted base64Image manualData r s w).1)
     = length (allBills s)
  /\ (forall b, b ∈ allBills s ->
        b ∈ allBills (createBill fresh extracted base64Image manualData r s w).1).
Proof.
  intros Hconf Hfresh Hthrow.
  assert (allBills (createBill fresh extracted base64Image manualData r s w).1
          = allBills s) as ->; [|done].
  rewrite createBill_bills, Hconf, Hthrow. simpl.
  assert (str_eqb (fresh_id fresh) (fresh_id fresh) = true) as -> by by apply str_eqb_eq.
  simpl. apply filter_keeps_all.
  eapply Forall_impl; [exact Hfresh|]. intros b Hb. simpl.
  apply negb_true_iff. apply bool_decide_eq_false. exact Hb.
Qed.

(** C9. Editing a bill that is in the store puts the updated bill in
    the place of every bill with its id and leaves the other bills as
    they were; the resulting local state is the same whatever the
    backend answers to the persist fired afterwards, also when that
    persist fails. *)
Theorem edit_survives_persist_failure (updated : BillData) (r r' : SaveReplies)
    (s : AppState) (w w' : World) :
  (exists b, b ∈ allBills s /\ id b = id updated) ->
  (handleUpdateBill updated r s w).1 = (handleUpdateBill updated r' s w').1
  /\ updated ∈ allBills (handleUpdateBill updated r s w).1
  /\ (forall b', b' ∈ allBills (handleUpdateBill updated r s w).1 ->
        id b' = id updated -> b' = updated)
  /\ Forall2 (fun b b' => b' = if bool_decide (id b = id updated) then updated else b)
       (allBills s) (allBills (handleUpdateBill updated r s w).1).
Proof.
  intros (b & Hb & Hid).
  assert (forall q v, (handleUpdateBill updated q s v).1
                      = setAllBills
                          (map (fun b => if str_eqb (id b) (id updated) then updated else b))
                          s) as Hlocal.
  { intros q v. unfold handleUpdateBill. by destruct (isConfigured s). }
  rewrite !Hlocal. simpl. split_and!.
  - done.
  - apply list_elem_of_fmap. exists b. split; [|done].
    unfold str_eqb. by rewrite bool_decide_eq_true_2.
  - intros b' (b0 & -> & _)%list_elem_of_fmap. unfold str_eqb.
    case_bool_decide; done.
  - apply Forall2_map_self.
Qed.

End Orchestrator.

Lemma createBill_rollback_witness :
  let s :=
    Sample.state [Sample.bill "k01" "INV-1" "2024-01-02" PENDING 10 None]
      "2024-01-03" true [] in
  allBills (createBill Sample.fresh (Sample.extracted "INV-2") (Some Sample.photo) None
              (Sample.replies Succeeds (Some (lit "connection reset"))) s
              (Sample.world [])).1
  = allBills s.
Proof.
  intros s.
  apply (createBill_rollback Sample.fresh (Sample.extracted "INV-2") (Some Sample.photo)
           None (Sample.replies Succeeds (Some (lit "connection reset"))) s
           (Sample.world [])
           (lit "Database Save Failed: connection reset")).
  - reflexivity.
  - repeat constructor. vm_compute. discriminate.
  - vm_compute. reflexivity.
Defined.

Lemma edit_survives_persist_failure_witness :
  let old := Sample.bill "k01" "INV-1" "2024-01-02" PENDING 10 None in
  let new := Sample.bill "k01" "INV-1A" "2024-01-02" PENDING 10 None in
  let s := Sample.state [old] "2024-01-03" true [] in
  (handleUpdateBill new (Sample.replies Succeeds None) s (Sample.world [])).1
  = (handleUpdateBill new (Sample.replies Succeeds (Some (lit "offline"))) s
       (Sample.world [])).1.
Proof.
  intros old new s.
  apply (edit_survives_persist_failure new (Sample.replies Succeeds None)
           (Sample.replies Succeeds (Some (lit "offline"))) s
           (Sample.world []) (Sample.world [])).
  exists old. split; [apply list_elem_of_here | reflexivity].
Defined.


(** ** The duplicate check and the order of the store *)

Section DuplicateOrder.
Context `{Host}.

Lemma find_duplicate_head (b : BillData) (rest : list BillData) (invoice : jsstring) :
  normalized invoice ≠ [] -> normalized (invoiceNo b) = normalized invoice ->
  find_duplicate (b :: rest) invoice = Some b.
Proof.
  intros Hne Heq.
  destruct (find_duplicate_first (b :: rest) invoice b Hne (list_elem_of_here _ _) Heq)
    as (before & d & after & Hsplit & _ & Hbefore & Hfind).
  rewrite Hfind. f_equal. destruct before as [|b0 before]; simpl in Hsplit.
  - congruence.
  - injection Hsplit as <- _. by destruct (Hbefore b (list_elem_of_here _ _)).
Qed.

Lemma handleAddBill_halts (file_image : jsstring) (extracted : Extracted)
    (fresh : Fresh) (r : SaveReplies) (d : BillData) (s : AppState) (w : World) :
  find_duplicate (allBills s) (x_invoiceNo extracted) = Some d ->
  allBills (handleAddBill (Captured file_image extracted) fresh r s w).1 = allBills s
  /\ (handleAddBill (Captured file_image extracted) fresh r s w).2 = w
  /\ duplicateAlert (handleAddBill (Captured file_image extracted) fresh r s w).1
     = Some {| existing := d; newData := extracted; base64 := Some file_image |}.
Proof.
  intros Hfind. unfold handleAddBill. rewrite Hfind. simpl.
  by destruct (duplicateAlert s).
Qed.

(** C2, as the code has it.  The candidate invoice number and the stored
    ones are compared after trimming and case folding.  A candidate whose
    normal form is empty never matches, whatever the store holds.  When
    the normal form is not empty and some stored bill has the same one,
    the bill reported in the duplicate alert is the first such bill in
    the order of the array [allBills], and the handler stops there: the
    store is unchanged and nothing was sent to the backend.  The array is
    not in insertion order: a creation that stays (offline, or with its
    persist fulfilled) puts its bill in front, so a bill with the
    candidate's invoice number that was inserted later is the one
    reported, whatever older matches the store holds. *)
Theorem duplicate_halts_on_newest_match
    (file_image : jsstring) (extracted : Extracted) (fresh : Fresh) (r : SaveReplies)
    (later_fresh : Fresh) (later : Extracted) (later_image : option jsstring)
    (manualData : option ManualData) (later_r : SaveReplies)
    (s : AppState) (w : World) :
  (normalized (x_invoiceNo extracted) = [] ->
     find_duplicate (allBills s) (x_invoiceNo extracted) = None)
  /\ (normalized (x_invoiceNo extracted) ≠ [] ->
      forall b, b ∈ allBills s ->
        normalized (invoiceNo b) = normalized (x_invoiceNo extracted) ->
        exists before d after,
          allBills s = before ++ d :: after
          /\ normalized (invoiceNo d) = normalized (x_invoiceNo extracted)
          /\ (forall y, y ∈ before ->
                normalized (invoiceNo y) ≠ normalized (x_invoiceNo extracted))
          /\ find_duplicate (allBills s) (x_invoiceNo extracted) = Some d
          /\ allBills (handleAddBill (Captured file_image extracted) fresh r s w).1
             = allBills s
          /\ (handleAddBill (Captured file_image extracted) fresh r s w).2 = w
          /\ duplicateAlert (handleAddBill (Captured file_image extracted) fresh r s w).1
             = Some {| existing := d; newData := extracted; base64 := Some file_image |})
  /\ (normalized (x_invoiceNo extracted) ≠ [] ->
      normalized (x_invoiceNo later) = normalized (x_invoiceNo extracted) ->
      (isConfigured s = true ->
       (saveBillToSupabase (newBill later_fresh later later_image manualData s)
          later_image later_r w).2 = Fine tt) ->
      let inserted := newBill later_fresh later later_image manualData s in
      let grown := createBill later_fresh later later_image manualData later_r s w in
      allBills grown.1 = inserted :: allBills s
      /\ find_duplicate (allBills grown.1) (x_invoiceNo extracted) = Some inserted
      /\ allBills (handleAddBill (Captured file_image extracted) fresh r grown.1 grown.2).1
         = allBills grown.1
      /\ (handleAddBill (Captured file_image extracted) fresh r grown.1 grown.2).2
         = grown.2
      /\ duplicateAlert
           (handleAddBill (Captured file_image extracted) fresh r grown.1 grown.2).1
         = Some {| existing := inserted; newData := extracted;
                   base64 := Some file_image |}).
Proof.
  destruct (duplicate_halts_creation file_image extracted fresh r s w) as [Hblank Hfirst].
  split; [exact Hblank|]. split; [exact Hfirst|].
  intros Hne Hsame Hkept inserted grown.
  assert (allBills grown.1 = inserted :: allBills s) as Hgrown.
  { unfold grown. rewrite createBill_bills. fold inserted.
    destruct (isConfigured s) eqn:Hconf; [|done].
    specialize (Hkept eq_refl).
    change (newBill later_fresh later later_image manualData s) with inserted in Hkept.
    by rewrite Hkept. }
  assert (find_duplicate (allBills grown.1) (x_invoiceNo extracted) = Some inserted)
    as Hfind.
  { rewrite Hgrown. apply find_duplicate_head; [exact Hne|].
    unfold inserted, newBill. simpl. rewrite <- Hsame.
    by destruct (x_invoiceNo later). }
  split; [exact Hgrown|]. split; [exact Hfind|].
  by apply handleAddBill_halts.
Qed.

End DuplicateOrder.

Lemma duplicate_halts_on_newest_match_witness :
  let older := Sample.bill "k01" "INV-001 " "2024-01-02" PENDING 1704153600000 None in
  let s := Sample.state [older] "2024-01-03" false [] in
  let later := Sample.extracted "Inv-001" in
  find_duplicate (allBills s) (lit "   ") = None
  /\ find_duplicate (allBills s) (lit "inv-001") = Some older
  /\ find_duplicate
       (allBills (createBill Sample.fresh later None None (Sample.replies Succeeds None) s
                    (Sample.world [])).1)
       (lit "inv-001")
     = Some (newBill Sample.fresh later None None s).
Proof.
  intros older s later.
  pose proof (duplicate_halts_on_newest_match (H := sample_host) Sample.photo
                (Sample.extracted "   ") Sample.fresh (Sample.replies Succeeds None)
                Sample.fresh later None None (Sample.replies Succeeds None) s
                (Sample.world [])) as (Hblank & _ & _).
  pose proof (duplicate_halts_on_newest_match (H := sample_host) Sample.photo
                (Sample.extracted "inv-001") Sample.fresh (Sample.replies Succeeds None)
                Sample.fresh later None None (Sample.replies Succeeds None) s
                (Sample.world [])) as (_ & Hfirst & Hlater).
  split; [apply Hblank; reflexivity|]. split.
  - destruct (Hfirst ltac:(vm_compute; discriminate) older
                ltac:(apply list_elem_of_here) ltac:(vm_compute; reflexivity))
      as (before & d & after & Hsplit & _ & _ & Hfind & _).
    transitivity (Some d); [exact Hfind|].
    f_equal. destruct before as [|b0 [|b1 before]]; simpl in Hsplit.
    + congruence.
    + discriminate.
    + discriminate.
  - specialize (Hlater ltac:(vm_compute; discriminate) ltac:(vm_compute; reflexivity)
                  ltac:(discriminate)).
    cbv zeta in Hlater. by destruct Hlater as (_ & Hfind & _).
Defined.

(** C2 as stated fails.  Two bills with the same invoice number are
    created one after the other; the store then holds the second in
    front of the first, and a scan of that invoice number reports the
    second, not the one inserted first. *)
Lemma duplicate_reports_latest_insert :
  let s0 := Sample.state [] "2024-01-03" false [] in
  let r := Sample.replies Succeeds None in
  let w := Sample.world [] in
  let f1 := {| fresh_id := lit "first"; fresh_createdAt := 1704240000000;
               fresh_updatedAt := 1704240000000 |} in
  let f2 := {| fresh_id := lit "second"; fresh_createdAt := 1704243600000;
               fresh_updatedAt := 1704243600000 |} in
  let s1 := (createBill f1 (Sample.extracted "INV-001") None None r s0 w).1 in
  let s2 := (createBill f2 (Sample.extracted "inv-001 ") None None r s1 w).1 in
  let first := newBill f1 (Sample.extracted "INV-001") None None s0 in
  let second := newBill f2 (Sample.extracted "inv-001 ") None None s1 in
  allBills s1 = [first]
  /\ allBills s2 = [second; first]
  /\ find_duplicate (allBills s2) (lit "Inv-001") = Some second
  /\ duplicateAlert
       (handleAddBill (Captured Sample.photo (Sample.extracted "Inv-001")) Sample.fresh r
          s2 w).1
     = Some {| existing := second; newData := Sample.extracted "Inv-001";
               base64 := Some Sample.photo |}
  /\ ~ reports_first_inserted [first; second] (allBills s2) (lit "Inv-001").
Proof.
  intros s0 r w f1 f2 s1 s2 first second.
  assert (find_duplicate (allBills s2) (lit "Inv-001") = Some second) as Hfind
    by (vm_compute; reflexivity).
  split_and!.
  - vm_compute. reflexivity.
  - vm_compute. reflexivity.
  - exact Hfind.
  - vm_compute. reflexivity.
  - intros Hclaim. specialize (Hclaim first ltac:(vm_compute; reflexivity)).
    rewrite Hfind in Hclaim. vm_compute in Hclaim. discriminate.
Qed.

(** ** The status invariant *)

Section Lifecycle.
Context `{Host}.

Lemma newBill_invariant (fresh : Fresh) (extracted : Extracted)
    (base64Image : option jsstring) (manualData : option ManualData) (s : AppState) :
  bill_invariant (newBill fresh extracted base64Image manualData s).
Proof. reflexivity. Qed.

Lemma with_packed_invariant (now : Z) (b : BillData) : bill_invariant (with_packed now b).
Proof. unfold bill_invariant. simpl. by eexists. Qed.

Lemma handleDeleteSelected_bills (confirmed : bool) (script : jsstring -> DeleteReplies)
    (s : AppState) (w : World) :
  allBills (handleDeleteSelected confirmed script s w).1
  = if bool_decide (size (selectedIds s) = 0%nat) then allBills s
    else if confirmed then List.filter (fun b => negb (is_selected s b)) (allBills s)
    else allBills s.
Proof.
  unfold handleDeleteSelected. case_bool_decide; [done|].
  destruct confirmed; [|done]. by destruct (isConfigured s).
Qed.

Lemma handleDeleteBill_bills (key : jsstring) (confirmed : bool) (r : DeleteReplies)
    (s : AppState) (w : World) :
  allBills (handleDeleteBill key confirmed r s w).1
  = if confirmed then List.filter (fun b => negb (str_eqb (id b) key)) (allBills s)
    else allBills s.
Proof.
  unfold handleDeleteBill. destruct confirmed; [|done]. simpl.
  by case_bool_decide.
Qed.

Lemma handlePackSelected_any (confirmed : bool) (now : Z) (script : nat -> SaveReplies)
    (s : AppState) (w : World) :
  allBills (handlePackSelected confirmed now script s w).1
  = if confirmed
    then map (fun b => if is_selected s b then with_packed now b else b) (allBills s)
    else allBills s.
Proof.
  destruct confirmed; [apply handlePackSelected_bills|].
  unfold handlePackSelected. by case_bool_decide.
Qed.

(** C7, as the code has it.  Creation, pack, group settings and both
    deletions keep the invariant that a PACKED bill has [packedAt] and a
    PENDING bill has none, and an edit keeps it when the bill it puts in
    satisfies it.  Creation, group settings and deletion leave status and
    [packedAt] of the bills that stay as they were.  A confirmed pack
    writes the batch timestamp into [packedAt] of every selected bill,
    whatever its status was. *)
Theorem lifecycle_invariant
    (fresh : Fresh) (extracted : Extracted) (base64Image : option jsstring)
    (manualData : option ManualData) (r : SaveReplies)
    (confirmed : bool) (now : Z) (script : nat -> SaveReplies)
    (key : jsstring) (rd : DeleteReplies) (scriptd : jsstring -> DeleteReplies)
    (updated : BillData) (s : AppState) (w : World) :
  Forall bill_invariant (allBills s) ->
  (Forall bill_invariant
     (allBills (createBill fresh extracted base64Image manualData r s w).1)
   /\ Forall bill_invariant (allBills (handlePackSelected confirmed now script s w).1)
   /\ Forall bill_invariant (allBills (applyGroupSettings now script s w).1)
   /\ Forall bill_invariant (allBills (handleDeleteBill key confirmed rd s w).1)
   /\ Forall bill_invariant (allBills (handleDeleteSelected confirmed scriptd s w).1)
   /\ (bill_invariant updated ->
       Forall bill_invariant (allBills (handleUpdateBill updated r s w).1)))
  /\ ((forall b', b' ∈ allBills (createBill fresh extracted base64Image manualData r s w).1 ->
         b' = newBill fresh extracted base64Image manualData s \/ b' ∈ allBills s)
      /\ Forall2 (fun b b' => status b' = status b /\ packedAt b' = packedAt b)
           (allBills s) (allBills (applyGroupSettings now script s w).1)
      /\ (forall b', b' ∈ allBills (handleDeleteBill key confirmed rd s w).1 ->
            b' ∈ allBills s)
      /\ (forall b', b' ∈ allBills (handleDeleteSelected confirmed scriptd s w).1 ->
            b' ∈ allBills s))
  /\ Forall2
       (fun b b' =>
          if is_selected s b then status b' = PACKED /\ packedAt b' = Some now
          else b' = b)
       (allBills s) (allBills (handlePackSelected true now script s w).1).
Proof.
  intros Hinv.
  assert (forall f, Forall bill_invariant (List.filter f (allBills s))) as Hfilter.
  { intros f. by apply Forall_list_filter. }
  assert (forall (f : BillData -> bool) b', b' ∈ List.filter f (allBills s) ->
            b' ∈ allBills s) as Hsub.
  { intros f b' Hb'. apply list_elem_of_In. apply list_elem_of_In in Hb'.
    by apply filter_In in Hb' as [? _]. }
  split; [split_and!|split; [split_and!|]].
  - rewrite createBill_bills.
    pose proof (newBill_invariant fresh extracted base64Image manualData s) as Hnew.
    destruct (isConfigured s); [|by constructor].
    destruct (saveBillToSupabase _ base64Image r w).2; [by constructor|].
    apply Forall_list_filter. by constructor.
  - rewrite handlePackSelected_any. destruct confirmed; [|done].
    apply Forall_fmap. eapply Forall_impl; [exact Hinv|]. intros b Hb. simpl.
    destruct (is_selected s b); [apply with_packed_invariant | exact Hb].
  - rewrite applyGroupSettings_bills.
    apply Forall_fmap. eapply Forall_impl; [exact Hinv|]. intros b Hb. simpl.
    by destruct (is_selected s b).
  - rewrite handleDeleteBill_bills. by destruct confirmed.
  - rewrite handleDeleteSelected_bills. case_bool_decide; [done|]. by destruct confirmed.
  - intros Hupdated. unfold handleUpdateBill.
    assert (Forall bill_invariant
              (map (fun b => if str_eqb (id b) (id updated) then updated else b)
                 (allBills s))) as Hmap.
    { apply Forall_fmap. eapply Forall_impl; [exact Hinv|]. intros b Hb. simpl.
      by destruct (str_eqb (id b) (id updated)). }
    by destruct (isConfigured s).
  - intros b'. rewrite createBill_bills.
    assert (b' ∈ newBill fresh extracted base64Image manualData s :: allBills s ->
            b' = newBill fresh extracted base64Image manualData s \/ b' ∈ allBills s)
      as Hcons by (by intros ?%elem_of_cons).
    destruct (isConfigured s); [|exact Hcons].
    destruct (saveBillToSupabase _ base64Image r w).2; [exact Hcons|].
    intros Hb'. apply Hcons. apply list_elem_of_In. apply list_elem_of_In in Hb'.
    by apply filter_In in Hb' as [? _].
  - rewrite applyGroupSettings_bills.
    eapply Forall2_impl; [apply Forall2_map_self|].
    intros b b' ->. simpl. by destruct (is_selected s b).
  - rewrite handleDeleteBill_bills. destruct confirmed; [apply Hsub | done].
  - rewrite handleDeleteSelected_bills. case_bool_decide; [done|].
    destruct confirmed; [apply Hsub | done].
  - rewrite handlePackSelected_bills.
    eapply Forall2_impl; [apply Forall2_map_self|].
    intros b b' ->. simpl. by destruct (is_selected s b).
Qed.

End Lifecycle.

(** C7 as stated fails: a bill that is already PACKED can be selected
    (the cards of the today view are selectable whatever their status),
    and packing the selection stamps it again. *)
Lemma pack_overwrites_packedAt :
  let packed := Sample.bill "k02" "INV-2" "2024-01-03" PACKED 20 (Some 25) in
  let s := Sample.state [packed] "2024-01-03" false ["k02"%string] in
  Forall bill_invariant (allBills s)
  /\ allBills (handlePackSelected true 40 (fun _ => Sample.replies Succeeds None) s
                 (Sample.world [])).1
     = [with_packed 40 packed]
  /\ ~ packedAt_frozen (allBills s)
         (allBills (handlePackSelected true 40 (fun _ => Sample.replies Succeeds None) s
                      (Sample.world [])).1).
Proof.
  intros packed s.
  assert (allBills (handlePackSelected true 40 (fun _ => Sample.replies Succeeds None) s
                      (Sample.world [])).1
          = [with_packed 40 packed]) as Hafter by (vm_compute; reflexivity).
  split_and!.
  - repeat constructor. unfold bill_invariant. simpl. by eexists.
  - exact Hafter.
  - rewrite Hafter. intros Hfrozen.
    specialize (Hfrozen packed (with_packed 40 packed)
                  ltac:(apply list_elem_of_here) ltac:(apply list_elem_of_here)
                  eq_refl eq_refl).
    discriminate.
Qed.

Lemma lifecycle_invariant_witness :
  let packed := Sample.bill "k02" "INV-2" "2024-01-03" PACKED 20 (Some 25) in
  let s := Sample.state [packed] "2024-01-03" false ["k02"%string] in
  Forall bill_invariant
    (allBills (handlePackSelected true 40 (fun _ => Sample.replies Succeeds None) s
                 (Sample.world [])).1).
Proof.
  intros packed s.
  apply (lifecycle_invariant Sample.fresh (Sample.extracted "INV-9") None None
           (Sample.replies Succeeds None) true 40 (fun _ => Sample.replies Succeeds None)
           (lit "k02") {| select_reply := None; remove_reply := Succeeds;
                          delete_reply := Succeeds |}
           (fun _ => {| select_reply := None; remove_reply := Succeeds;
                        delete_reply := Succeeds |})
           packed s (Sample.world [])).
  repeat constructor. unfold bill_invariant. simpl. by eexists.
Defined.

(** ** The persist saga *)

Lemma calls_storage_remove (path : jsstring) (f : fault) (w : World) :
  calls (storage_remove path f w) = calls w ++ [StorageRemove path].
Proof. unfold storage_remove. by destruct f. Qed.

Lemma calls_storage_upload (fileName blob : jsstring) (f : fault) (w : World) :
  calls (storage_upload fileName blob f w) = calls w ++ [StorageUpload fileName blob].
Proof. unfold storage_upload. by destruct f. Qed.

Section Saga.
Context `{Host}.

Lemma calls_upsert_bill (finalBill : BillData) (path : option jsstring)
    (r : SaveReplies) (w : World) :
  exists rest, calls (upsert_bill finalBill path r w).1 = calls w ++ rest.
Proof.
  unfold upsert_bill. destruct (upsert_reply r) as [m|]; [|by eexists].
  destruct path as [p|]; [|by eexists].
  exists [TableUpsert finalBill; StorageRemove p].
  assert (calls (storage_remove p (rollback_reply r) (request (TableUpsert finalBill) w))
          = calls w ++ [TableUpsert finalBill; StorageRemove p]) as Hcalls.
  { rewrite calls_storage_remove. simpl. by rewrite <- app_assoc. }
  by destruct (rollback_reply r).
Qed.

Lemma calls_upload_image (bill : BillData) (img : jsstring) (r : SaveReplies) (w : World) :
  exists rest, calls (upload_image bill img r w).1 = calls w ++ rest.
Proof.
  unfold upload_image. destruct (base64ToBlob img) as [blob|m].
  - eexists. destruct (upload_reply r); cbn [fst]; apply calls_storage_upload.
  - exists []. cbn [fst]. by rewrite app_nil_r.
Qed.

(** C5, as the code has it.  When the bill to persist comes with an
    image payload and already has an image stored in the bucket, the
    removal of that image is the first request sent, before the upload
    of the new image is attempted; once the backend has carried it out,
    the prior image is gone also when the upload fails. *)
Theorem prior_image_removed_first (bill : BillData) (img oldPath : jsstring)
    (r : SaveReplies) (w : World) :
  connected w = true ->
  truthy img && startsWith img (lit "data:") = true ->
  bucket_path (imageUrl bill) = Some (Fine oldPath) ->
  (exists rest,
     calls (saveBillToSupabase bill (Some img) r w).1
     = calls w ++ StorageRemove oldPath :: rest)
  /\ (cleanup_reply r = Succeeds -> upload_reply r ≠ Succeeds ->
      objects (saveBillToSupabase bill (Some img) r w).1 = delete oldPath (objects w)
      /\ exists message, (saveBillToSupabase bill (Some img) r w).2 = Raised message).
Proof.
  intros Hconn Himg Hold. unfold saveBillToSupabase. rewrite Hconn, Himg. simpl.
  unfold cleanup_old_image. rewrite Hold. split.
  - destruct (calls_upload_image bill img r
                (storage_remove oldPath (cleanup_reply r) w)) as [rest1 Hup].
    destruct (upload_image bill img r (storage_remove oldPath (cleanup_reply r) w))
      as [w2 [[finalBill path]|m]] eqn:Hu; simpl in Hup.
    + destruct (calls_upsert_bill finalBill path r w2) as [rest2 Hups].
      exists (rest1 ++ rest2). rewrite Hups, Hup, calls_storage_remove.
      by rewrite <- !app_assoc.
    + exists rest1. simpl. rewrite Hup, calls_storage_remove. by rewrite <- app_assoc.
  - intros Hclean Hupload. rewrite Hclean. unfold upload_image.
    destruct (base64ToBlob img) as [blob|m]; simpl.
    + destruct (upload_reply r) as [|m|m]; [done| |]; simpl; split; by eauto.
    + split; by eauto.
Qed.

(** C6. When the image was uploaded and the upsert of the record then
    reports an error, the requests end with the upload, the upsert and
    the removal of the object just uploaded, the call throws, and once
    the backend has carried out that removal the object is not in the
    bucket. *)
Theorem upsert_failure_rolls_back_upload (bill : BillData) (img blob message : jsstring)
    (r : SaveReplies) (w : World) :
  connected w = true ->
  truthy img && startsWith img (lit "data:") = true ->
  base64ToBlob img = Fine blob ->
  upload_reply r = Succeeds ->
  upsert_reply r = Some message ->
  let fileName := id bill ++ lit "_" ++ of_Z (upload_time r) ++ lit ".jpg" in
  (exists thrown, (saveBillToSupabase bill (Some img) r w).2 = Raised thrown)
  /\ (exists earlier,
        calls (saveBillToSupabase bill (Some img) r w).1
        = earlier ++ [StorageUpload fileName blob;
                      TableUpsert (with_imageUrl (publicUrl r fileName) bill);
                      StorageRemove fileName])
  /\ (rollback_reply r = Succeeds ->
      objects (saveBillToSupabase bill (Some img) r w).1 !! fileName = None).
Proof.
  intros Hconn Himg Hblob Hupload Hupsert fileName.
  assert (truthy fileName = true) as Hname.
  { unfold fileName. by destruct (id bill). }
  unfold saveBillToSupabase. rewrite Hconn, Himg. simpl.
  set (w1 := cleanup_old_image bill r w).
  unfold upload_image. rewrite Hblob, Hupload. fold fileName. rewrite Hname.
  unfold upsert_bill. rewrite Hupsert.
  set (finalBill := with_imageUrl (publicUrl r fileName) bill).
  set (w2 := storage_upload fileName blob Succeeds w1).
  assert (calls (storage_remove fileName (rollback_reply r)
                   (request (TableUpsert finalBill) w2))
          = calls w1 ++ [StorageUpload fileName blob; TableUpsert finalBill;
                         StorageRemove fileName]) as Hcalls.
  { rewrite calls_storage_remove.
    change (calls (request (TableUpsert finalBill) w2))
      with (calls w2 ++ [TableUpsert finalBill]).
    unfold w2. rewrite calls_storage_upload. by rewrite <- !app_assoc. }
  split_and!.
  - destruct (rollback_reply r); by eauto.
  - exists (calls w1). by destruct (rollback_reply r).
  - intros ->. simpl. apply lookup_delete_eq.
Qed.

End Saga.

(** C5 as stated fails: the bill has an image in the bucket, the upload
    of the new one is refused, and the prior image is removed all the
    same, before the upload was attempted. *)
Lemma prior_image_removed_before_upload :
  let old := lit "k01_1600000000000.jpg" in
  let bill :=
    with_imageUrl
      (lit "https://grace.example/storage/v1/object/public/receipts/k01_1600000000000.jpg")
      (Sample.bill "k01" "INV-1" "2024-01-02" PENDING 10 None) in
  let w := Sample.world [("k01_1600000000000.jpg", "JPEG")%string] in
  let out :=
    saveBillToSupabase bill (Some Sample.photo)
      (Sample.replies (Fails (lit "Payload too large")) None) w in
  objects w !! old = Some (lit "JPEG")
  /\ calls out.1
     = [StorageRemove old; StorageUpload (lit "k01_1700000000000.jpg") (lit "Hello")]
  /\ objects out.1 !! old = None
  /\ out.2 = Raised (lit "Image Upload Failed: Payload too large")
  /\ ~ removed_only_after_upload old (calls out.1).
Proof.
  intros old bill w out.
  assert (calls out.1
          = [StorageRemove old; StorageUpload (lit "k01_1700000000000.jpg") (lit "Hello")])
    as Hcalls by (vm_compute; reflexivity).
  split_and!.
  - vm_compute. reflexivity.
  - exact Hcalls.
  - vm_compute. reflexivity.
  - vm_compute. reflexivity.
  - rewrite Hcalls. intros Hafter.
    destruct (Hafter [] [StorageUpload (lit "k01_1700000000000.jpg") (lit "Hello")] eq_refl)
      as (fileName & blob & Hin).
    by apply elem_of_nil in Hin.
Qed.

Lemma prior_image_removed_first_witness :
  let old := lit "k01_1600000000000.jpg" in
  let bill :=
    with_imageUrl
      (lit "https://grace.example/storage/v1/object/public/receipts/k01_1600000000000.jpg")
      (Sample.bill "k01" "INV-1" "2024-01-02" PENDING 10 None) in
  let w := Sample.world [("k01_1600000000000.jpg", "JPEG")%string] in
  exists rest,
    calls (saveBillToSupabase bill (Some Sample.photo)
             (Sample.replies (Fails (lit "Payload too large")) None) w).1
    = calls w ++ StorageRemove old :: rest.
Proof.
  intros old bill w.
  apply (prior_image_removed_first bill Sample.photo old
           (Sample.replies (Fails (lit "Payload too large")) None) w).
  - reflexivity.
  - reflexivity.
  - vm_compute. reflexivity.
Defined.

Lemma upsert_failure_rolls_back_upload_witness :
  let bill := Sample.bill "k01" "INV-1" "2024-01-02" PENDING 10 None in
  let r := Sample.replies Succeeds (Some (lit "duplicate key")) in
  objects (saveBillToSupabase bill (Some Sample.photo) r (Sample.world [])).1
    !! (id bill ++ lit "_" ++ of_Z (upload_time r) ++ lit ".jpg")
  = None.
Proof.
  intros bill r.
  apply (upsert_failure_rolls_back_upload bill Sample.photo (lit "Hello")
           (lit "duplicate key") r (Sample.world [])).
  - reflexivity.
  - reflexivity.
  - vm_compute. reflexivity.
  - reflexivity.
  - reflexivity.
  - reflexivity.
Defined.

(** The scenario of the specification: one PENDING bill entered on
    2024-01-01, viewed on 2024-01-03, is in the backlog and not in the
    today view. *)
Lemma today_backlog_partition_witness :
  let overdue := Sample.bill "k01" "INV-1" "2024-01-01" PENDING 10 None in
  let s := Sample.state [overdue] "2024-01-03" false [] in
  overdue ∈ backlogBills s /\ overdue ∉ todayNewBills s.
Proof.
  intros overdue s.
  destruct (today_backlog_partition s) as (_ & Hbacklog & Hdisjoint & _).
  assert (overdue ∈ backlogBills s) as Hin.
  { apply Hbacklog. split_and!; [apply list_elem_of_here | reflexivity | reflexivity]. }
  split; [exact Hin|]. intros Htoday. by apply (Hdisjoint overdue Htoday).
Defined.

(** * Further properties of the code *)

(** ** The gateway: requests and bucket *)

Lemma connected_request (c : Call) (w : World) : connected (request c w) = connected w.
Proof. reflexivity. Qed.

Lemma connected_storage_remove (path : jsstring) (f : fault) (w : World) :
  connected (storage_remove path f w) = connected w.
Proof. unfold storage_remove. by destruct f. Qed.

Lemma connected_storage_upload (fileName blob : jsstring) (f : fault) (w : World) :
  connected (storage_upload fileName blob f w) = connected w.
Proof. unfold storage_upload. by destruct f. Qed.

Lemma dom_storage_remove (path : jsstring) (f : fault) (w : World) :
  dom (objects (storage_remove path f w)) ⊆ dom (objects w).
Proof.
  unfold storage_remove. destruct f; simpl; [|done..].
  rewrite dom_delete_L. by apply subseteq_difference_l.
Qed.

Section GatewayFacts.
Context `{Host}.

Lemma calls_cleanup_old_image (bill : BillData) (r : SaveReplies) (w : World) :
  calls (cleanup_old_image bill r w)
  = calls w ++ match bucket_path (imageUrl bill) with
               | Some (Fine oldPath) => [StorageRemove oldPath]
               | _ => []
               end.
Proof.
  unfold cleanup_old_image.
  destruct (bucket_path (imageUrl bill)) as [[oldPath|m]|];
    [apply calls_storage_remove | by rewrite app_nil_r..].
Qed.

Lemma dom_cleanup_old_image (bill : BillData) (r : SaveReplies) (w : World) :
  dom (objects (cleanup_old_image bill r w)) ⊆ dom (objects w).
Proof.
  unfold cleanup_old_image.
  destruct (bucket_path (imageUrl bill)) as [[oldPath|m]|];
    [apply dom_storage_remove | done..].
Qed.

(** A persist without an image payload (none given, or one that is not
    a [data:] URL) sends exactly one request, the upsert of the bill as
    it is, leaves the bucket alone, and is fulfilled exactly when the
    upsert reports no error. *)
Theorem save_without_image (bill : BillData) (img : option jsstring)
    (r : SaveReplies) (w : World) :
  connected w = true ->
  match img with
  | Some i => truthy i && startsWith i (lit "data:") = false
  | None => True
  end ->
  calls (saveBillToSupabase bill img r w).1 = calls w ++ [TableUpsert bill]
  /\ objects (saveBillToSupabase bill img r w).1 = objects w
  /\ ((saveBillToSupabase bill img r w).2 = Fine tt <-> upsert_reply r = None).
Proof.
  intros Hconn Himg.
  assert (saveBillToSupabase bill img r w = upsert_bill bill None r w) as ->.
  { unfold saveBillToSupabase. rewrite Hconn. simpl.
    destruct img as [i|]; [by rewrite Himg | done]. }
  unfold upsert_bill. destruct (upsert_reply r) as [m|]; simpl; split_and!; done.
Qed.

(** The persist is fulfilled exactly when the client is connected, the
    upsert reports no error and, if a [data:] image came with it, the
    image could be decoded and uploaded. *)
Theorem save_fulfilled_iff (bill : BillData) (img : option jsstring)
    (r : SaveReplies) (w : World) :
  (saveBillToSupabase bill img r w).2 = Fine tt
  <-> connected w = true
      /\ upsert_reply r = None
      /\ match img with
         | Some i =>
             truthy i && startsWith i (lit "data:") = true ->
             (exists blob, base64ToBlob i = Fine blob) /\ upload_reply r = Succeeds
         | None => True
         end.
Proof.
  assert (forall b p v, (upsert_bill b p r v).2 = Fine tt <-> upsert_reply r = None)
    as Hupsert.
  { intros b p v. unfold upsert_bill. destruct (upsert_reply r) as [m|]; simpl.
    - destruct p; [destruct (rollback_reply r)|]; simpl; split; discriminate.
    - done. }
  unfold saveBillToSupabase. destruct (connected w); simpl.
  2: { split; [discriminate | by intros [? _]]. }
  destruct img as [i|]; [|rewrite Hupsert; tauto].
  destruct (truthy i && startsWith i (lit "data:")) eqn:Hi.
  2: { rewrite Hupsert. split; [by intros ->|by intros (_ & ? & _)]. }
  unfold upload_image. destruct (base64ToBlob i) as [blob|m]; simpl.
  - destruct (upload_reply r) as [|m|m]; simpl.
    + rewrite Hupsert. split; [intros ->; by eauto | by intros (_ & ? & _)].
    + split; [discriminate | intros (_ & _ & Hu)]. by destruct (Hu eq_refl) as [_ ?].
    + split; [discriminate | intros (_ & _ & Hu)]. by destruct (Hu eq_refl) as [_ ?].
  - split; [discriminate | intros (_ & _ & Hu)].
    by destruct (Hu eq_refl) as [[blob ?] _].
Qed.

(** When the image cannot be decoded or its upload is refused, the
    record is never upserted: the requests sent are exactly the removal
    of the prior image, if the bill has one in the bucket, followed by
    the upload, if the image could be decoded; nothing else is sent, and
    the call throws "Image Upload Failed". *)
Theorem failed_upload_sends_no_upsert (bill : BillData) (img : jsstring)
    (r : SaveReplies) (w : World) :
  connected w = true ->
  truthy img && startsWith img (lit "data:") = true ->
  (exists m, base64ToBlob img = Raised m) \/ upload_reply r ≠ Succeeds ->
  exists sent cause,
    calls (saveBillToSupabase bill (Some img) r w).1 = calls w ++ sent
    /\ sent
       = match bucket_path (imageUrl bill) with
         | Some (Fine oldPath) => [StorageRemove oldPath]
         | _ => []
         end
         ++ match base64ToBlob img with
            | Fine blob =>
                [StorageUpload (id bill ++ lit "_" ++ of_Z (upload_time r) ++ lit ".jpg")
                   blob]
            | Raised _ => []
            end
    /\ (forall row, TableUpsert row ∉ sent)
    /\ (saveBillToSupabase bill (Some img) r w).2
       = Raised (lit "Image Upload Failed: " ++ cause).
Proof.
  intros Hconn Himg Hfail. unfold saveBillToSupabase. rewrite Hconn, Himg. cbn [negb].
  pose proof (calls_cleanup_old_image bill r w) as Hclean.
  set (w1 := cleanup_old_image bill r w) in *.
  set (removal := match bucket_path (imageUrl bill) with
                  | Some (Fine oldPath) => [StorageRemove oldPath]
                  | _ => []
                  end) in *.
  set (fileName := id bill ++ lit "_" ++ of_Z (upload_time r) ++ lit ".jpg").
  assert (forall row, TableUpsert row ∉ removal) as Hremoval.
  { intros row. unfold removal.
    destruct (bucket_path (imageUrl bill)) as [[oldPath|m]|];
      [|apply not_elem_of_nil..].
    intros Hin%list_elem_of_singleton. discriminate. }
  assert (forall row blob,
            TableUpsert row ∉ removal ++ [StorageUpload fileName blob]) as Hsent.
  { intros row blob [Hin|Hin]%elem_of_app; [by apply (Hremoval row)|].
    apply list_elem_of_singleton in Hin. discriminate. }
  unfold upload_image. fold fileName.
  destruct (base64ToBlob img) as [blob|m] eqn:Hblob.
  - destruct (upload_reply r) as [|m|m] eqn:Hup.
    + destruct Hfail as [[m Hm] | Hne]; [discriminate | done].
    + exists (removal ++ [StorageUpload fileName blob]), (or_else m (lit "Unknown error")).
      cbn [fst snd]. rewrite calls_storage_upload, Hclean, <- app_assoc.
      split_and!; [done | done | | done]. intros row. apply Hsent.
    + exists (removal ++ [StorageUpload fileName blob]), (or_else m (lit "Unknown error")).
      cbn [fst snd]. rewrite calls_storage_upload, Hclean, <- app_assoc.
      split_and!; [done | done | | done]. intros row. apply Hsent.
  - exists (removal ++ []), (or_else m (lit "Unknown error")). cbn [fst snd].
    rewrite app_nil_r. split_and!; [done | done | exact Hremoval | done].
Qed.

(** A persist that throws adds no object to the bucket, on any of its
    failure paths, as long as the backend carries out the rollback
    removal when one is sent. *)
Theorem failed_save_adds_no_object (bill : BillData) (img : option jsstring)
    (r : SaveReplies) (w : World) (cause : jsstring) :
  (saveBillToSupabase bill img r w).2 = Raised cause ->
  rollback_reply r = Succeeds ->
  dom (objects (saveBillToSupabase bill img r w).1) ⊆ dom (objects w).
Proof.
  intros Hthrow Hroll.
  assert (forall b v, objects (upsert_bill b None r v).1 = objects v) as Hplain.
  { intros b v. unfold upsert_bill. by destruct (upsert_reply r). }
  revert Hthrow. unfold saveBillToSupabase. destruct (connected w); simpl; [|done].
  destruct img as [i|]; [|by rewrite Hplain].
  destruct (truthy i && startsWith i (lit "data:")); [|by rewrite Hplain].
  pose proof (dom_cleanup_old_image bill r w) as Hclean.
  set (w1 := cleanup_old_image bill r w) in *.
  unfold upload_image. destruct (base64ToBlob i) as [blob|m]; [|done].
  set (fileName := id bill ++ lit "_" ++ of_Z (upload_time r) ++ lit ".jpg").
  assert (truthy fileName = true) as -> by (unfold fileName; by destruct (id bill)).
  destruct (upload_reply r) as [|m|m]; [|done..].
  unfold upsert_bill. destruct (upsert_reply r) as [m|]; [|done].
  rewrite Hroll. cbn -[lit]. intros _.
  rewrite dom_delete_L, dom_insert_L. intros x [Hx Hne]%elem_of_difference.
  apply elem_of_union in Hx as [Hx|Hx]; [done | by apply Hclean].
Qed.

End GatewayFacts.

Section GatewayDeleteFacts.
Context `{Host}.

(** A remote deletion with no client handle does nothing.  With one it
    first selects the row, never adds to the bucket, and sends the
    deletion of the row unless decoding the stored path or the removal
    of the image throws: an image removal that merely reports an error
    does not stop it, a thrown one leaves the row in the table. *)
Theorem delete_row_requested (key : jsstring) (r : DeleteReplies) (w : World) :
  (connected w = false -> deleteBillFromSupabase key r w = w)
  /\ (connected w = true ->
      exists sent,
        calls (deleteBillFromSupabase key r w) = calls w ++ TableSelect key :: sent
        /\ dom (objects (deleteBillFromSupabase key r w)) ⊆ dom (objects w)
        /\ (TableDelete key ∈ sent
            <-> match select_reply r with
                | Some url =>
                    match bucket_path url with
                    | Some (Fine _) => forall m, remove_reply r ≠ Throws m
                    | Some (Raised _) => False
                    | None => True
                    end
                | None => True
                end)).
Proof.
  unfold deleteBillFromSupabase. split; [by intros ->|]. intros ->. simpl.
  assert (TableDelete key ∈ [TableDelete key]) as Hlast by apply list_elem_of_here.
  destruct (select_reply r) as [url|].
  2: { exists [TableDelete key]. simpl. rewrite <- app_assoc. done. }
  destruct (bucket_path url) as [[filePath|m]|].
  - set (w1 := request (TableSelect key) w).
    assert (calls (storage_remove filePath (remove_reply r) w1)
            = calls w ++ [TableSelect key; StorageRemove filePath]) as Hcalls.
    { rewrite calls_storage_remove. unfold w1. simpl. by rewrite <- app_assoc. }
    pose proof (dom_storage_remove filePath (remove_reply r) w1) as Hdom.
    destruct (remove_reply r) as [|m|m] eqn:Hr.
    + exists [StorageRemove filePath; TableDelete key]. simpl in *.
      rewrite <- !app_assoc. split_and!; [done..|].
      split; [done|]. intros _. do 1 apply list_elem_of_further. exact Hlast.
    + exists [StorageRemove filePath; TableDelete key]. simpl in *.
      rewrite <- !app_assoc. split_and!; [done..|].
      split; [done|]. intros _. do 1 apply list_elem_of_further. exact Hlast.
    + exists [StorageRemove filePath]. simpl in *. rewrite <- !app_assoc.
      split_and!; [done..|]. split.
      * intros Hin%list_elem_of_singleton. discriminate.
      * intros Hno. by destruct (Hno m).
  - exists []. simpl. split_and!; [done..|]. split; [|done].
    intros Hin. by apply not_elem_of_nil in Hin.
  - exists [TableDelete key]. simpl. rewrite <- app_assoc. done.
Qed.

End GatewayDeleteFacts.

Section FanOut.
Context `{Host}.

Lemma save_plain (bill : BillData) (r : SaveReplies) (w : World) :
  connected w = true ->
  saveBillToSupabase bill None r w
  = (request (TableUpsert bill) w,
     match upsert_reply r with
     | None => Fine tt
     | Some m =>
         Raised (lit "Database Save Failed: " ++ or_else m (lit "Check console for details"))
     end).
Proof.
  intros Hconn. unfold saveBillToSupabase, upsert_bill. rewrite Hconn. simpl.
  by destruct (upsert_reply r).
Qed.

(** The fan-out of a bulk operation sends one upsert for every bill, in
    the order of the list, also after one of them has failed; it leaves
    the bucket alone, and all saves are fulfilled exactly when every
    upsert reports no error. *)
Lemma save_each_sends_all (bills : list BillData) (script : nat -> SaveReplies)
    (i : nat) (w : World) :
  connected w = true ->
  calls (save_each bills script i w).1 = calls w ++ map TableUpsert bills
  /\ objects (save_each bills script i w).1 = objects w
  /\ connected (save_each bills script i w).1 = true
  /\ ((save_each bills script i w).2 = true
      <-> forall k, (k < length bills)%nat -> upsert_reply (script (i + k)%nat) = None).
Proof.
  revert i w. induction bills as [|b bills IH]; intros i w Hconn; simpl.
  - rewrite app_nil_r. split_and!; [done..|]. split; [intros _ k; lia | done].
  - rewrite (save_plain b (script i) w Hconn).
    specialize (IH (S i) (request (TableUpsert b) w) Hconn).
    destruct (save_each bills script (S i) (request (TableUpsert b) w)) as [w2 ok].
    simpl in IH. destruct IH as (Hcalls & Hobj & Hc & Hok). simpl.
    rewrite Hcalls, <- app_assoc. split_and!; [done..|].
    destruct (upsert_reply (script i)) as [m|] eqn:Hi.
    + split; [discriminate|]. intros Hall. specialize (Hall 0%nat ltac:(lia)).
      rewrite Nat.add_0_r in Hall. congruence.
    + rewrite Hok. split.
      * intros Hall [|k] Hk; [by rewrite Nat.add_0_r|].
        replace (i + S k)%nat with (S (i + k)) by lia. apply Hall. lia.
      * intros Hall k Hk. replace (S (i + k)) with (i + S k)%nat by lia.
        apply Hall. lia.
Qed.

Lemma filter_selected_map (f : BillData -> BillData) (s : AppState) (l : list BillData) :
  (forall b, id (f b) = id b) ->
  List.filter (is_selected s) (map (fun b => if is_selected s b then f b else b) l)
  = map f (List.filter (is_selected s) l).
Proof.
  intros Hid. induction l as [|b l IH]; simpl; [done|].
  destruct (is_selected s b) eqn:Hb.
  - assert (is_selected s (f b) = true) as ->.
    { unfold is_selected in *. by rewrite Hid. }
    simpl. by rewrite IH.
  - rewrite Hb. exact IH.
Qed.

(** A confirmed bulk pack with a backend: the selected bills, as packed,
    are upserted one by one.  When every upsert goes through, the busy
    flag is cleared and the selection closed; when one of them reports
    an error the handler stops at the rejected [await]: the store keeps
    the packed bills, but the busy flag stays set and the selection
    stays open. *)
Theorem pack_failure_keeps_busy (now : Z) (script : nat -> SaveReplies)
    (s : AppState) (w : World) :
  isConfigured s = true -> connected w = true -> size (selectedIds s) ≠ 0%nat ->
  let chosen := List.filter (is_selected s) (allBills s) in
  let out := handlePackSelected true now script s w in
  calls out.2 = calls w ++ map TableUpsert (map (with_packed now) chosen)
  /\ ((forall k, (k < length chosen)%nat -> upsert_reply (script k) = None) ->
      isSyncing out.1 = false /\ selectedIds out.1 = ∅ /\ isSelectionMode out.1 = false)
  /\ ((exists k, (k < length chosen)%nat /\ upsert_reply (script k) ≠ None) ->
      isSyncing out.1 = true /\ selectedIds out.1 = selectedIds s
      /\ isSelectionMode out.1 = isSelectionMode s
      /\ allBills out.1
         = map (fun b => if is_selected s b then with_packed now b else b) (allBills s)).
Proof.
  intros Hconf Hconn Hsize chosen out. unfold out, handlePackSelected.
  rewrite bool_decide_eq_false_2 by done. rewrite Hconf.
  rewrite (filter_selected_map (with_packed now)) by done. fold chosen.
  destruct (save_each_sends_all (map (with_packed now) chosen) script 0 w Hconn)
    as (Hcalls & _ & _ & Hok).
  rewrite length_map in Hok.
  destruct (save_each (map (with_packed now) chosen) script 0 w) as [w' ok].
  simpl in Hcalls, Hok. split_and!.
  - by destruct ok.
  - intros Hall. apply Hok in Hall. by rewrite Hall.
  - intros (k & Hk & Hfail). destruct ok; [|done].
    destruct Hfail. by apply Hok.
Qed.

(** The same for group settings: a rejected save leaves the retagged
    bills in the store, the busy flag set and the selection open, and
    every selected bill was sent all the same. *)
Theorem group_failure_keeps_busy (now : Z) (script : nat -> SaveReplies)
    (s : AppState) (w : World) :
  isConfigured s = true -> connected w = true ->
  let color := if truthy (groupColorInput s) then Some (groupColorInput s) else None in
  let chosen := List.filter (is_selected s) (allBills s) in
  let out := applyGroupSettings now script s w in
  calls out.2
  = calls w ++ map TableUpsert (map (with_group (groupNameInput s) color now) chosen)
  /\ showGroupModal out.1 = false
  /\ ((forall k, (k < length chosen)%nat -> upsert_reply (script k) = None) ->
      isSyncing out.1 = false /\ selectedIds out.1 = ∅ /\ isSelectionMode out.1 = false)
  /\ ((exists k, (k < length chosen)%nat /\ upsert_reply (script k) ≠ None) ->
      isSyncing out.1 = true /\ selectedIds out.1 = selectedIds s
      /\ isSelectionMode out.1 = isSelectionMode s).
Proof.
  intros Hconf Hconn color chosen out. unfold out, applyGroupSettings.
  rewrite Hconf. fold color.
  rewrite (filter_selected_map (with_group (groupNameInput s) color now)) by done.
  fold chosen.
  destruct (save_each_sends_all (map (with_group (groupNameInput s) color now) chosen)
              script 0 w Hconn) as (Hcalls & _ & _ & Hok).
  rewrite length_map in Hok.
  destruct (save_each (map (with_group (groupNameInput s) color now) chosen) script 0 w)
    as [w' ok].
  simpl in Hcalls, Hok. split_and!.
  - by destruct ok.
  - by destruct ok.
  - intros Hall. apply Hok in Hall. by rewrite Hall.
  - intros (k & Hk & Hfail). destruct ok; [|done].
    destruct Hfail. by apply Hok.
Qed.

End FanOut.

(** ** The handlers: what stays local, what stays unique *)

Lemma NoDup_ids_filter (f : BillData -> bool) (l : list BillData) :
  NoDup (map id l) -> NoDup (map id (List.filter f l)).
Proof.
  induction l as [|b l IH]; simpl; [done|]. intros [Hb Hl]%NoDup_cons.
  destruct (f b); simpl; [|by apply IH].
  apply NoDup_cons. split; [|by apply IH].
  intros (b' & Hid & Hin)%list_elem_of_fmap. apply Hb.
  apply list_elem_of_fmap. exists b'. split; [done|].
  apply list_elem_of_In. apply list_elem_of_In in Hin. by apply filter_In in Hin as [? _].
Qed.

Lemma map_id_rewrite (sel : BillData -> bool) (f : BillData -> BillData)
    (l : list BillData) :
  (forall b, sel b = true -> id (f b) = id b) ->
  map id (map (fun b => if sel b then f b else b) l) = map id l.
Proof.
  intros Hid. induction l as [|b l IH]; simpl; [done|]. rewrite IH. f_equal.
  destruct (sel b) eqn:Hb; [by apply Hid | done].
Qed.

Section Local.
Context `{Host}.

(** Without a configured backend no handler sends a request: creation
    (from a capture, from a confirmed duplicate, from the quick add),
    edit, both deletions, bulk pack and group settings leave the world of
    the gateway as it was. *)
Theorem offline_sends_nothing
    (file : Capture) (fresh : Fresh) (extracted : Extracted)
    (base64Image : option jsstring) (manualData : option ManualData)
    (customer invoice : jsstring) (data : ManualData) (updated : BillData)
    (key : jsstring) (confirmed : bool) (now : Z)
    (r : SaveReplies) (script : nat -> SaveReplies)
    (rd : DeleteReplies) (scriptd : jsstring -> DeleteReplies)
    (s : AppState) (w : World) :
  isConfigured s = false ->
  (createBill fresh extracted base64Image manualData r s w).2 = w
  /\ (handleAddBill file fresh r s w).2 = w
  /\ (handleManualQuickAdd customer invoice data fresh r s w).2 = w
  /\ (handleConfirmDuplicate fresh r s w).2 = w
  /\ (handleUpdateBill updated r s w).2 = w
  /\ (handleDeleteBill key confirmed rd s w).2 = w
  /\ (handleDeleteSelected confirmed scriptd s w).2 = w
  /\ (handlePackSelected confirmed now script s w).2 = w
  /\ (applyGroupSettings now script s w).2 = w.
Proof.
  intros Hoff.
  assert (forall fr ex img md t, isConfigured t = false ->
            (createBill fr ex img md r t w).2 = w) as Hcreate.
  { intros fr ex img md t Ht. unfold createBill. by rewrite Ht. }
  split_and!.
  - by apply Hcreate.
  - unfold handleAddBill.
    destruct file as [| | |img ex]; try done.
    + match goal with
      | |- context [createBill ?fr ?ex ?img ?md r ?t w] =>
          pose proof (Hcreate fr ex img md t Hoff) as Hc;
          destruct (createBill fr ex img md r t w)
      end. exact Hc.
    + destruct (find_duplicate (allBills s) (x_invoiceNo ex)); [done|].
      match goal with
      | |- context [createBill ?fr ?ex ?img ?md r ?t w] =>
          pose proof (Hcreate fr ex img md t Hoff) as Hc;
          destruct (createBill fr ex img md r t w)
      end. exact Hc.
  - unfold handleManualQuickAdd.
    match goal with
    | |- context [createBill ?fr ?ex ?img ?md r ?t w] =>
        pose proof (Hcreate fr ex img md t Hoff) as Hc;
        destruct (createBill fr ex img md r t w)
    end. exact Hc.
  - unfold handleConfirmDuplicate. destruct (duplicateAlert s) as [alert|]; [|done].
    match goal with
    | |- context [createBill ?fr ?ex ?img ?md r ?t w] =>
        pose proof (Hcreate fr ex img md t Hoff) as Hc;
        destruct (createBill fr ex img md r t w)
    end. exact Hc.
  - unfold handleUpdateBill. by rewrite Hoff.
  - unfold handleDeleteBill. rewrite Hoff. by destruct confirmed.
  - unfold handleDeleteSelected. rewrite Hoff. case_bool_decide; [done|].
    by destruct confirmed.
  - unfold handlePackSelected. rewrite Hoff. case_bool_decide; [done|].
    by destruct confirmed.
  - unfold applyGroupSettings. by rewrite Hoff.
Qed.

(** The ids of the store stay pairwise distinct under every operation:
    creation with an id that is not in use, edit, bulk pack and group
    settings (which keep the list of ids as it is), and both deletions. *)
Theorem ids_stay_unique
    (fresh : Fresh) (extracted : Extracted) (base64Image : option jsstring)
    (manualData : option ManualData) (updated : BillData)
    (key : jsstring) (confirmed : bool) (now : Z)
    (r : SaveReplies) (script : nat -> SaveReplies)
    (rd : DeleteReplies) (scriptd : jsstring -> DeleteReplies)
    (s : AppState) (w : World) :
  NoDup (map id (allBills s)) ->
  (fresh_id fresh ∉ map id (allBills s) ->
   NoDup (map id (allBills (createBill fresh extracted base64Image manualData r s w).1)))
  /\ map id (allBills (handleUpdateBill updated r s w).1) = map id (allBills s)
  /\ map id (allBills (handlePackSelected confirmed now script s w).1)
     = map id (allBills s)
  /\ map id (allBills (applyGroupSettings now script s w).1) = map id (allBills s)
  /\ NoDup (map id (allBills (handleDeleteBill key confirmed rd s w).1))
  /\ NoDup (map id (allBills (handleDeleteSelected confirmed scriptd s w).1)).
Proof.
  intros Huniq. split_and!.
  - intros Hfresh. rewrite createBill_bills.
    assert (NoDup (map id (newBill fresh extracted base64Image manualData s
                           :: allBills s))) as Hcons.
    { simpl. by apply NoDup_cons. }
    destruct (isConfigured s); [|exact Hcons].
    destruct (saveBillToSupabase _ base64Image r w).2; [exact Hcons|].
    by apply NoDup_ids_filter.
  - assert (allBills (handleUpdateBill updated r s w).1
            = map (fun b => if str_eqb (id b) (id updated) then updated else b)
                (allBills s)) as ->.
    { unfold handleUpdateBill. by destruct (isConfigured s). }
    apply (map_id_rewrite (fun b => str_eqb (id b) (id updated)) (fun _ => updated)).
    intros b Hb. symmetry. by apply str_eqb_eq.
  - rewrite handlePackSelected_any. destruct confirmed; [|done].
    by apply (map_id_rewrite (is_selected s) (with_packed now)).
  - rewrite applyGroupSettings_bills.
    by apply (map_id_rewrite (is_selected s)).
  - rewrite handleDeleteBill_bills. destruct confirmed; [|done].
    by apply NoDup_ids_filter.
  - rewrite handleDeleteSelected_bills. case_bool_decide; [done|].
    destruct confirmed; [|done]. by apply NoDup_ids_filter.
Qed.

(** A capture that cannot be read, or whose extraction throws, changes
    neither the store nor the duplicate alert and sends nothing; the
    loading indicator is cleared when no alert was showing. *)
Theorem failed_capture_changes_nothing (file : Capture) (fresh : Fresh)
    (r : SaveReplies) (s : AppState) (w : World) :
  file = ReadFailed \/ file = ExtractionFailed ->
  allBills (handleAddBill file fresh r s w).1 = allBills s
  /\ duplicateAlert (handleAddBill file fresh r s w).1 = duplicateAlert s
  /\ (handleAddBill file fresh r s w).2 = w
  /\ (duplicateAlert s = None ->
      loadingId (handleAddBill file fresh r s w).1 = None
      /\ processStatus (handleAddBill file fresh r s w).1 = []).
Proof.
  intros [-> | ->]; unfold handleAddBill; destruct (duplicateAlert s) eqn:Halert;
    simpl; split_and!; try done; discriminate.
Qed.

(** An online creation with an image that is fulfilled: the row sent to
    the backend carries the public URL of the uploaded file, while the
    bill put in the local store keeps an empty [imageUrl]; the busy flag
    is cleared and the new bill expanded. *)
Theorem online_creation_keeps_local_image_empty (fresh : Fresh)
    (extracted : Extracted) (img blob : jsstring) (manualData : option ManualData)
    (r : SaveReplies) (s : AppState) (w : World) :
  isConfigured s = true -> connected w = true ->
  truthy img && startsWith img (lit "data:") = true ->
  base64ToBlob img = Fine blob ->
  upload_reply r = Succeeds -> upsert_reply r = None ->
  let out := createBill fresh extracted (Some img) manualData r s w in
  let fileName := fresh_id fresh ++ lit "_" ++ of_Z (upload_time r) ++ lit ".jpg" in
  exists local,
    allBills out.1 = local :: allBills s
    /\ imageUrl local = []
    /\ (exists earlier,
          calls out.2
          = earlier ++ [TableUpsert (with_imageUrl (publicUrl r fileName) local)])
    /\ isSyncing out.1 = false
    /\ expandedId out.1 = Some (fresh_id fresh).
Proof.
  intros Hconf Hconn Himg Hblob Hupload Hupsert out fileName.
  set (bill := newBill fresh extracted (Some img) manualData s).
  exists bill.
  assert (imageUrl bill = []) as Hurl.
  { unfold bill, newBill. by rewrite Hconf. }
  assert (truthy fileName = true) as Hname.
  { unfold fileName. by destruct (fresh_id fresh). }
  assert (exists w', saveBillToSupabase bill (Some img) r w = (w', Fine tt)
                     /\ exists earlier,
                          calls w'
                          = earlier ++ [TableUpsert
                                          (with_imageUrl (publicUrl r fileName) bill)])
    as (w' & Hsave & Hcalls).
  { unfold saveBillToSupabase. rewrite Hconn, Himg. cbn [negb].
    unfold upload_image. rewrite Hblob, Hupload.
    change (id bill) with (fresh_id fresh). fold fileName. rewrite Hname.
    unfold upsert_bill. rewrite Hupsert. eexists. split; [reflexivity|].
    eexists. reflexivity. }
  unfold out, createBill. fold bill. rewrite Hconf. cbn [negb]. rewrite Hsave.
  cbn [fst snd]. split_and!; [done | exact Hurl | exact Hcalls | done | done].
Qed.

End Local.

(** ** Duplicates, copies and the quick add *)

Lemma or_else_self (v : jsstring) : or_else v [] = v.
Proof. by destruct v. Qed.

Lemma newBill_state (fresh : Fresh) (extracted : Extracted)
    (base64Image : option jsstring) (manualData : option ManualData) (s t : AppState) :
  isConfigured t = isConfigured s -> currentDate t = currentDate s ->
  newBill fresh extracted base64Image manualData t
  = newBill fresh extracted base64Image manualData s.
Proof. intros Hc Hd. unfold newBill. by rewrite Hc, Hd. Qed.

Section Copies.
Context `{Host}.

Lemma find_duplicate_Some (bills : list BillData) (invoice : jsstring) (d : BillData) :
  find_duplicate bills invoice = Some d ->
  d ∈ bills /\ invoiceNo d ≠ [] /\ normalized invoice ≠ []
  /\ normalized (invoiceNo d) = normalized invoice.
Proof.
  unfold find_duplicate. destruct (truthy invoice); [|done].
  fold (normalized invoice).
  destruct (normalized invoice) as [|c n] eqn:Hn; [done|]. simpl.
  intros [Hin Hp]%find_some. apply andb_true_iff in Hp as [Ht He].
  apply str_eqb_eq in He. apply truthy_nonempty in Ht.
  split_and!; [by apply list_elem_of_In | done | done | exact He].
Qed.

(** The duplicate check reports only a real match: the reported bill is
    in the store, has a non-empty invoice number and the same non-empty
    normal form as the candidate.  It reports nothing exactly when the
    candidate is blank or no stored bill has its normal form; stored
    bills without an invoice number never count. *)
Theorem find_duplicate_exact (bills : list BillData) (invoice : jsstring) :
  (forall d, find_duplicate bills invoice = Some d ->
     d ∈ bills /\ invoiceNo d ≠ [] /\ normalized invoice ≠ []
     /\ normalized (invoiceNo d) = normalized invoice)
  /\ (find_duplicate bills invoice = None
      <-> normalized invoice = []
          \/ forall b, b ∈ bills -> normalized (invoiceNo b) ≠ normalized invoice).
Proof.
  pose proof (find_duplicate_Some bills invoice) as Hsound.
  split; [exact Hsound|]. split.
  - intros Hnone. destruct (normalized invoice) as [|c n] eqn:Hn; [by left|].
    right. intros b Hb Heq.
    destruct (find_duplicate_first bills invoice b) as (? & d & ? & _ & _ & _ & Hf).
    + by rewrite Hn.
    + done.
    + by rewrite Hn.
    + congruence.
  - intros [Hblank | Hno]; [by apply find_duplicate_empty|].
    destruct (find_duplicate bills invoice) as [d|] eqn:Hf; [|done].
    destruct (Hsound d eq_refl) as (Hin & _ & _ & Heq). by destruct (Hno d Hin).
Qed.

(** Saving a copy after the duplicate alert: the capture halts on the
    alert, the confirmation clears it and puts the copy, with the fields
    and the image of the capture, in front of the store (offline, or
    online when the persist is fulfilled); the next scan of the same
    invoice number reports the copy, not the older bill. *)
Theorem saved_copy_is_reported_next (img : jsstring) (extracted : Extracted)
    (scan_fresh fresh : Fresh) (scan_r r : SaveReplies) (d : BillData)
    (s : AppState) (w : World) :
  duplicateAlert s = None ->
  find_duplicate (allBills s) (x_invoiceNo extracted) = Some d ->
  (isConfigured s = true ->
   (saveBillToSupabase (newBill fresh extracted (Some img) None s) (Some img) r w).2
   = Fine tt) ->
  let halted := (handleAddBill (Captured img extracted) scan_fresh scan_r s w).1 in
  let out := handleConfirmDuplicate fresh r halted w in
  let copy := newBill fresh extracted (Some img) None s in
  allBills halted = allBills s
  /\ allBills out.1 = copy :: allBills s
  /\ invoiceNo copy = x_invoiceNo extracted
  /\ duplicateAlert out.1 = None
  /\ loadingId out.1 = None
  /\ find_duplicate (allBills out.1) (x_invoiceNo extracted) = Some copy.
Proof.
  intros Halert Hdup Hsave halted out copy.
  assert (halted
          = setDuplicateAlert
              (Some {| existing := d; newData := extracted; base64 := Some img |})
              (setProcessStatus [] (setLoadingId None
                 (setProcessStatus [] (setLoadingId None
                    (setProcessStatus (lit "Checking for duplicates...")
                       (setProcessStatus (lit "Compressing image...")
                          (setLoadingId (Some (lit "new")) s)))))))) as Hhalted.
  { unfold halted, handleAddBill. by rewrite Hdup, Halert. }
  assert (invoiceNo copy = x_invoiceNo extracted) as Hinv.
  { unfold copy, newBill. simpl. by destruct (x_invoiceNo extracted). }
  assert (allBills out.1 = copy :: allBills s
          /\ duplicateAlert out.1 = None /\ loadingId out.1 = None)
    as (Hbills & Hcleared & Hloading).
  { unfold out, handleConfirmDuplicate. rewrite Hhalted. cbn [duplicateAlert setDuplicateAlert
      newData base64].
    match goal with
    | |- context [createBill fresh extracted (Some img) None r ?t w] =>
        pose proof (createBill_bills fresh extracted (Some img) None r t w) as Hc;
        assert (newBill fresh extracted (Some img) None t = copy) as Hnew
          by (by apply newBill_state);
        assert (duplicateAlert (createBill fresh extracted (Some img) None r t w).1 = None)
          as Hd;
        [unfold createBill; cbn [isConfigured setProcessStatus setLoadingId setDuplicateAlert];
         destruct (isConfigured s); cbn [negb]; [|done];
         by destruct (saveBillToSupabase _ (Some img) r w) as [? [[]|?]]|];
        destruct (createBill fresh extracted (Some img) None r t w) as [t' w'] eqn:Hcb
    end.
    cbn [fst] in *. simpl in Hc. rewrite Hnew in Hc. split_and!; [|done..].
    cbn [allBills setProcessStatus setLoadingId]. rewrite Hc.
    destruct (isConfigured s) eqn:Hconf; [|done].
    specialize (Hsave eq_refl).
    change (newBill fresh extracted (Some img) None s) with copy in Hsave.
    by rewrite Hsave. }
  split_and!; [by rewrite Hhalted | exact Hbills | exact Hinv | exact Hcleared
               | exact Hloading |].
  rewrite Hbills.
  destruct (find_duplicate_Some (allBills s) (x_invoiceNo extracted) d Hdup)
    as (_ & _ & Hne & _).
  destruct (find_duplicate_first (copy :: allBills s) (x_invoiceNo extracted) copy Hne)
    as (before & d' & after & Hsplit & _ & Hbefore & Hfind).
  { apply list_elem_of_here. }
  { by rewrite Hinv. }
  rewrite Hfind. f_equal. destruct before as [|b0 before].
  - simpl in Hsplit. congruence.
  - simpl in Hsplit. injection Hsplit as <- _.
    destruct (Hbefore copy (list_elem_of_here _ _)). by rewrite Hinv.
Qed.

(** The quick add does not run the duplicate check: on a store where a
    capture with the same invoice number halts on the alert, the quick
    add (offline) inserts its bill all the same, dated on the viewed
    day, and raises no alert. *)
Theorem quick_add_skips_duplicate_check (customer invoice img : jsstring)
    (data : ManualData) (extracted : Extracted) (fresh : Fresh) (r : SaveReplies)
    (d : BillData) (s : AppState) (w : World) :
  isConfigured s = false ->
  x_invoiceNo extracted = invoice ->
  find_duplicate (allBills s) invoice = Some d ->
  let added := (handleManualQuickAdd customer invoice data fresh r s w).1 in
  allBills (handleAddBill (Captured img extracted) fresh r s w).1 = allBills s
  /\ (exists b,
        allBills added = b :: allBills s
        /\ id b = fresh_id fresh /\ invoiceNo b = invoice /\ customerName b = customer
        /\ billDate b = currentDate s /\ entryDate b = currentDate s
        /\ boxCount b = m_boxCount data /\ description b = m_description data
        /\ status b = PENDING /\ packedAt b = None)
  /\ duplicateAlert added = duplicateAlert s
  /\ loadingId added = None.
Proof.
  intros Hoff <- Hdup added. split_and!.
  - unfold handleAddBill. rewrite Hdup. by destruct (duplicateAlert s).
  - unfold added, handleManualQuickAdd, createBill.
    cbn [isConfigured setProcessStatus setLoadingId]. rewrite Hoff. cbn [negb].
    eexists. split; [reflexivity|]. cbn -[lit].
    split_and!; try done; apply or_else_self.
  - unfold added, handleManualQuickAdd, createBill.
    cbn [isConfigured setProcessStatus setLoadingId]. by rewrite Hoff.
  - unfold added, handleManualQuickAdd, createBill.
    cbn [isConfigured setProcessStatus setLoadingId]. by rewrite Hoff.
Qed.

End Copies.

(** ** Edit and deletion *)

Lemma map_replace_absent (updated : BillData) (l : list BillData) :
  (forall b, b ∈ l -> id b ≠ id updated) ->
  map (fun b => if str_eqb (id b) (id updated) then updated else b) l = l.
Proof.
  induction l as [|b l IH]; intros Hl; simpl; [done|].
  rewrite IH by (intros b' Hb'; apply Hl; by apply list_elem_of_further).
  unfold str_eqb. rewrite bool_decide_eq_false_2; [done|].
  apply Hl. apply list_elem_of_here.
Qed.

Lemma length_filter_out_id (key : jsstring) (l : list BillData) :
  NoDup (map id l) -> key ∈ map id l ->
  S (length (List.filter (fun b => negb (str_eqb (id b) key)) l)) = length l.
Proof.
  induction l as [|b l IH]; simpl; [by intros _ ?%elem_of_nil|].
  intros [Hb Hl]%NoDup_cons Hkey. unfold str_eqb at 1. case_bool_decide as Hid; simpl.
  - subst key. rewrite filter_keeps_all; [done|]. apply Forall_forall.
    intros b' Hb'. apply negb_true_iff. apply bool_decide_eq_false. intros Heq.
    apply Hb. apply list_elem_of_fmap. exists b'. by split.
  - f_equal. apply IH; [done|]. apply elem_of_cons in Hkey as [Hkey|Hkey]; [congruence|done].
Qed.

Lemma connected_deleteBillFromSupabase `{Host} (key : jsstring) (r : DeleteReplies)
    (w : World) :
  connected (deleteBillFromSupabase key r w) = connected w.
Proof.
  unfold deleteBillFromSupabase. destruct (connected w) eqn:Hc; simpl; [|done].
  destruct (select_reply r) as [url|]; [|done].
  destruct (bucket_path url) as [[p|m]|]; [|done..].
  pose proof (connected_storage_remove p (remove_reply r) (request (TableSelect key) w)).
  destruct (remove_reply r); simpl in *; congruence.
Qed.

Section EditDelete.
Context `{Host}.

(** Editing a bill whose id is not in the store leaves the store as it
    is, yet with a backend the bill is upserted all the same. *)
Theorem edit_of_absent_bill (updated : BillData) (r : SaveReplies)
    (s : AppState) (w : World) :
  (forall b, b ∈ allBills s -> id b ≠ id updated) ->
  allBills (handleUpdateBill updated r s w).1 = allBills s
  /\ (isConfigured s = true -> connected w = true ->
      calls (handleUpdateBill updated r s w).2 = calls w ++ [TableUpsert updated]).
Proof.
  intros Habsent. unfold handleUpdateBill. split.
  - destruct (isConfigured s); simpl; by apply map_replace_absent.
  - intros -> Hconn. simpl. by rewrite save_plain.
Qed.

(** Deleting one bill: refused, nothing changes; confirmed, the bills
    with that id leave the store, the others stay in their order, and
    the local outcome is the same whatever the backend answers.  On a
    store with distinct ids that holds the bill, exactly one bill goes. *)
Theorem delete_bill_is_local (key : jsstring) (r r' : DeleteReplies)
    (s : AppState) (w w' : World) :
  handleDeleteBill key false r s w = (s, w)
  /\ (handleDeleteBill key true r s w).1 = (handleDeleteBill key true r' s w').1
  /\ allBills (handleDeleteBill key true r s w).1
     = List.filter (fun b => negb (str_eqb (id b) key)) (allBills s)
  /\ (forall b, b ∈ allBills (handleDeleteBill key true r s w).1
        <-> b ∈ allBills s /\ id b ≠ key)
  /\ (NoDup (map id (allBills s)) -> key ∈ map id (allBills s) ->
      S (length (allBills (handleDeleteBill key true r s w).1)) = length (allBills s))
  /\ (expandedId s = Some key -> expandedId (handleDeleteBill key true r s w).1 = None).
Proof.
  assert (allBills (handleDeleteBill key true r s w).1
          = List.filter (fun b => negb (str_eqb (id b) key)) (allBills s)) as Hbills
    by apply (handleDeleteBill_bills key true).
  split_and!.
  - done.
  - done.
  - exact Hbills.
  - intros b. rewrite Hbills, !list_elem_of_In, filter_In, negb_true_iff.
    unfold str_eqb. by rewrite bool_decide_eq_false.
  - intros Huniq Hkey. rewrite Hbills. by apply length_filter_out_id.
  - intros Hexp. unfold handleDeleteBill. simpl. by rewrite bool_decide_eq_true_2.
Qed.

Lemma calls_deleteBillFromSupabase (key : jsstring) (r : DeleteReplies) (w : World) :
  connected w = true ->
  exists sent, calls (deleteBillFromSupabase key r w) = calls w ++ TableSelect key :: sent.
Proof.
  intros Hconn. unfold deleteBillFromSupabase. rewrite Hconn. simpl.
  assert (forall v, calls v = calls w ++ [TableSelect key] ->
            calls (request (TableDelete key) v)
            = calls w ++ [TableSelect key; TableDelete key]) as Hrow.
  { intros v Hv. simpl. rewrite Hv. by rewrite <- app_assoc. }
  destruct (select_reply r) as [url|]; [|eexists; by apply Hrow].
  destruct (bucket_path url) as [[p|m]|];
    [|by eexists | eexists; by apply Hrow].
  assert (calls (storage_remove p (remove_reply r) (request (TableSelect key) w))
          = calls w ++ [TableSelect key; StorageRemove p]) as Hremove.
  { rewrite calls_storage_remove. simpl. by rewrite <- app_assoc. }
  destruct (remove_reply r); simpl in *; rewrite ?Hremove, <- ?app_assoc; by eexists.
Qed.

Lemma calls_delete_each (script : jsstring -> DeleteReplies) (keys : list jsstring)
    (w : World) :
  connected w = true ->
  (forall c, c ∈ calls w ->
     c ∈ calls (foldl (fun w k => deleteBillFromSupabase k (script k) w) w keys))
  /\ (forall k, k ∈ keys ->
        TableSelect k ∈ calls (foldl (fun w k => deleteBillFromSupabase k (script k) w) w keys)).
Proof.
  revert w. induction keys as [|k keys IH]; intros w Hconn; simpl.
  - split; [done|]. by intros k ?%elem_of_nil.
  - destruct (calls_deleteBillFromSupabase k (script k) w Hconn) as (sent & Hcalls).
    destruct (IH (deleteBillFromSupabase k (script k) w)) as [Hkeep Hsel].
    { by rewrite connected_deleteBillFromSupabase. }
    split.
    + intros c Hc. apply Hkeep. rewrite Hcalls. apply elem_of_app. by left.
    + intros k' [-> | Hk']%elem_of_cons; [|by apply Hsel].
      apply Hkeep. rewrite Hcalls. apply elem_of_app. right. apply list_elem_of_here.
Qed.

(** Deleting the selection, once confirmed: the local outcome does not
    depend on the backend; the bills whose id is selected leave the
    store and the others stay; the selection is emptied and selection
    mode left; with a backend, a deletion is started for every selected
    id. *)
Theorem delete_selected_is_local (script script' : jsstring -> DeleteReplies)
    (s : AppState) (w w' : World) :
  size (selectedIds s) ≠ 0%nat ->
  let out := handleDeleteSelected true script s w in
  out.1 = (handleDeleteSelected true script' s w').1
  /\ (forall b, b ∈ allBills out.1 <-> b ∈ allBills s /\ id b ∉ selectedIds s)
  /\ selectedIds out.1 = ∅
  /\ isSelectionMode out.1 = false
  /\ (isConfigured s = true -> isSyncing out.1 = false)
  /\ (isConfigured s = true -> connected w = true ->
      forall k, k ∈ selectedIds s -> TableSelect k ∈ calls out.2).
Proof.
  intros Hsize out. unfold out, handleDeleteSelected.
  rewrite !bool_decide_eq_false_2 by done.
  destruct (isConfigured s) eqn:Hconf; simpl; split_and!; try done.
  - intros b. rewrite !list_elem_of_In, filter_In, negb_true_iff.
    unfold is_selected. by rewrite bool_decide_eq_false.
  - intros _ Hconn k Hk.
    apply (calls_delete_each script (elements (selectedIds s)) w Hconn).
    by apply elem_of_elements.
  - intros b. rewrite !list_elem_of_In, filter_In, negb_true_iff.
    unfold is_selected. by rewrite bool_decide_eq_false.
Qed.

End EditDelete.

(** ** Order of the views *)

Section SortFacts.
Context {A : Type} (compare : A -> A -> Z).

(** Elements among which [compare] never asks for a swap keep their
    relative order: the sort is stable. *)
Lemma sort_insert_filter_stable (p : A -> bool) (x : A) (l : list A) :
  (forall a b, p a = true -> p b = true -> compare a b <= 0) ->
  List.filter p (sort_insert compare x l) = List.filter p (x :: l).
Proof.
  intros Htie. induction l as [|y l IH]; [done|]. simpl.
  destruct (Z.ltb_spec 0 (compare x y)) as [Hgt|Hle]; [|done].
  simpl. rewrite IH. simpl.
  destruct (p x) eqn:Hx, (p y) eqn:Hy; try done.
  specialize (Htie x y Hx Hy). lia.
Qed.

Lemma sort_filter_stable (p : A -> bool) (l : list A) :
  (forall a b, p a = true -> p b = true -> compare a b <= 0) ->
  List.filter p (sort compare l) = List.filter p l.
Proof.
  intros Htie. induction l as [|x l IH]; [done|]. simpl.
  rewrite sort_insert_filter_stable by done. simpl. by rewrite IH.
Qed.

Lemma sort_of_sorted (l : list A) :
  StronglySorted (fun a b => compare a b <= 0) l -> sort compare l = l.
Proof.
  induction 1 as [|x l Hl IH Hx]; [done|]. simpl. rewrite IH.
  destruct Hx as [|y l' Hy _]; [done|]. simpl.
  destruct (Z.ltb_spec 0 (compare x y)); [lia | done].
Qed.

Lemma sort_map {B} (f : B -> A) (compare' : B -> B -> Z) (l : list B) :
  (forall a b, compare (f a) (f b) = compare' a b) ->
  sort compare (map f l) = map f (sort compare' l).
Proof.
  intros Hf. induction l as [|x l IH]; [done|]. simpl. rewrite IH.
  generalize (sort compare' l). intros k. induction k as [|y k IHk]; [done|].
  simpl. rewrite Hf. destruct (0 <? compare' x y); [|done]. simpl. by rewrite IHk.
Qed.

Hypothesis compare_total : forall a b, compare a b <= 0 \/ compare b a <= 0.
Hypothesis compare_trans : forall a b c,
  compare a b <= 0 -> compare b c <= 0 -> compare a c <= 0.

Lemma sort_insert_filter (q : A -> bool) (x : A) (l : list A) :
  StronglySorted (fun a b => compare a b <= 0) l ->
  List.filter q (sort_insert compare x l)
  = if q x then sort_insert compare x (List.filter q l) else List.filter q l.
Proof.
  induction 1 as [|y l Hl IH Hy]; simpl; [by destruct (q x)|].
  destruct (Z.ltb_spec 0 (compare x y)) as [Hgt|Hle]; simpl.
  - rewrite IH. destruct (q x), (q y); simpl; try done.
    destruct (Z.ltb_spec 0 (compare x y)); [done | lia].
  - destruct (q x) eqn:Hx; [|done]. destruct (q y) eqn:Hqy; simpl.
    + destruct (Z.ltb_spec 0 (compare x y)); [lia | done].
    + assert (Forall (fun z => compare x z <= 0) (List.filter q l)) as Hfl.
      { apply Forall_list_filter. eapply Forall_impl; [exact Hy|].
        intros z Hz. by eapply compare_trans. }
      destruct Hfl as [|z k Hz _]; [done|]. simpl.
      destruct (Z.ltb_spec 0 (compare x z)); [lia | done].
Qed.

Lemma sort_filter (q : A -> bool) (l : list A) :
  List.filter q (sort compare l) = sort compare (List.filter q l).
Proof.
  induction l as [|x l IH]; [done|]. simpl.
  rewrite sort_insert_filter by (by apply sort_sorted).
  rewrite IH. by destruct (q x).
Qed.

End SortFacts.

Lemma StronglySorted_list_filter {A} (R : A -> A -> Prop) (f : A -> bool) (l : list A) :
  StronglySorted R l -> StronglySorted R (List.filter f l).
Proof.
  induction 1 as [|x l Hl IH Hx]; simpl; [constructor|].
  destruct (f x); [|exact IH]. constructor; [exact IH|]. by apply Forall_list_filter.
Qed.

Lemma filter_map_commute {A} (p : A -> bool) (f : A -> A) (l : list A) :
  (forall a, p (f a) = p a) ->
  List.filter p (map f l) = map f (List.filter p l).
Proof.
  intros Hp. induction l as [|x l IH]; [done|]. simpl. rewrite Hp.
  destruct (p x); simpl; by rewrite IH.
Qed.

Section ViewOrder.
Context `{Host}.

(** The views are stable: bills of the today view with the same
    [createdAt], and bills of the backlog with the same [entryDate], come
    in the order they have in the store; and on a store that is already
    ordered by [createdAt] descending (as the fetch and the creation
    leave it) the today view is the plain selection, in store order. *)
Theorem views_keep_store_order (s : AppState) :
  (forall t,
     List.filter (fun b => createdAt b =? t) (todayNewBills s)
     = List.filter (fun b => createdAt b =? t)
         (List.filter (fun b => str_eqb (entryDate b) (currentDate s)) (allBills s)))
  /\ (forall d,
        List.filter (fun b => str_eqb (entryDate b) d) (backlogBills s)
        = List.filter (fun b => str_eqb (entryDate b) d)
            (List.filter (fun b => is_pending b && str_ltb (entryDate b) (currentDate s))
               (allBills s)))
  /\ (StronglySorted (fun a b => createdAt a >= createdAt b) (allBills s) ->
      todayNewBills s
      = List.filter (fun b => str_eqb (entryDate b) (currentDate s)) (allBills s)).
Proof.
  split_and!.
  - intros t. unfold todayNewBills. apply sort_filter_stable.
    intros a b Ha%Z.eqb_eq Hb%Z.eqb_eq. lia.
  - intros d. unfold backlogBills. apply sort_filter_stable.
    intros a b Ha%str_eqb_eq Hb%str_eqb_eq. rewrite Ha, Hb.
    by destruct (localeCompare_total d d).
  - intros Hsorted. unfold todayNewBills. apply sort_of_sorted.
    apply StronglySorted_list_filter.
    eapply StronglySorted_weaken; [|exact Hsorted]. intros a b. simpl. lia.
Qed.

(** Packing and the views: after a confirmed bulk pack the today view
    shows the same bills in the same order, the selected ones now
    packed, and the backlog is the backlog of before without the selected
    bills. *)
Theorem pack_and_views (now : Z) (script : nat -> SaveReplies)
    (s : AppState) (w : World) :
  let after := (handlePackSelected true now script s w).1 in
  todayNewBills after
  = map (fun b => if is_selected s b then with_packed now b else b) (todayNewBills s)
  /\ backlogBills after
     = List.filter (fun b => negb (is_selected s b)) (backlogBills s).
Proof.
  intros after.
  set (f := fun b => if is_selected s b then with_packed now b else b).
  assert (allBills after = map f (allBills s)) as Hbills
    by apply handlePackSelected_bills.
  assert (currentDate after = currentDate s) as Hdate.
  { unfold after, handlePackSelected. case_bool_decide; [done|].
    destruct (isConfigured s); [|done].
    by destruct (save_each _ script 0 w) as [w' []]. }
  assert (forall b, entryDate (f b) = entryDate b) as Hentry.
  { intros b. unfold f. by destruct (is_selected s b). }
  split.
  - unfold todayNewBills. rewrite Hbills, Hdate.
    rewrite (filter_map_commute _ f) by (intros b; by rewrite Hentry).
    apply sort_map. intros a b. unfold f.
    by destruct (is_selected s a), (is_selected s b).
  - unfold backlogBills. rewrite Hbills, Hdate.
    rewrite (sort_filter (fun a b : BillData => localeCompare (entryDate a) (entryDate b))
               (fun a b => localeCompare_total _ _)
               (fun a b c => localeCompare_trans _ _ _)).
    f_equal. clear Hbills. induction (allBills s) as [|b l IH]; [done|].
    simpl. rewrite IH. unfold f at 1 2.
    destruct (is_selected s b) eqn:Hsel; simpl;
      destruct (is_pending b && str_ltb (entryDate b) (currentDate s)); simpl;
      rewrite ?Hsel; simpl; unfold f; by rewrite ?Hsel.
Qed.

End ViewOrder.

(** ** Selection, group dialog, subscription *)

Lemma find_all_none {A} (p : A -> bool) (l : list A) :
  Forall (fun x => p x = false) l -> List.find p l = None.
Proof. induction 1 as [|x l Hx _ IH]; simpl; [done|]. by rewrite Hx. Qed.

Lemma find_uniform {A B} (p : A -> bool) (g : A -> B) (v : B) (l : list A) (x : A) :
  Forall (fun y => g y = v) l -> List.find p l = Some x -> g x = v.
Proof.
  intros Hl Hf. apply find_some in Hf as [Hin _].
  rewrite Forall_forall in Hl. apply Hl. by apply list_elem_of_In.
Qed.

Lemma Forall2_map_member {A B} (P : A -> B -> Prop) (f : A -> B) (l : list A) :
  (forall a, a ∈ l -> P a (f a)) -> Forall2 P l (map f l).
Proof.
  induction l as [|a l IH]; intros Hl; simpl; constructor.
  - apply Hl. apply list_elem_of_here.
  - apply IH. intros a' Ha'. apply Hl. by apply list_elem_of_further.
Qed.

Section Dialog.
Context `{Host}.

(** Opening the group dialog on a selection whose bills all carry the
    same group name and the same colour, and applying it untouched,
    changes nothing but [updatedAt] in the selected bills (a colour that
    is the empty string counts as no colour and is excluded). *)
Theorem regroup_same_group (name : jsstring) (color : option jsstring)
    (now : Z) (script : nat -> SaveReplies) (s : AppState) (w : World) :
  color ≠ Some [] ->
  (forall b, b ∈ allBills s -> id b ∈ selectedIds s ->
     description b = name /\ colorTheme b = color) ->
  Forall2
    (fun b b' =>
       description b' = description b /\ colorTheme b' = colorTheme b
       /\ same_outside_group b b'
       /\ updatedAt b' = if is_selected s b then now else updatedAt b)
    (allBills s) (allBills (applyGroupSettings now script (openGroupModal s) w).1).
Proof.
  intros Hcolor Hgroup.
  destruct (decide (size (selectedIds s) = 0%nat)) as [Hempty|Hsome].
  - assert (openGroupModal s = s) as ->.
    { unfold openGroupModal. by rewrite bool_decide_eq_true_2. }
    rewrite applyGroupSettings_bills. rewrite (map_unselected _ s) by done.
    apply Forall_Forall2_diag. apply Forall_forall. intros b _.
    rewrite (is_selected_none s b Hempty). unfold same_outside_group. done.
  - set (chosen := List.filter (is_selected s) (allBills s)).
    assert (Forall (fun b => description b = name /\ colorTheme b = color) chosen)
      as Hchosen.
    { apply Forall_forall. intros b Hb. apply list_elem_of_In in Hb.
      apply filter_In in Hb as [Hin Hsel]. apply list_elem_of_In in Hin.
      apply Hgroup; [done|]. by apply bool_decide_eq_true in Hsel. }
    set (opened := openGroupModal s).
    assert (allBills opened = allBills s /\ selectedIds opened = selectedIds s)
      as [Hob Hos].
    { unfold opened, openGroupModal. by rewrite bool_decide_eq_false_2. }
    assert (chosen ≠ [] -> groupNameInput opened = name) as Hname.
    { intros Hne. unfold opened, openGroupModal. rewrite bool_decide_eq_false_2 by done.
      cbn [groupNameInput setShowGroupModal setGroupColorInput setGroupNameInput].
      fold chosen.
      destruct (List.find (fun b => truthy (description b)) chosen) as [b|] eqn:Hf.
      - rewrite or_else_self.
        eapply (find_uniform _ description name); [|exact Hf].
        eapply Forall_impl; [exact Hchosen|]. by intros ? [? _].
      - destruct chosen as [|b0 rest]; [done|].
        apply Forall_cons in Hchosen as [[Hd _] _].
        pose proof (find_none _ _ Hf b0 (or_introl eq_refl)) as Hb0. simpl in Hb0.
        rewrite <- Hd. by destruct (description b0). }
    assert (chosen ≠ [] ->
            (if truthy (groupColorInput opened) then Some (groupColorInput opened)
             else None) = color) as Hcol.
    { intros Hne. unfold opened, openGroupModal. rewrite bool_decide_eq_false_2 by done.
      cbn [groupColorInput setShowGroupModal setGroupColorInput setGroupNameInput].
      fold chosen.
      destruct (List.find (fun b => truthy_opt (colorTheme b)) chosen) as [b|] eqn:Hf.
      - assert (colorTheme b = color) as Hb.
        { eapply (find_uniform _ colorTheme color); [|exact Hf].
          eapply Forall_impl; [exact Hchosen|]. by intros ? [_ ?]. }
        apply find_some in Hf as [_ Ht]. rewrite Hb in Ht |- *.
        destruct color as [[|c0 c]|]; done.
      - destruct chosen as [|b0 rest]; [done|].
        apply Forall_cons in Hchosen as [[_ Hc] _].
        pose proof (find_none _ _ Hf b0 (or_introl eq_refl)) as Hb0. simpl in Hb0.
        rewrite <- Hc in *. destruct (colorTheme b0) as [[|c0 c]|]; done. }
    rewrite applyGroupSettings_bills, Hob.
    assert (forall b, is_selected opened b = is_selected s b) as Hsel.
    { intros b. unfold is_selected. by rewrite Hos. }
    apply Forall2_map_member. intros b Hin. rewrite Hsel.
    destruct (is_selected s b) eqn:Hb; [|by unfold same_outside_group].
    assert (chosen ≠ []) as Hne.
    { intros Hnil. assert (b ∈ chosen) as Hbc; [|by rewrite Hnil in Hbc; apply elem_of_nil in Hbc].
      apply list_elem_of_In. apply filter_In. split; [by apply list_elem_of_In | done]. }
    destruct (Hgroup b Hin) as [Hd Hc]; [by apply bool_decide_eq_true in Hb|].
    rewrite (Hname Hne), (Hcol Hne). unfold same_outside_group. simpl.
    by rewrite Hd, Hc.
Qed.

End Dialog.

(** Selecting: a toggle flips the membership of its id only, and two
    toggles of the same id restore the selection; leaving selection mode
    empties the selection, entering it keeps the selection as it is, and
    either way the mode flips and no card stays expanded; switching the
    mode twice gives back the mode with an empty selection. *)
Theorem selection_toggles (key : jsstring) (s : AppState) :
  (key ∈ selectedIds (handleToggleSelect key s) <-> key ∉ selectedIds s)
  /\ (forall k, k ≠ key ->
        (k ∈ selectedIds (handleToggleSelect key s) <-> k ∈ selectedIds s))
  /\ selectedIds (handleToggleSelect key (handleToggleSelect key s)) = selectedIds s
  /\ allBills (handleToggleSelect key s) = allBills s
  /\ isSelectionMode (toggleSelectionMode s) = negb (isSelectionMode s)
  /\ selectedIds (toggleSelectionMode s)
     = (if isSelectionMode s then ∅ else selectedIds s)
  /\ expandedId (toggleSelectionMode s) = None
  /\ selectedIds (toggleSelectionMode (toggleSelectionMode s)) = ∅
  /\ isSelectionMode (toggleSelectionMode (toggleSelectionMode s)) = isSelectionMode s.
Proof.
  assert (forall t, selectedIds (handleToggleSelect key t)
                    = if bool_decide (key ∈ selectedIds t)
                      then selectedIds t ∖ {[key]} else {[key]} ∪ selectedIds t)
    as Htoggle.
  { intros t. unfold handleToggleSelect. by case_bool_decide. }
  split_and!.
  - rewrite Htoggle. case_bool_decide as Hin.
    + rewrite elem_of_difference, elem_of_singleton. tauto.
    + rewrite elem_of_union, elem_of_singleton. tauto.
  - intros k Hk. rewrite Htoggle. case_bool_decide as Hin.
    + rewrite elem_of_difference, elem_of_singleton. tauto.
    + rewrite elem_of_union, elem_of_singleton. tauto.
  - rewrite !Htoggle. apply set_eq. intros k.
    destruct (decide (k ∈ selectedIds s)), (decide (k = key)) as [->|Hk];
      repeat case_bool_decide; set_unfold; tauto.
  - unfold handleToggleSelect. by case_bool_decide.
  - unfold toggleSelectionMode. by destruct (isSelectionMode s).
  - unfold toggleSelectionMode. by destruct (isSelectionMode s).
  - unfold toggleSelectionMode. by destruct (isSelectionMode s).
  - unfold toggleSelectionMode. by destruct (isSelectionMode s) eqn:Hmode.
  - unfold toggleSelectionMode. by destruct (isSelectionMode s) eqn:Hmode.
Qed.

Section Subscription.
Context `{Host}.

Lemma pack_rejected_state (now : Z) (script : nat -> SaveReplies)
    (s : AppState) (w : World) :
  isConfigured s = true -> connected w = true -> size (selectedIds s) ≠ 0%nat ->
  (exists k, (k < length (List.filter (is_selected s) (allBills s)))%nat
             /\ upsert_reply (script k) ≠ None) ->
  exists w',
    handlePackSelected true now script s w
    = (setIsSyncing true
         (setAllBills
            (fun _ => map (fun b => if is_selected s b then with_packed now b else b)
                        (allBills s)) s), w')
    /\ connected w' = true.
Proof.
  intros Hconf Hconn Hsize (k & Hk & Hfail). unfold handlePackSelected.
  rewrite bool_decide_eq_false_2 by done. rewrite Hconf.
  rewrite (filter_selected_map (with_packed now)) by done.
  destruct (save_each_sends_all
              (map (with_packed now) (List.filter (is_selected s) (allBills s)))
              script 0 w Hconn) as (_ & _ & Hc & Hok).
  rewrite length_map in Hok.
  destruct (save_each _ script 0 w) as [w' ok]. simpl in Hc, Hok.
  exists w'. destruct ok; [|done]. destruct Hfail. by apply Hok.
Qed.

(** A snapshot delivered by the subscription replaces the whole store
    and clears the busy flag, whatever was applied optimistically; a
    fetch that fails or has no data changes nothing; without a client
    handle the configured component receives the empty list.  After a
    bulk pack that stopped on a rejected save, the next snapshot clears
    the busy flag it left, and the selection is still open. *)
Theorem snapshot_replaces_store (reply : FetchReply) (rows : list BillData)
    (now : Z) (script : nat -> SaveReplies) (s : AppState) (w : World) :
  isConfigured s = true ->
  (connected w = true ->
   allBills (syncBills (FetchData (Some rows)) s w) = rows
   /\ isSyncing (syncBills (FetchData (Some rows)) s w) = false
   /\ selectedIds (syncBills (FetchData (Some rows)) s w) = selectedIds s
   /\ ((forall other, reply ≠ FetchData (Some other)) -> syncBills reply s w = s))
  /\ (connected w = false ->
      allBills (syncBills reply s w) = [] /\ isSyncing (syncBills reply s w) = false)
  /\ (connected w = true -> size (selectedIds s) ≠ 0%nat ->
      (exists k, (k < length (List.filter (is_selected s) (allBills s)))%nat
                 /\ upsert_reply (script k) ≠ None) ->
      let packed := handlePackSelected true now script s w in
      isSyncing packed.1 = true
      /\ allBills (syncBills (FetchData (Some rows)) packed.1 packed.2) = rows
      /\ isSyncing (syncBills (FetchData (Some rows)) packed.1 packed.2) = false
      /\ selectedIds (syncBills (FetchData (Some rows)) packed.1 packed.2)
         = selectedIds s).
Proof.
  intros Hconf. split_and!.
  - intros Hconn. unfold syncBills. rewrite Hconf, Hconn. split_and!; try done.
    intros Hother. destruct reply as [m|[other|]|m]; try done.
    by destruct (Hother other).
  - intros Hconn. unfold syncBills. by rewrite Hconf, Hconn.
  - intros Hconn Hsize Hfail packed.
    destruct (pack_rejected_state now script s w Hconf Hconn Hsize Hfail)
      as (w' & Hpacked & Hc).
    unfold packed. rewrite Hpacked. unfold syncBills. simpl. rewrite Hconf, Hc.
    done.
Qed.

End Subscription.

(** ** Configuration *)

Section ConfigurationFacts.
Variable createClient : jsstring -> jsstring -> option jsstring.

(** Setting up the backend: a URL or key that is blank after trimming is
    refused with "Supabase URL and Key are required." before a client is
    built; what is stored on success are the trimmed, non-empty values,
    and the [init] of the next page load accepts exactly that config and
    sets the client handle.  [init] on a stored config with an empty
    field, or on nothing, sets no handle and removes nothing; a config
    the client rejects is removed. *)
Theorem setup_then_init (url key : jsstring) :
  (trim url = [] \/ trim key = [] ->
   setupSupabase createClient url key
   = Raised (lit "Supabase URL and Key are required."))
  /\ (forall config, setupSupabase createClient url key = Fine config ->
        supabaseUrl config = trim url /\ supabaseKey config = trim key
        /\ supabaseUrl config ≠ [] /\ supabaseKey config ≠ []
        /\ init createClient (Some config) = (true, false))
  /\ init createClient None = (false, false)
  /\ (forall config,
        (init createClient (Some config)).1 = true
        <-> supabaseUrl config ≠ [] /\ supabaseKey config ≠ []
            /\ createClient (supabaseUrl config) (supabaseKey config) = None)
  /\ (forall config,
        (init createClient (Some config)).2 = true
        <-> supabaseUrl config ≠ [] /\ supabaseKey config ≠ []
            /\ createClient (supabaseUrl config) (supabaseKey config) ≠ None).
Proof.
  split_and!.
  - unfold setupSupabase. intros [-> | ->]; simpl; [done|].
    by rewrite orb_true_r.
  - intros config. unfold setupSupabase.
    destruct (truthy (trim url)) eqn:Hu; [|done].
    destruct (truthy (trim key)) eqn:Hk; [|done]. simpl.
    destruct (createClient (trim url) (trim key)) eqn:Hclient; [done|].
    intros [= <-]. simpl. rewrite Hu, Hk, Hclient. simpl.
    split_and!; try done; by apply truthy_nonempty.
  - done.
  - intros config. unfold init. rewrite <- !truthy_nonempty.
    destruct (truthy (supabaseUrl config)), (truthy (supabaseKey config)); simpl;
      try (split; [discriminate | by intros (? & ? & ?)]).
    destruct (createClient _ _); simpl; split; try done; by intros (_ & _ & ?).
  - intros config. unfold init. rewrite <- !truthy_nonempty.
    destruct (truthy (supabaseUrl config)), (truthy (supabaseKey config)); simpl;
      try (split; [discriminate | by intros (? & ? & ?)]).
    destruct (createClient _ _); simpl; split; try done; by intros (_ & _ & ?).
Qed.

End ConfigurationFacts.

(** ** The hash as a polynomial *)

Lemma toInt32_congruent (x : Z) : exists q, toInt32 x = x + 2 ^ 32 * q.
Proof.
  unfold toInt32. exists (- ((x + 2 ^ 31) / 2 ^ 32)).
  rewrite (Z.mod_eq (x + 2 ^ 31) (2 ^ 32)) by lia. lia.
Qed.

Lemma toInt32_small (x : Z) : - 2 ^ 31 <= x < 2 ^ 31 -> toInt32 x = x.
Proof. intros Hx. unfold toInt32. rewrite Z.mod_small; lia. Qed.

Lemma poly31_snoc (d : jsstring) (c : N) : poly31 (d ++ [c]) = Z.of_N c + 31 * poly31 d.
Proof. unfold poly31. by rewrite fold_left_app. Qed.

(** The hash of [getThemeStyles] is the polynomial hash with base 31
    (the sum of [code_i * 31^(n-1-i)]) up to a multiple of 2^32; for
    descriptions of at most four code units it is that polynomial
    exactly; and its size is at most (2^31 + 2^16) per code unit, far
    inside the integers a number holds exactly. *)
Theorem description_hash_polynomial (d : jsstring) :
  Forall (fun c => (c < 2 ^ 16)%N) d ->
  (exists q, description_hash d = poly31 d + 2 ^ 32 * q)
  /\ ((length d <= 4)%nat -> description_hash d = poly31 d)
  /\ Z.abs (description_hash d) <= Z.of_nat (length d) * (2 ^ 31 + 2 ^ 16).
Proof.
  intros Hd. split_and!.
  - clear Hd. induction d as [|c d [q IH]] using rev_ind; [by exists 0|].
    rewrite description_hash_snoc, poly31_snoc.
    destruct (toInt32_congruent (32 * description_hash d)) as [q' ->].
    exists (q' + 31 * q). rewrite IH. lia.
  - intros Hlen. change (2 ^ 16)%N with 65536%N in Hd.
    assert (forall h c, - 67108864 <= h < 67108864 ->
              hash_step h c = Z.of_N c + 31 * h) as Hstep.
    { intros h c Hh. unfold hash_step. rewrite shl_5, toInt32_small; lia. }
    unfold description_hash, poly31.
    destruct d as [|a [|b [|c [|e [|? ?]]]]]; simpl in Hlen; try lia; simpl;
      repeat match goal with
             | Hf : Forall _ (_ :: _) |- _ => apply Forall_cons in Hf as [? Hf]
             end;
      repeat match goal with
             | |- context [hash_step ?h ?c] =>
                 lazymatch h with
                 | context [hash_step] => fail
                 | _ => rewrite (Hstep h c) by lia
                 end
             end;
      lia.
  - by apply description_hash_bound.
Qed.

(** ** The properties above on sample data *)

Lemma save_without_image_witness :
  let bill := Sample.bill "k01" "INV-1" "2024-01-02" PENDING 10 None in
  calls (saveBillToSupabase bill (Some (lit "blob:4f2a")) (Sample.replies Succeeds None)
           (Sample.world [])).1
  = calls (Sample.world []) ++ [TableUpsert bill].
Proof.
  intros bill.
  apply (save_without_image bill (Some (lit "blob:4f2a")) (Sample.replies Succeeds None)
           (Sample.world [])); reflexivity.
Defined.

Lemma save_fulfilled_iff_witness :
  (saveBillToSupabase (Sample.bill "k01" "INV-1" "2024-01-02" PENDING 10 None)
     (Some Sample.photo) (Sample.replies Succeeds None) (Sample.world [])).2
  = Fine tt.
Proof.
  apply (save_fulfilled_iff (Sample.bill "k01" "INV-1" "2024-01-02" PENDING 10 None)
           (Some Sample.photo) (Sample.replies Succeeds None) (Sample.world [])).
  split; [reflexivity|]. split; [reflexivity|]. intros _.
  split; [exists (lit "Hello"); vm_compute; reflexivity | reflexivity].
Defined.

Lemma failed_upload_sends_no_upsert_witness :
  let bill := Sample.bill "k01" "INV-1" "2024-01-02" PENDING 10 None in
  let r := Sample.replies (Fails (lit "Payload too large")) None in
  calls (saveBillToSupabase bill (Some Sample.photo) r (Sample.world [])).1
  = [StorageUpload (lit "k01_1700000000000.jpg") (lit "Hello")]
  /\ exists cause,
       (saveBillToSupabase bill (Some Sample.photo) r (Sample.world [])).2
       = Raised (lit "Image Upload Failed: " ++ cause).
Proof.
  intros bill r.
  destruct (failed_upload_sends_no_upsert (H := sample_host) bill Sample.photo r
              (Sample.world []))
    as (sent & cause & Hcalls & Hsent & _ & Hthrow);
    [reflexivity | reflexivity | right; discriminate |].
  split; [|by exists cause].
  rewrite Hcalls, Hsent. vm_compute. reflexivity.
Defined.

Lemma failed_save_adds_no_object_witness :
  let bill := Sample.bill "k01" "INV-1" "2024-01-02" PENDING 10 None in
  let r := Sample.replies Succeeds (Some (lit "timeout")) in
  dom (objects (saveBillToSupabase bill (Some Sample.photo) r (Sample.world [])).1)
  ⊆ dom (objects (Sample.world [])).
Proof.
  intros bill r.
  apply (failed_save_adds_no_object bill (Some Sample.photo) r (Sample.world [])
           (lit "Database Save Failed: timeout"));
    [vm_compute; reflexivity | reflexivity].
Defined.

Lemma delete_row_requested_witness :
  let r := {| select_reply := Some (lit "https://grace.example/receipts/k01_1.jpg");
              remove_reply := Fails (lit "not found"); delete_reply := Succeeds |} in
  exists sent,
    calls (deleteBillFromSupabase (lit "k01") r (Sample.world []))
    = calls (Sample.world []) ++ TableSelect (lit "k01") :: sent
    /\ TableDelete (lit "k01") ∈ sent.
Proof.
  intros r.
  destruct (delete_row_requested (lit "k01") r (Sample.world [])) as [_ Hon].
  destruct (Hon eq_refl) as (sent & Hcalls & _ & Hdelete).
  exists sent. split; [exact Hcalls|]. apply Hdelete.
  vm_compute. intros m. discriminate.
Defined.

Lemma pack_failure_keeps_busy_witness :
  let s :=
    Sample.state [Sample.bill "k01" "INV-1" "2024-01-02" PENDING 10 None]
      "2024-01-03" true ["k01"%string] in
  isSyncing (handlePackSelected true 40
               (fun _ => Sample.replies Succeeds (Some (lit "timeout"))) s
               (Sample.world [])).1
  = true.
Proof.
  intros s.
  pose proof (pack_failure_keeps_busy 40
                (fun _ => Sample.replies Succeeds (Some (lit "timeout"))) s
                (Sample.world []) eq_refl eq_refl
                ltac:(vm_compute; discriminate)) as Hpack.
  cbv zeta in Hpack. destruct Hpack as (_ & _ & Hstuck).
  apply Hstuck. exists 0%nat. split; [vm_compute; lia | discriminate].
Defined.

Lemma group_failure_keeps_busy_witness :
  let s :=
    Sample.state [Sample.bill "k01" "INV-1" "2024-01-02" PENDING 10 None]
      "2024-01-03" true ["k01"%string] in
  isSyncing (applyGroupSettings 40
               (fun _ => Sample.replies Succeeds (Some (lit "timeout"))) s
               (Sample.world [])).1
  = true.
Proof.
  intros s.
  pose proof (group_failure_keeps_busy 40
                (fun _ => Sample.replies Succeeds (Some (lit "timeout"))) s
                (Sample.world []) eq_refl eq_refl) as Hgroup.
  cbv zeta in Hgroup. destruct Hgroup as (_ & _ & _ & Hstuck).
  apply Hstuck. exists 0%nat. split; [vm_compute; lia | discriminate].
Defined.

Lemma offline_sends_nothing_witness :
  let stored := Sample.bill "k01" "INV-1" "2024-01-02" PENDING 10 None in
  let s := Sample.state [stored] "2024-01-03" false ["k01"%string] in
  (handlePackSelected true 40 (fun _ => Sample.replies Succeeds None) s
     (Sample.world [])).2
  = Sample.world [].
Proof.
  intros stored s.
  apply (offline_sends_nothing NoFile Sample.fresh (Sample.extracted "INV-2") None None
           [] [] {| m_boxCount := 2; m_description := [] |} stored (lit "k01") true 40
           (Sample.replies Succeeds None) (fun _ => Sample.replies Succeeds None)
           {| select_reply := None; remove_reply := Succeeds; delete_reply := Succeeds |}
           (fun _ => {| select_reply := None; remove_reply := Succeeds;
                        delete_reply := Succeeds |})
           s (Sample.world [])).
  reflexivity.
Defined.

Lemma ids_stay_unique_witness :
  let stored := Sample.bill "k01" "INV-1" "2024-01-02" PENDING 10 None in
  let s := Sample.state [stored] "2024-01-03" false ["k01"%string] in
  NoDup (map id (allBills (createBill Sample.fresh (Sample.extracted "INV-2") None None
                             (Sample.replies Succeeds None) s (Sample.world [])).1)).
Proof.
  intros stored s.
  destruct (ids_stay_unique Sample.fresh (Sample.extracted "INV-2") None None stored
              (lit "k01") true 40 (Sample.replies Succeeds None)
              (fun _ => Sample.replies Succeeds None)
              {| select_reply := None; remove_reply := Succeeds; delete_reply := Succeeds |}
              (fun _ => {| select_reply := None; remove_reply := Succeeds;
                           delete_reply := Succeeds |})
              s (Sample.world [])) as [Hcreate _].
  - apply NoDup_singleton.
  - apply Hcreate. intros Hin. apply list_elem_of_singleton in Hin.
    vm_compute in Hin. discriminate.
Defined.

Lemma failed_capture_changes_nothing_witness :
  let s :=
    Sample.state [Sample.bill "k01" "INV-1" "2024-01-02" PENDING 10 None]
      "2024-01-03" true [] in
  allBills (handleAddBill ExtractionFailed Sample.fresh (Sample.replies Succeeds None) s
              (Sample.world [])).1
  = allBills s.
Proof.
  intros s.
  apply (failed_capture_changes_nothing ExtractionFailed Sample.fresh
           (Sample.replies Succeeds None) s (Sample.world [])).
  by right.
Defined.

Lemma online_creation_keeps_local_image_empty_witness :
  let s :=
    Sample.state [Sample.bill "k01" "INV-1" "2024-01-02" PENDING 10 None]
      "2024-01-03" true [] in
  exists local,
    allBills (createBill Sample.fresh (Sample.extracted "INV-2") (Some Sample.photo) None
                (Sample.replies Succeeds None) s (Sample.world [])).1
    = local :: allBills s
    /\ imageUrl local = [].
Proof.
  intros s.
  pose proof (online_creation_keeps_local_image_empty (H := sample_host) Sample.fresh
                (Sample.extracted "INV-2") Sample.photo (lit "Hello") None
                (Sample.replies Succeeds None) s (Sample.world [])
                eq_refl eq_refl eq_refl ltac:(vm_compute; reflexivity)
                eq_refl eq_refl) as Hcreate.
  cbv zeta in Hcreate. destruct Hcreate as (local & Hbills & Hurl & _).
  exists local. split; [exact Hbills | exact Hurl].
Defined.

Lemma find_duplicate_exact_witness :
  let stored := Sample.bill "k01" "" "2024-01-02" PENDING 10 None in
  find_duplicate [stored] (lit "INV-7") = None.
Proof.
  intros stored.
  apply (find_duplicate_exact (H := sample_host) [stored] (lit "INV-7")).
  right. intros b Hb. apply list_elem_of_singleton in Hb. subst b.
  vm_compute. discriminate.
Defined.

Lemma saved_copy_is_reported_next_witness :
  let stored := Sample.bill "k01" "INV-001 " "2024-01-02" PENDING 10 None in
  let s := Sample.state [stored] "2024-01-03" false [] in
  let halted :=
    (handleAddBill (Captured Sample.photo (Sample.extracted "inv-001")) Sample.fresh
       (Sample.replies Succeeds None) s (Sample.world [])).1 in
  allBills (handleConfirmDuplicate Sample.fresh (Sample.replies Succeeds None) halted
              (Sample.world [])).1
  = newBill Sample.fresh (Sample.extracted "inv-001") (Some Sample.photo) None s
    :: allBills s.
Proof.
  intros stored s halted.
  pose proof (saved_copy_is_reported_next (H := sample_host) Sample.photo
                (Sample.extracted "inv-001") Sample.fresh Sample.fresh
                (Sample.replies Succeeds None) (Sample.replies Succeeds None) stored s
                (Sample.world []) eq_refl ltac:(vm_compute; reflexivity)
                ltac:(discriminate)) as Hcopy.
  cbv zeta in Hcopy. destruct Hcopy as (_ & Hbills & _). exact Hbills.
Defined.

Lemma quick_add_skips_duplicate_check_witness :
  let stored := Sample.bill "k01" "INV-1" "2024-01-02" PENDING 10 None in
  let s := Sample.state [stored] "2024-01-03" false [] in
  loadingId (handleManualQuickAdd (lit "Grace Traders") (lit "INV-1")
               {| m_boxCount := 3; m_description := lit "Route 7" |} Sample.fresh
               (Sample.replies Succeeds None) s (Sample.world [])).1
  = None.
Proof.
  intros stored s.
  pose proof (quick_add_skips_duplicate_check (H := sample_host) (lit "Grace Traders")
                (lit "INV-1") Sample.photo
                {| m_boxCount := 3; m_description := lit "Route 7" |}
                (Sample.extracted "INV-1") Sample.fresh (Sample.replies Succeeds None)
                stored s (Sample.world []) eq_refl eq_refl
                ltac:(vm_compute; reflexivity)) as Hquick.
  cbv zeta in Hquick. destruct Hquick as (_ & _ & _ & Hloading). exact Hloading.
Defined.

Lemma edit_of_absent_bill_witness :
  let stored := Sample.bill "k01" "INV-1" "2024-01-02" PENDING 10 None in
  let stranger := Sample.bill "k09" "INV-9" "2024-01-02" PENDING 90 None in
  let s := Sample.state [stored] "2024-01-03" true [] in
  allBills (handleUpdateBill stranger (Sample.replies Succeeds None) s (Sample.world [])).1
  = allBills s
  /\ calls (handleUpdateBill stranger (Sample.replies Succeeds None) s (Sample.world [])).2
     = calls (Sample.world []) ++ [TableUpsert stranger].
Proof.
  intros stored stranger s.
  destruct (edit_of_absent_bill (H := sample_host) stranger (Sample.replies Succeeds None)
              s (Sample.world [])) as [Hlocal Hremote].
  - intros b Hb. apply list_elem_of_singleton in Hb. subst b.
    vm_compute. discriminate.
  - split; [exact Hlocal | apply Hremote; reflexivity].
Defined.

Lemma delete_bill_is_local_witness :
  let stored := Sample.bill "k01" "INV-1" "2024-01-02" PENDING 10 None in
  let s := Sample.state [stored] "2024-01-03" true [] in
  let r := {| select_reply := None; remove_reply := Succeeds; delete_reply := Succeeds |} in
  S (length (allBills (handleDeleteBill (lit "k01") true r s (Sample.world [])).1))
  = length (allBills s).
Proof.
  intros stored s r.
  destruct (delete_bill_is_local (H := sample_host) (lit "k01") r r s (Sample.world [])
              (Sample.world [])) as (_ & _ & _ & _ & Hlen & _).
  apply Hlen; [apply NoDup_singleton | apply list_elem_of_here].
Defined.

Lemma delete_selected_is_local_witness :
  let s :=
    Sample.state [Sample.bill "k01" "INV-1" "2024-01-02" PENDING 10 None]
      "2024-01-03" true ["k01"%string] in
  let script := fun _ : jsstring =>
    {| select_reply := None; remove_reply := Succeeds; delete_reply := Succeeds |} in
  selectedIds (handleDeleteSelected true script s (Sample.world [])).1 = ∅.
Proof.
  intros s script.
  pose proof (delete_selected_is_local (H := sample_host) script script s
                (Sample.world []) (Sample.world [])
                ltac:(vm_compute; discriminate)) as Hdelete.
  cbv zeta in Hdelete. destruct Hdelete as (_ & _ & Hempty & _). exact Hempty.
Defined.

Lemma views_keep_store_order_witness :
  let newer := Sample.bill "k03" "INV-3" "2024-01-03" PENDING 30 None in
  let older := Sample.bill "k01" "INV-1" "2024-01-03" PACKED 10 (Some 12) in
  let s := Sample.state [newer; older] "2024-01-03" false [] in
  todayNewBills s
  = List.filter (fun b => str_eqb (entryDate b) (currentDate s)) (allBills s).
Proof.
  intros newer older s.
  destruct (views_keep_store_order (H := sample_host) s) as (_ & _ & Hsorted).
  apply Hsorted. repeat constructor. simpl. lia.
Defined.

Lemma regroup_same_group_witness :
  let grouped :=
    with_group (lit "Route 7") (Some (lit "teal")) 5
      (Sample.bill "k01" "INV-1" "2024-01-02" PENDING 10 None) in
  let s := Sample.state [grouped] "2024-01-03" false ["k01"%string] in
  Forall2
    (fun b b' =>
       description b' = description b /\ colorTheme b' = colorTheme b
       /\ same_outside_group b b'
       /\ updatedAt b' = if is_selected s b then 40 else updatedAt b)
    (allBills s)
    (allBills (applyGroupSettings 40 (fun _ => Sample.replies Succeeds None)
                 (openGroupModal s) (Sample.world [])).1).
Proof.
  intros grouped s.
  apply (regroup_same_group (H := sample_host) (lit "Route 7") (Some (lit "teal")) 40
           (fun _ => Sample.replies Succeeds None) s (Sample.world [])).
  - vm_compute. discriminate.
  - intros b Hb _. apply list_elem_of_singleton in Hb. subst b. split; reflexivity.
Defined.

Lemma selection_toggles_witness :
  let s :=
    Sample.state [Sample.bill "k01" "INV-1" "2024-01-02" PENDING 10 None]
      "2024-01-03" true ["k01"%string] in
  lit "k01" ∈ selectedIds (handleToggleSelect (lit "k02") s) <-> lit "k01" ∈ selectedIds s.
Proof.
  intros s.
  destruct (selection_toggles (lit "k02") s) as (_ & Hother & _).
  apply Hother. vm_compute. discriminate.
Defined.

Lemma snapshot_replaces_store_witness :
  let local := Sample.bill "k01" "INV-1" "2024-01-02" PENDING 10 None in
  let remote := Sample.bill "k02" "INV-2" "2024-01-02" PACKED 20 (Some 25) in
  let s := Sample.state [local] "2024-01-03" true ["k01"%string] in
  allBills (syncBills (FetchData (Some [remote])) s (Sample.world [])) = [remote].
Proof.
  intros local remote s.
  destruct (snapshot_replaces_store (H := sample_host) (FetchError (lit "503")) [remote] 40
              (fun _ => Sample.replies Succeeds None) s (Sample.world []) eq_refl)
    as (Hon & _).
  destruct (Hon eq_refl) as (Hrows & _). exact Hrows.
Defined.

Lemma setup_then_init_witness :
  setupSupabase (fun _ _ => None) (lit "   ") (lit "anon-key")
  = Raised (lit "Supabase URL and Key are required.").
Proof.
  apply (setup_then_init (fun _ _ => None) (lit "   ") (lit "anon-key")).
  left. reflexivity.
Defined.

Lemma description_hash_polynomial_witness :
  description_hash (lit "A7") = poly31 (lit "A7").
Proof.
  destruct (description_hash_polynomial (lit "A7")) as (_ & Hexact & _).
  - repeat constructor.
  - apply Hexact. simpl. lia.
Defined.

(** ** The payload of a data URL *)

Lemma startsWith_empty (s : jsstring) : startsWith s [] = true.
Proof. by destruct s. Qed.

Lemma cut_char_absent (c : N) (s : jsstring) : c ∉ s -> cut [c] s = None.
Proof.
  induction s as [|d s IH]; intros Hc; [done|].
  apply not_elem_of_cons in Hc as [Hd Hs]. simpl.
  rewrite (proj2 (N.eqb_neq c d) Hd). simpl. by rewrite (IH Hs).
Qed.

Lemma cut_char_first (c : N) (a b : jsstring) :
  c ∉ a -> cut [c] (a ++ c :: b) = Some (a, b).
Proof.
  induction a as [|d a IH]; intros Hc.
  - simpl. by rewrite N.eqb_refl, startsWith_empty.
  - apply not_elem_of_cons in Hc as [Hd Ha]. simpl.
    rewrite (proj2 (N.eqb_neq c d) Hd). simpl. by rewrite (IH Ha).
Qed.

Lemma split_char_single (fuel : nat) (c : N) (s : jsstring) :
  c ∉ s -> split_fuel fuel [c] s = [s].
Proof. intros Hc. destruct fuel; [done|]. simpl. by rewrite cut_char_absent. Qed.

Section Payload.
Context `{Host}.

(** The blob of an upload is decoded from the text between the first and
    the second comma of the image string: for a data URL, whose header
    and base64 text hold no comma, that is the base64 text.  A string
    without any comma makes [atob] receive the text "undefined"; when
    [atob] refuses it, as browsers do, the persist throws "Image Upload
    Failed" without having sent the upload or the upsert. *)
Theorem blob_is_payload_after_comma (header payload : jsstring) :
  44%N ∉ header -> 44%N ∉ payload ->
  base64ToBlob (header ++ lit "," ++ payload) = atob payload
  /\ base64ToBlob header = atob (lit "undefined")
  /\ (forall bill r w cause,
        connected w = true ->
        truthy header && startsWith header (lit "data:") = true ->
        atob (lit "undefined") = Raised cause ->
        (saveBillToSupabase bill (Some header) r w).2
        = Raised (lit "Image Upload Failed: " ++ or_else cause (lit "Unknown error"))
        /\ forall fileName blob row,
             StorageUpload fileName blob ∉ calls w -> TableUpsert row ∉ calls w ->
             (StorageUpload fileName blob
                ∉ calls (saveBillToSupabase bill (Some header) r w).1)
             /\ (TableUpsert row ∉ calls (saveBillToSupabase bill (Some header) r w).1)).
Proof.
  intros Hheader Hpayload.
  assert (base64ToBlob header = atob (lit "undefined")) as Hnone.
  { unfold base64ToBlob, split. change (lit ",") with [44%N].
    by rewrite split_char_single. }
  split_and!.
  - unfold base64ToBlob, split. change (lit ",") with [44%N].
    change ([44%N] ++ payload) with (44%N :: payload).
    rewrite length_app. cbn [length]. rewrite Nat.add_succ_r. cbn [split_fuel].
    rewrite cut_char_first by done. cbn [nth].
    by rewrite split_char_single.
  - exact Hnone.
  - intros bill r w cause Hconn Hdata Hatob.
    unfold saveBillToSupabase. rewrite Hconn, Hdata. cbn [negb].
    unfold upload_image. rewrite Hnone, Hatob. cbn [fst snd]. split; [done|].
    intros fileName blob row Hup Hrow. rewrite calls_cleanup_old_image.
    split; intros [Hin|Hin]%elem_of_app; try done;
      destruct (bucket_path (imageUrl bill)) as [[oldPath|m]|];
      try (by apply elem_of_nil in Hin);
      apply list_elem_of_singleton in Hin; discriminate.
Qed.

End Payload.

Lemma blob_is_payload_after_comma_witness :
  base64ToBlob (lit "data:image/jpeg;base64" ++ lit "," ++ lit "SGVsbG8=")
  = atob (lit "SGVsbG8=").
Proof.
  apply (blob_is_payload_after_comma (H := sample_host) (lit "data:image/jpeg;base64")
           (lit "SGVsbG8=")).
  - vm_compute. intros Hin. by repeat (apply elem_of_cons in Hin as [Hin|Hin]; [discriminate|]);
      apply elem_of_nil in Hin.
  - vm_compute. intros Hin. by repeat (apply elem_of_cons in Hin as [Hin|Hin]; [discriminate|]);
      apply elem_of_nil in Hin.
Defined.
